(** * ATT&CK Navigator layer merging: a shallow embedding

    This development embeds the two merge scripts of the repository,
    [merge_layers.py] and [merge_navigator_layers.py], and states their
    properties.

    Modelling conventions.
    - A Python [str] is a [string]; a character stands for the code point
      of the same number (code points below 256).
    - A Python [int] is a [Z].
    - An attribute that may be [None] is an [option].
    - A Python exception is the [Raise] case of [result].
    - The layer library is not part of the repository.  Of its gradient
      the embedding keeps what the scripts meet on their last lines: the
      setters compute the curve of colours again and raise ValueError
      when maxValue is not above minValue ([compute_curve]), and the
      colours are read back as red, green and blue ([colors_read_back]).
    - The technique objects of the merged layer are updated in place by
      the scripts.  A technique adopted from a layer is shared with that
      layer, but the loop over that layer has already gone past it and no
      layer is read again after its loop, so the techniques of the merged
      layer are exactly those of a value model where the first technique
      carrying the identifier is replaced ([store_technique]). *)

From Stdlib Require Import ZArith List String Ascii Bool Lia Permutation.
From Stdlib Require Import DecimalString.
Import ListNotations.
Open Scope string_scope.
Open Scope Z_scope.

(** ** Exceptions *)

(** [SystemExit code] is raised by [exit(code)]. *)
Inductive exn :=
| TypeError
| IndexError
| SystemExit (code : Z)
| ValueError
| AttributeError.

Inductive result (A : Type) : Type :=
| Ok (a : A)
| Raise (e : exn).
Arguments Ok {A} a.
Arguments Raise {A} e.

Definition bind {A B} (r : result A) (k : A -> result B) : result B :=
  match r with
  | Ok a => k a
  | Raise e => Raise e
  end.

Notation "'do' x <- e ; k" := (bind e (fun x => k))
  (at level 10, x name, e at level 100, k at level 200).

(** ** Python strings *)

Definition LF : ascii := ascii_of_nat 10.
Definition blank_line : string := String LF (String LF "").

(** [str.isspace] on the code points below 256: TAB..CR, FS..US, SPACE,
    NEL and NBSP. *)
Definition is_space (c : ascii) : bool :=
  let n := N_of_ascii c in
  ((9 <=? n) && (n <=? 13) || (28 <=? n) && (n <=? 32)
   || (n =? 133) || (n =? 160))%N.

Fixpoint mem_char (c : ascii) (chars : string) : bool :=
  match chars with
  | "" => false
  | String d rest => Ascii.eqb c d || mem_char c rest
  end.

Fixpoint lstrip_by (p : ascii -> bool) (s : string) : string :=
  match s with
  | "" => ""
  | String c rest => if p c then lstrip_by p rest else s
  end.

Fixpoint rstrip_by (p : ascii -> bool) (s : string) : string :=
  match s with
  | "" => ""
  | String c rest =>
      match rstrip_by p rest with
      | "" => if p c then "" else String c ""
      | kept => String c kept
      end
  end.

(** [s.strip()] *)
Definition strip (s : string) : string := rstrip_by is_space (lstrip_by is_space s).

(** [s.strip(chars)] *)
Definition strip_chars (chars s : string) : string :=
  rstrip_by (fun c => mem_char c chars) (lstrip_by (fun c => mem_char c chars) s).

(** [sep.join(parts)] *)
Fixpoint join (sep : string) (parts : list string) : string :=
  match parts with
  | [] => ""
  | [p] => p
  | p :: rest => p ++ sep ++ join sep rest
  end.

(** [s.split(sep)] for a one-character separator: never empty. *)
Fixpoint split (sep : ascii) (s : string) : list string :=
  match s with
  | "" => [""]
  | String c rest =>
      if Ascii.eqb c sep then "" :: split sep rest
      else match split sep rest with
           | [] => [String c ""]
           | p :: ps => String c p :: ps
           end
  end.

(** [s.replace(old, new)] for one-character [old] and [new]. *)
Fixpoint replace (old new : ascii) (s : string) : string :=
  match s with
  | "" => ""
  | String c rest => String (if Ascii.eqb c old then new else c) (replace old new rest)
  end.

(** [str(n)] for an integer. *)
Definition str (n : Z) : string := NilZero.string_of_int (Z.to_int n).

(** Truth value of an optional integer and of an optional string. *)
Definition truthy_int (v : option Z) : bool :=
  match v with
  | Some n => negb (n =? 0)
  | None => false
  end.

Definition truthy_str (v : option string) : bool :=
  match v with
  | Some s => negb (s =? "")%string
  | None => false
  end.

Definition truthy_bool (v : option bool) : bool :=
  match v with
  | Some b => b
  | None => false
  end.

(** ** The pattern of a group identifier *)

Definition is_upper (c : ascii) : bool :=
  let n := N_of_ascii c in ((65 <=? n) && (n <=? 90))%N.

Definition is_digit (c : ascii) : bool :=
  let n := N_of_ascii c in ((48 <=? n) && (n <=? 57))%N.

(** [re.match("[A-Z][0-9]{4}", s)]: the pattern read at the head of [s]. *)
Definition match_id (s : string) : option string :=
  match s with
  | String a (String d1 (String d2 (String d3 (String d4 _)))) =>
      if is_upper a && is_digit d1 && is_digit d2 && is_digit d3 && is_digit d4
      then Some (String a (String d1 (String d2 (String d3 (String d4 "")))))
      else None
  | _ => None
  end.

(** [re.match("\([A-Z][0-9]{4}\)", s)] *)
Definition match_paren_id (s : string) : option string :=
  match s with
  | String o (String a (String d1 (String d2 (String d3 (String d4 (String c _)))))) =>
      if Ascii.eqb o "(" && is_upper a && is_digit d1 && is_digit d2
         && is_digit d3 && is_digit d4 && Ascii.eqb c ")"
      then Some (String o (String a (String d1 (String d2 (String d3
                   (String d4 (String c "")))))))
      else None
  | _ => None
  end.

(** [re.search(pattern, s)]: the leftmost position where the pattern
    reads, [None] when there is none. *)
Fixpoint search (pattern : string -> option string) (s : string) : option string :=
  match pattern s with
  | Some m => Some m
  | None =>
      match s with
      | "" => None
      | String _ rest => search pattern rest
      end
  end.

(** ** Data model *)

Record Technique := mkTechnique {
  techniqueID : string;
  tactic : option string;
  score : option Z;
  comment : option string;
  enabled : option bool;
  showSubtechniques : bool;
  color : option string
}.

Definition set_score (t : Technique) (v : option Z) : Technique :=
  mkTechnique (techniqueID t) (tactic t) v (comment t) (enabled t)
              (showSubtechniques t) (color t).

Definition set_comment (t : Technique) (v : option string) : Technique :=
  mkTechnique (techniqueID t) (tactic t) (score t) v (enabled t)
              (showSubtechniques t) (color t).

Definition set_enabled (t : Technique) (v : option bool) : Technique :=
  mkTechnique (techniqueID t) (tactic t) (score t) (comment t) v
              (showSubtechniques t) (color t).

Definition set_showSubtechniques (t : Technique) (v : bool) : Technique :=
  mkTechnique (techniqueID t) (tactic t) (score t) (comment t) (enabled t)
              v (color t).

Definition set_color (t : Technique) (v : option string) : Technique :=
  mkTechnique (techniqueID t) (tactic t) (score t) (comment t) (enabled t)
              (showSubtechniques t) v.

Record Gradient := mkGradient {
  colors : list string;
  minValue : Z;
  maxValue : Z
}.

Record LegendItem := mkLegendItem {
  label : string;
  legend_color : string
}.

Record Layout := mkLayout {
  showAggregateScores : option bool;
  aggregateFunction : option string;
  showID : option bool;
  showName : option bool;
  layout_kind : option string;
  countUnscored : option bool
}.

(** The document, with the fields of the interface.  The name is always
    a string; the description, the gradient and the legend items read as
    [None] when the file has none.  The documents considered hold a list
    of techniques, which may be empty. *)
Record Layer := mkLayer {
  name : string;
  description : option string;
  domain : string;
  layout : Layout;
  techniques : list Technique;
  gradient : option Gradient;
  legendItems : option (list LegendItem);
  sorting : Z;
  hideDisabled : bool;
  expandSubtechniques : bool;
  selectTechniquesAcrossTactics : bool
}.

Definition set_techniques (l : Layer) (ts : list Technique) : Layer :=
  mkLayer (name l) (description l) (domain l) (layout l) ts (gradient l)
          (legendItems l) (sorting l) (hideDisabled l) (expandSubtechniques l)
          (selectTechniquesAcrossTactics l).

(** The gradient of the layer library.  Each of its setters ([colors],
    [minValue], [maxValue]) stores the value and computes the curve of
    colours again; for a gradient of two colours it asks the colour
    package for a scale of [maxValue - minValue] colours, and the package
    raises ValueError when asked for fewer than one. *)
Definition compute_curve (minValue maxValue : Z) : result unit :=
  if maxValue - minValue <? 1 then Raise ValueError else Ok tt.

(** The library keeps a colour as red, green and blue: what
    [gradient.colors] reads back once ["#ffffff00"] and ["#ff6666ff"] have
    been assigned to it. *)
Definition colors_read_back : list string := ["#ffffff"; "#ff6666"].

(** [layers.pop()]: the last element and the list without it. *)
Fixpoint pop {A} (l : list A) : result (A * list A) :=
  match l with
  | [] => Raise IndexError
  | [x] => Ok (x, [])
  | x :: rest => do p <- pop rest; Ok (fst p, x :: snd p)
  end.

(** The technique object found by identifier is updated in place: in the
    list, the first technique carrying the identifier is replaced. *)
Fixpoint store_technique (technique_id : string) (updated : Technique)
         (ts : list Technique) : list Technique :=
  match ts with
  | [] => []
  | t :: rest =>
      if (techniqueID t =? technique_id)%string then updated :: rest
      else t :: store_technique technique_id updated rest
  end.

Definition e_acute : ascii := ascii_of_nat 233.
Definition label_high : string := "La plus fr" ++ String e_acute "quente".
Definition label_low : string := "La moins fr" ++ String e_acute "quente".

(** The outcome of one merge: the merged layer, the two counters and the
    warnings printed by the name resolution. *)
Record Merged := mkMerged {
  merged_layer : Layer;
  max_score : Z;
  number_of_techniques_disabled : Z;
  warnings : list string
}.

(** ** merge_layers.py *)

Module MergeLayers.

Fixpoint find_technique (technique_id : string) (ts : list Technique) : option Technique :=
  match ts with
  | [] => None
  | technique :: rest =>
      if (techniqueID technique =? technique_id)%string then Some technique
      else find_technique technique_id rest
  end.

(** Lines 9-14. *)
Definition find_technique_in_layer (technique_id : string) (layer : Layer) : option Technique :=
  find_technique technique_id (techniques layer).

(** Lines 45-50: the name of a layer, read from its description, and the
    lines printed.  [re.search] raises TypeError on a description that is
    [None], and the script catches AttributeError only. *)
Definition layer_name (json_file_path : string) (new_layer : Layer)
  : result (string * list string) :=
  match description new_layer with
  | None => Raise TypeError
  | Some text =>
      match search match_id text with
      | Some found => Ok (found, [])
      | None =>
          let file_name := last (split "/" (replace "\" "/" json_file_path)) "" in
          Ok (file_name,
              ["Could not parse the name of " ++ json_file_path
               ++ ", filename will be used instead."])
      end
  end.

(** Lines 62-67. *)
Definition initialize_technique (technique : Technique) : Technique :=
  let technique :=
    match score technique with
    | None => set_score technique (Some 0)
    | Some _ => technique
    end in
  let technique :=
    match comment technique with
    | None => set_comment technique (Some "")
    | Some _ => technique
    end in
  match enabled technique with
  | None => set_enabled technique (Some true)
  | Some _ => technique
  end.

(** Lines 60-67. *)
Definition initialize_layer (layer : Layer) : Layer :=
  set_techniques layer (map initialize_technique (techniques layer)).

Definition initialize_layers (layers : list Layer) : list Layer :=
  map initialize_layer layers.

(** Lines 84-97: the characteristics of [this_layer_technique] merged into
    the technique found in the merged layer. *)
Definition reconcile (merged_layer_technique this_layer_technique : Technique)
  : result Technique :=
  do with_score <-
    (if truthy_int (score this_layer_technique)
     then match score merged_layer_technique, score this_layer_technique with
          | Some a, Some b => Ok (set_score merged_layer_technique (Some (a + b)))
          | _, _ => Raise TypeError
          end
     else Ok merged_layer_technique);
  do with_comment <-
    (if truthy_str (comment this_layer_technique)
     then match comment with_score, comment this_layer_technique with
          | Some a, Some b => Ok (set_comment with_score (Some (a ++ blank_line ++ b)))
          | _, _ => Raise TypeError
          end
     else Ok with_score);
  Ok (match enabled this_layer_technique with
      | Some false => set_enabled with_comment (Some false)
      | _ => with_comment
      end).

(** Lines 76-101: one round of the inner loop. *)
Definition merge_technique (merged_layer : Layer) (this_layer_technique : Technique)
  : result Layer :=
  match find_technique_in_layer (techniqueID this_layer_technique) merged_layer with
  | Some merged_layer_technique =>
      do updated <- reconcile merged_layer_technique this_layer_technique;
      Ok (set_techniques merged_layer
            (store_technique (techniqueID this_layer_technique) updated
               (techniques merged_layer)))
  | None =>
      Ok (set_techniques merged_layer (techniques merged_layer ++ [this_layer_technique]))
  end.

Fixpoint merge_techniques (merged_layer : Layer) (ts : list Technique) : result Layer :=
  match ts with
  | [] => Ok merged_layer
  | this_layer_technique :: rest =>
      do merged_layer <- merge_technique merged_layer this_layer_technique;
      merge_techniques merged_layer rest
  end.

(** Lines 75-101. *)
Fixpoint merge_loop (merged_layer : Layer) (layers : list Layer) : result Layer :=
  match layers with
  | [] => Ok merged_layer
  | layer :: rest =>
      do merged_layer <- merge_techniques merged_layer (techniques layer);
      merge_loop merged_layer rest
  end.

(** Lines 105-115: one round of the post merge loop, on the technique and
    the two counters. *)
Definition post_technique (technique : Technique) (max_score disabled : Z)
  : result (Technique * (Z * Z)) :=
  let technique := set_showSubtechniques technique false in
  if negb (truthy_bool (enabled technique))
  then Ok (technique, (max_score, disabled + 1))
  else
    match score technique with
    | None => Raise TypeError
    | Some s =>
        let max_score := if s >? max_score then s else max_score in
        let technique :=
          if truthy_str (comment technique)
          then set_comment technique (option_map strip (comment technique))
          else technique in
        Ok (technique, (max_score, disabled))
    end.

(** Lines 104-115. *)
Fixpoint post_merge (ts : list Technique) (max_score disabled : Z)
  : result (list Technique * (Z * Z)) :=
  match ts with
  | [] => Ok ([], (max_score, disabled))
  | technique :: rest =>
      do head <- post_technique technique max_score disabled;
      do tail <- post_merge rest (fst (snd head)) (snd (snd head));
      Ok (fst head :: fst tail, snd tail)
  end.

(** Lines 59-115: initialization, choice of the merged layer, merge and
    post merge; the merged layer and the two counters. *)
Definition merge (layers : list Layer) : result (Layer * (Z * Z)) :=
  let layers := initialize_layers layers in
  do popped <- pop layers;
  let merged_layer := fst popped in
  let layers := snd popped in
  let max_score := 1 in
  let number_of_techniques_disabled := 0 in
  do merged_layer <- merge_loop merged_layer layers;
  do post <- post_merge (techniques merged_layer) max_score number_of_techniques_disabled;
  Ok (set_techniques merged_layer (fst post), snd post).

(** Lines 118-137.  Lines 132-134 go through the setters of the gradient
    of the merged layer, in this order: colors (with the minValue and the
    maxValue that the layer came with), minValue, maxValue.  A layer
    without gradient or without legend items has [None] there, and the
    assignment or the call fails with AttributeError.  The colors of the
    legend items are read back from the gradient. *)
Definition set_metadata (merged_layer : Layer) (layer_names : list string)
           (max_score : Z) : result Layer :=
  match gradient merged_layer with
  | None => Raise AttributeError
  | Some seed_gradient =>
      do colors_set <- compute_curve (minValue seed_gradient) (maxValue seed_gradient);
      do minValue_set <- compute_curve 0 (maxValue seed_gradient);
      do maxValue_set <- compute_curve 0 max_score;
      match legendItems merged_layer with
      | None => Raise AttributeError
      | Some _ =>
          let colors := colors_read_back in
          Ok (mkLayer
                "Matrix of aggregated techniques"
                (Some ("ATT&CK Techniques used by " ++ strip (join ", " layer_names)))
                (domain merged_layer)
                (mkLayout (Some true) (Some "max") (Some false) (Some true)
                          (Some "flat") (Some false))
                (techniques merged_layer)
                (Some (mkGradient colors 0 max_score))
                (Some [mkLegendItem label_high (nth 1 colors "");
                       mkLegendItem label_low (nth 0 colors "")])
                3
                true
                false
                true)
      end
  end.

(** Lines 34-50: the files of one path are read in turn; a file that is
    not valid JSON ([None]) ends the run with [exit(1)]; the name of each
    layer is resolved as soon as the layer is read.  Each layer comes
    with the path of its file, its name and the lines printed. *)
Fixpoint import_layers (files : list (string * option Layer))
  : result (list (string * Layer * (string * list string))) :=
  match files with
  | [] => Ok []
  | (json_file_path, None) :: _ => Raise (SystemExit 1)
  | (json_file_path, Some new_layer) :: rest =>
      do named <- layer_name json_file_path new_layer;
      do imported <- import_layers rest;
      Ok ((json_file_path, new_layer, named) :: imported)
  end.

(** Lines 24-143 for one path, given the files matched in it, each with
    the layer read from it: [None] when the path is skipped. *)
Definition process_path (files : list (string * option Layer)) : result (option Merged) :=
  do imported <- import_layers files;
  let layers := map (fun f => snd (fst f)) imported in
  let named := map snd imported in
  if (Z.of_nat (List.length layers) =? 0) then Ok None
  else
    do merged <- merge layers;
    do with_metadata <- set_metadata (fst merged) (map fst named) (fst (snd merged));
    Ok (Some (mkMerged
                with_metadata
                (fst (snd merged))
                (snd (snd merged))
                (List.concat (map snd named)))).

End MergeLayers.

(** ** merge_navigator_layers.py *)

Module MergeNavigatorLayers.

Fixpoint find_technique (technique_id : string) (ts : list Technique) : option Technique :=
  match ts with
  | [] => None
  | technique :: rest =>
      if (techniqueID technique =? technique_id)%string then Some technique
      else find_technique technique_id rest
  end.

(** Lines 12-17. *)
Definition find_technique_in_layer (technique_id : string) (layer : Layer) : option Technique :=
  find_technique technique_id (techniques layer).

(** Lines 19-24: the name of a layer and the lines printed. *)
Definition get_layer_name (layer : Layer) (file_name : string) : string * list string :=
  match search match_paren_id (name layer) with
  | Some found => (strip_chars "()" found, [])
  | None =>
      (file_name,
       ["Could not parse the name of " ++ file_name
        ++ ", filename will be used instead."])
  end.

(** Lines 88-93. *)
Definition initialize_technique (technique : Technique) : Technique :=
  let technique :=
    match score technique with
    | None => set_score technique (Some 0)
    | Some _ => technique
    end in
  let technique :=
    match comment technique with
    | None => set_comment technique (Some "")
    | Some _ => technique
    end in
  match enabled technique with
  | None => set_enabled technique (Some true)
  | Some _ => technique
  end.

(** Lines 86-93. *)
Definition initialize_layer (layer : Layer) : Layer :=
  set_techniques layer (map initialize_technique (techniques layer)).

Definition initialize_layers (layers : list Layer) : list Layer :=
  map initialize_layer layers.

(** Lines 110-123. *)
Definition reconcile (merged_layer_technique this_layer_technique : Technique)
  : result Technique :=
  do with_score <-
    (if truthy_int (score this_layer_technique)
     then match score merged_layer_technique, score this_layer_technique with
          | Some a, Some b => Ok (set_score merged_layer_technique (Some (a + b)))
          | _, _ => Raise TypeError
          end
     else Ok merged_layer_technique);
  do with_comment <-
    (if truthy_str (comment this_layer_technique)
     then match comment with_score, comment this_layer_technique with
          | Some a, Some b => Ok (set_comment with_score (Some (a ++ blank_line ++ b)))
          | _, _ => Raise TypeError
          end
     else Ok with_score);
  Ok (match enabled this_layer_technique with
      | Some false => set_enabled with_comment (Some false)
      | _ => with_comment
      end).

(** Lines 102-127: one round of the inner loop. *)
Definition merge_technique (merged_layer : Layer) (this_layer_technique : Technique)
  : result Layer :=
  match find_technique_in_layer (techniqueID this_layer_technique) merged_layer with
  | Some merged_layer_technique =>
      do updated <- reconcile merged_layer_technique this_layer_technique;
      Ok (set_techniques merged_layer
            (store_technique (techniqueID this_layer_technique) updated
               (techniques merged_layer)))
  | None =>
      Ok (set_techniques merged_layer (techniques merged_layer ++ [this_layer_technique]))
  end.

Fixpoint merge_techniques (merged_layer : Layer) (ts : list Technique) : result Layer :=
  match ts with
  | [] => Ok merged_layer
  | this_layer_technique :: rest =>
      do merged_layer <- merge_technique merged_layer this_layer_technique;
      merge_techniques merged_layer rest
  end.

(** Lines 101-127. *)
Fixpoint merge_loop (merged_layer : Layer) (layers : list Layer) : result Layer :=
  match layers with
  | [] => Ok merged_layer
  | layer :: rest =>
      do merged_layer <- merge_techniques merged_layer (techniques layer);
      merge_loop merged_layer rest
  end.

(** Lines 131-142: one round of the post merge loop. *)
Definition post_technique (technique : Technique) (max_score disabled : Z)
  : result (Technique * (Z * Z)) :=
  let technique := set_showSubtechniques technique false in
  let technique := set_color technique (Some "") in
  if negb (truthy_bool (enabled technique))
  then Ok (technique, (max_score, disabled + 1))
  else
    match score technique with
    | None => Raise TypeError
    | Some s =>
        let max_score := if s >? max_score then s else max_score in
        let technique :=
          if truthy_str (comment technique)
          then set_comment technique (option_map strip (comment technique))
          else technique in
        Ok (technique, (max_score, disabled))
    end.

(** Lines 130-142. *)
Fixpoint post_merge (ts : list Technique) (max_score disabled : Z)
  : result (list Technique * (Z * Z)) :=
  match ts with
  | [] => Ok ([], (max_score, disabled))
  | technique :: rest =>
      do head <- post_technique technique max_score disabled;
      do tail <- post_merge rest (fst (snd head)) (snd (snd head));
      Ok (fst head :: fst tail, snd tail)
  end.

(** Lines 84-142. *)
Definition merge (layers : list Layer) : result (Layer * (Z * Z)) :=
  let layers := initialize_layers layers in
  do popped <- pop layers;
  let merged_layer := fst popped in
  let layers := snd popped in
  let max_score := 0 in
  let number_of_techniques_disabled := 0 in
  do merged_layer <- merge_loop merged_layer layers;
  do post <- post_merge (techniques merged_layer) max_score number_of_techniques_disabled;
  Ok (set_techniques merged_layer (fst post), snd post).

(** Lines 145-164; [layer_names] are the names resolved on line 145 and
    [number_of_layers] is [len(layers_to_filename_dict)].  Lines 159-161
    go through the setters of the gradient of the merged layer, in this
    order: colors (with the minValue and the maxValue that the layer came
    with), minValue, maxValue.  A layer without gradient or without
    legend items has [None] there, and the assignment or the call fails
    with AttributeError.  The colors of the legend items are read back
    from the gradient. *)
Definition set_metadata (merged_layer : Layer) (layer_names : list string)
           (number_of_layers : Z) (max_score : Z) : result Layer :=
  match gradient merged_layer with
  | None => Raise AttributeError
  | Some seed_gradient =>
      do colors_set <- compute_curve (minValue seed_gradient) (maxValue seed_gradient);
      do minValue_set <- compute_curve 0 (maxValue seed_gradient);
      do maxValue_set <- compute_curve 0 max_score;
      match legendItems merged_layer with
      | None => Raise AttributeError
      | Some _ =>
          let colors := colors_read_back in
          Ok (mkLayer
                (str number_of_layers ++ " layers merged")
                (Some ("ATT&CK Techniques used by " ++ strip (join ", " layer_names)
                       ++ ". Maximum score is " ++ str max_score))
                (domain merged_layer)
                (mkLayout (Some true) (Some "max") (Some false) (Some true)
                          (Some "flat") (Some false))
                (techniques merged_layer)
                (Some (mkGradient colors 0 max_score))
                (Some [mkLegendItem label_high (nth 1 colors "");
                       mkLegendItem label_low (nth 0 colors "")])
                3
                true
                false
                true)
      end
  end.

(** Lines 63-73: a file that is not valid JSON ([None]) is left out; a
    layer is kept with the name of its file up to the first dot. *)
Fixpoint import_layers (files : list (string * option Layer))
  : list (Layer * string) :=
  match files with
  | [] => []
  | (json_file_path, None) :: rest => import_layers rest
  | (json_file_path, Some new_layer) :: rest =>
      (new_layer, hd "" (split "." json_file_path)) :: import_layers rest
  end.

(** Lines 50-171, given the JSON files of all the paths, each with the
    layer read from it; [exit(0)] when there is nothing to do. *)
Definition main (files : list (string * option Layer)) : result Merged :=
  let layers_to_filename_dict := import_layers files in
  if (Z.of_nat (List.length layers_to_filename_dict) =? 0) then Raise (SystemExit 0)
  else
    let layers := map fst layers_to_filename_dict in
    do merged <- merge layers;
    let named :=
      map (fun entry => get_layer_name (fst entry) (snd entry)) layers_to_filename_dict in
    do with_metadata <-
      set_metadata (fst merged) (map fst named)
                   (Z.of_nat (List.length layers_to_filename_dict)) (fst (snd merged));
    Ok (mkMerged
          with_metadata
          (fst (snd merged))
          (snd (snd merged))
          (List.concat (map snd named))).

End MergeNavigatorLayers.

(** ** navigator_layers_downloader.py *)

Module Downloader.

(** The exceptions that the script raises itself, each with its message
    [e.args[0]]; [KeyError] is raised by a dictionary without the key. *)
Inductive error :=
| ValueError (message : string)
| TypeError (message : string)
| IndexError (message : string)
| KeyError (message : string).

Inductive outcome (A : Type) : Type :=
| Return (a : A)
| Raised (e : error).
Arguments Return {A} a.
Arguments Raised {A} e.

(** Lines 42-43. *)
Definition DOMAINS : list string := ["enterprise"; "mobile"; "ics"].

Definition ATTACK_TO_STIX_MAPPING : list (string * list string) :=
  [("groups", ["intrusion-set"]); ("software", ["malware"; "tool"])].

(** Lines 49-50. *)
Definition LAYER_TYPES : list (string * string) :=
  [("S", "software"); ("G", "groups")].

(** [x in l] for a list of strings. *)
Definition mem_string (x : string) (l : list string) : bool :=
  existsb (String.eqb x) l.

(** [d[key]] for a dictionary with string keys. *)
Fixpoint lookup {V} (key : string) (d : list (string * V)) : option V :=
  match d with
  | [] => None
  | (k, v) :: rest => if (k =? key)%string then Some v else lookup key rest
  end.

Record LayerInfo := mkLayerInfo {
  id : string;
  type : string;
  domains : list string
}.

(** Lines 52-63: [LayerInfo(id, domains)]. *)
Definition new_LayerInfo (id : string) (domains : list string) : outcome LayerInfo :=
  match id with
  | "" => Raised (IndexError "string index out of range")
  | String first _ =>
      match lookup (String first "") LAYER_TYPES with
      | None => Raised (ValueError ("The id " ++ id ++ " has not been recognized"))
      | Some type =>
          match find (fun domain => negb (mem_string domain DOMAINS)) domains with
          | Some domain =>
              Raised (ValueError ("The domain " ++ domain ++ " has not been recognized"))
          | None => Return (mkLayerInfo id type domains)
          end
      end
  end.

(** The parts of a STIX block that the script reads.  [block_type] is the
    attribute [type] of the block. *)
Record ExternalReference := mkExternalReference {
  source_name : string;
  external_id : string
}.

Record StixBlock := mkStixBlock {
  block_type : string;
  external_references : list ExternalReference;
  x_mitre_domains : list string
}.

Definition no_attack_data : string :=
  "This STIX block doesn't describe any MITRE ATTACK data".

(** Lines 66-75. *)
Definition from_stix_block (stix_block : StixBlock) : outcome LayerInfo :=
  if negb (mem_string (block_type stix_block)
                      (flat_map snd ATTACK_TO_STIX_MAPPING))
  then Raised (TypeError
                 "This STIX block doesn't describe a MITRE ATTACK Software or Group")
  else
    match external_references stix_block with
    | [] => Raised (TypeError no_attack_data)
    | _ =>
        match find (fun external_reference =>
                      (source_name external_reference =? "mitre-attack")%string)
                   (external_references stix_block) with
        | Some external_reference =>
            new_LayerInfo (external_id external_reference)
                          (map (strip_chars "-attack") (x_mitre_domains stix_block))
        | None => Raised (TypeError no_attack_data)
        end
    end.

(** Lines 77-81. *)
Definition is_stix_block_of_attack_id (stix_block : StixBlock) (attack_id : string) : bool :=
  existsb (fun external_reference =>
             (source_name external_reference =? "mitre-attack")%string
             && (external_id external_reference =? attack_id)%string)
          (external_references stix_block).

(** Lines 130-138. *)
Definition extract_layer_info_from_stix_data (stix_json_data : list StixBlock) : list string :=
  flat_map (fun stix_block =>
              match find (fun external_reference =>
                            (source_name external_reference =? "mitre-attack")%string)
                         (external_references stix_block) with
              | Some external_reference => [external_id external_reference]
              | None => []
              end)
           stix_json_data.

(** [l.remove(x)] for an [x] that is in [l]: the first occurrence goes. *)
Fixpoint remove_first (x : string) (l : list string) : list string :=
  match l with
  | [] => []
  | y :: rest => if (y =? x)%string then rest else y :: remove_first x rest
  end.

(** Lines 307-311 (and 345-349): the first identifier of the list that
    the block carries. *)
Fixpoint first_id (stix_block : StixBlock) (id_list : list string) : option string :=
  match id_list with
  | [] => None
  | id :: rest =>
      if is_stix_block_of_attack_id stix_block id then Some id
      else first_id stix_block rest
  end.

(** Lines 306-313 (and 344-351): the blocks found so far and the
    identifiers still looked for. *)
Fixpoint select_loop (all_stix_data : list StixBlock) (stix_data : list StixBlock)
         (id_list : list string) : list StixBlock * list string :=
  match all_stix_data with
  | [] => (stix_data, id_list)
  | one_stix_block :: rest =>
      let found :=
        match first_id one_stix_block id_list with
        | Some id => ((stix_data ++ [one_stix_block])%list, remove_first id id_list)
        | None => (stix_data, id_list)
        end in
      if (Z.of_nat (List.length (snd found)) =? 0) then found
      else select_loop rest (fst found) (snd found)
  end.

(** Lines 304-313 (and 342-351). *)
Definition select_by_ids (all_stix_data : list StixBlock) (stix_data : list StixBlock)
           (id_list : list string) : list StixBlock * list string :=
  if negb (Z.of_nat (List.length id_list) =? 0)
  then select_loop all_stix_data stix_data id_list
  else (stix_data, id_list).

(** Lines 371-378: the layers to download and the lines printed. *)
Fixpoint convert (stix_data : list StixBlock) : list LayerInfo * list string :=
  match stix_data with
  | [] => ([], [])
  | stix_block :: rest =>
      let converted := convert rest in
      match from_stix_block stix_block with
      | Return layer_info => (layer_info :: fst converted, snd converted)
      | Raised (TypeError _) => converted
      | Raised (ValueError message)
      | Raised (IndexError message)
      | Raised (KeyError message) =>
          (fst converted,
           ("A Software or Group could not be processed : " ++ message) :: snd converted)
      end
  end.

(** Lines 381-385. *)
Definition select_domain (selected_groups_domain selected_software_domain : string)
           (layer_info : LayerInfo) : LayerInfo :=
  let layer_info :=
    if negb (selected_groups_domain =? "all")%string
       && (type layer_info =? "groups")%string
    then mkLayerInfo (id layer_info) (type layer_info) [selected_groups_domain]
    else layer_info in
  if negb (selected_software_domain =? "all")%string
     && (type layer_info =? "software")%string
  then mkLayerInfo (id layer_info) (type layer_info) [selected_software_domain]
  else layer_info.

(** Lines 388-394: the number of groups and the number of software to
    download, in this order. *)
Fixpoint count_types (layer_info_download_list : list LayerInfo) : Z * Z :=
  match layer_info_download_list with
  | [] => (0, 0)
  | layer_info :: rest =>
      let counted := count_types rest in
      if (type layer_info =? "software")%string then (fst counted, snd counted + 1)
      else if (type layer_info =? "groups")%string then (fst counted + 1, snd counted)
      else counted
  end.

(** Lines 112-128, over a [download] that returns [None] when it ends
    and the message of the exception when it raises one: whether every
    domain was downloaded, and the lines printed. *)
Fixpoint download_domains (download : string -> string -> option string)
         (layer_info : LayerInfo) (layers_path : string) (layer_info_domains : list string)
         (is_fully_downloaded : bool) : bool * list string :=
  match layer_info_domains with
  | [] => (is_fully_downloaded, [])
  | layer_info_domain :: rest =>
      let download_path :=
        layers_path ++ "/" ++ layer_info_domain ++ "/" ++ type layer_info ++ "/"
        ++ id layer_info ++ ".json" in
      let download_url :=
        "https://attack.mitre.org/" ++ type layer_info ++ "/" ++ id layer_info ++ "/"
        ++ id layer_info ++ "-" ++ layer_info_domain ++ "-layer.json" in
      match download download_url download_path with
      | None =>
          let later := download_domains download layer_info layers_path rest
                                        is_fully_downloaded in
          (fst later,
           (id layer_info ++ "'s " ++ layer_info_domain ++ " layer downloaded in "
            ++ download_path ++ ".") :: snd later)
      | Some message =>
          let later := download_domains download layer_info layers_path rest false in
          (fst later,
           ("An error occurred while downloading " ++ id layer_info ++ "'s "
            ++ layer_info_domain ++ " layer : " ++ message) :: snd later)
      end
  end.

Definition download_info_layer (download : string -> string -> option string)
           (layer_info : LayerInfo) (layers_path : string) : bool * list string :=
  download_domains download layer_info layers_path (domains layer_info) true.

(** [d[key] += 1]. *)
Fixpoint increment (key : string) (d : list (string * Z)) : outcome (list (string * Z)) :=
  match d with
  | [] => Raised (KeyError key)
  | (k, v) :: rest =>
      if (k =? key)%string then Return ((k, v + 1) :: rest)
      else match increment key rest with
           | Return rest' => Return ((k, v) :: rest')
           | Raised e => Raised e
           end
  end.

(** Lines 404-406. *)
Fixpoint download_loop (download : string -> string -> option string)
         (layers_path : string) (layer_info_download_list : list LayerInfo)
         (fully_successful_downloads : list (string * Z))
  : outcome (list (string * Z)) :=
  match layer_info_download_list with
  | [] => Return fully_successful_downloads
  | layer_info :: rest =>
      if fst (download_info_layer download layer_info layers_path)
      then match increment (type layer_info) fully_successful_downloads with
           | Return counted => download_loop download layers_path rest counted
           | Raised e => Raised e
           end
      else download_loop download layers_path rest fully_successful_downloads
  end.

(** Lines 400-406. *)
Definition download_all (download : string -> string -> option string)
           (layers_path : string) (layer_info_download_list : list LayerInfo)
  : outcome (list (string * Z)) :=
  download_loop download layers_path layer_info_download_list
                (map (fun data_type => (data_type, 0)) (map snd LAYER_TYPES)).

End Downloader.

(** ** Sample documents *)

Definition technique (technique_id : string) (s : Z) (c : string) (e : bool) : Technique :=
  mkTechnique technique_id None (Some s) (Some c) (Some e) true None.

Definition empty_layout : Layout := mkLayout None None None None None None.

Definition layer_of (n d : string) (ts : list Technique) : Layer :=
  mkLayer n (Some d) "enterprise-attack" empty_layout ts
          (Some (mkGradient ["#ff6666"; "#ffe766"; "#8ec843"] 0 100)) (Some []) 0
          false false false.

(** ** Vocabulary of the statements *)

Module ML := MergeLayers.
Module MN := MergeNavigatorLayers.
Module DL := Downloader.

Definition ids (ts : list Technique) : list string := map techniqueID ts.

(** A technique whose three optional characteristics are present. *)
Definition initialized (t : Technique) : bool :=
  match score t, comment t, enabled t with
  | Some _, Some _, Some _ => true
  | _, _, _ => false
  end.

Definition initialized_layer (l : Layer) : bool := forallb initialized (techniques l).

Definition unique_ids (l : Layer) : Prop := NoDup (ids (techniques l)).

(** The two documents of the end-to-end scenario. *)
Definition scenario_doc1 : Layer :=
  layer_of "doc1" "" [technique "T1" 5 "" true; technique "T2" 2 "" true].

Definition scenario_doc2 : Layer :=
  layer_of "doc2" "" [technique "T1" 3 "" false; technique "T3" 1 "" true].

(** The view of the merge by identifier: the techniques that carry one
    identifier, absorbed in turn by the technique of the merged layer. *)
Fixpoint absorb (current : option Technique) (incoming : list Technique)
  : result (option Technique) :=
  match incoming with
  | [] => Ok current
  | t :: rest =>
      match current with
      | None => absorb (Some t) rest
      | Some m => do m' <- ML.reconcile m t; absorb (Some m') rest
      end
  end.

Definition has_id (technique_id : string) (t : Technique) : bool :=
  (techniqueID t =? technique_id)%string.

Definition all_techniques (layers : list Layer) : list Technique :=
  flat_map techniques layers.

(** What the post merge loop leaves of one technique. *)
Definition polished (t : Technique) : Technique :=
  let t := set_showSubtechniques t false in
  if truthy_bool (enabled t) && truthy_str (comment t)
  then set_comment t (option_map strip (comment t))
  else t.

Definition recolored (t : Technique) : Technique := set_color t (Some "").

(** The scores that the post merge loop compares with the maximum. *)
Definition enabled_scores (ts : list Technique) : list Z :=
  flat_map (fun t => if truthy_bool (enabled t)
                     then match score t with Some s => [s] | None => [] end
                     else []) ts.

Definition disabled_count (ts : list Technique) : Z :=
  Z.of_nat (List.length (filter (fun t => negb (truthy_bool (enabled t))) ts)).

(** [merged_as seed paint layers out mx n]: the merge of [layers], started
    with the maximum [seed] and with [paint] applied to every technique by
    the post merge loop, ends with the layer [out] and the counters [mx]
    and [n]. *)
Definition merged_as (seed : Z) (paint : Technique -> Technique)
           (layers : list Layer) (out : Layer) (mx n : Z) : Prop :=
  exists first rest L,
    layers = (rest ++ [first])%list /\
    ML.merge_loop (ML.initialize_layer first) (ML.initialize_layers rest) = Ok L /\
    forallb initialized (techniques L) = true /\
    out = set_techniques L (map polished (map paint (techniques L))) /\
    mx = fold_left Z.max (enabled_scores (techniques L)) seed /\
    n = disabled_count (techniques L).

(** A file that holds a layer with a description. *)
Definition described (f : string * option Layer) : bool :=
  match snd f with
  | Some l => match description l with Some _ => true | None => false end
  | None => false
  end.

(** A layer with legend items and with a gradient that goes up from its
    minValue to a positive maxValue. *)
Definition metadata_ready (l : Layer) : bool :=
  match gradient l, legendItems l with
  | Some g, Some _ => (minValue g <? maxValue g) && (0 <? maxValue g)
  | _, _ => false
  end.

(** A group identifier: an upper case letter and four digits. *)
Definition is_short_identifier (id : string) : bool :=
  match id with
  | String a (String d1 (String d2 (String d3 (String d4 "")))) =>
      is_upper a && is_digit d1 && is_digit d2 && is_digit d3 && is_digit d4
  | _ => false
  end.

Definition occurs_in (part s : string) : Prop :=
  exists before after, s = before ++ part ++ after.

(** The line printed when no name is found. *)
Definition warning (subject : string) : string :=
  "Could not parse the name of " ++ subject ++ ", filename will be used instead.".

(** The characteristics that the merge reconciles. *)
Definition characteristics (t : Technique) : string * option Z * option string * option bool :=
  (techniqueID t, score t, comment t, enabled t).

(** The two scripts. *)
Inductive script := merge_layers_py | merge_navigator_layers_py.

Definition merge_of (s : script) : list Layer -> result (Layer * (Z * Z)) :=
  match s with
  | merge_layers_py => ML.merge
  | merge_navigator_layers_py => MN.merge
  end.

Definition find_of (s : script) : string -> Layer -> option Technique :=
  match s with
  | merge_layers_py => ML.find_technique_in_layer
  | merge_navigator_layers_py => MN.find_technique_in_layer
  end.

Definition reconcile_of (s : script) : Technique -> Technique -> result Technique :=
  match s with
  | merge_layers_py => ML.reconcile
  | merge_navigator_layers_py => MN.reconcile
  end.

Definition merge_techniques_of (s : script) : Layer -> list Technique -> result Layer :=
  match s with
  | merge_layers_py => ML.merge_techniques
  | merge_navigator_layers_py => MN.merge_techniques
  end.

Definition initialize_technique_of (s : script) : Technique -> Technique :=
  match s with
  | merge_layers_py => ML.initialize_technique
  | merge_navigator_layers_py => MN.initialize_technique
  end.

Definition initialize_layer_of (s : script) : Layer -> Layer :=
  match s with
  | merge_layers_py => ML.initialize_layer
  | merge_navigator_layers_py => MN.initialize_layer
  end.

Definition initialize_layers_of (s : script) : list Layer -> list Layer :=
  match s with
  | merge_layers_py => ML.initialize_layers
  | merge_navigator_layers_py => MN.initialize_layers
  end.

(** The first value of [max_score] (line 71, line 97). *)
Definition seed_of (s : script) : Z :=
  match s with
  | merge_layers_py => 1
  | merge_navigator_layers_py => 0
  end.

Definition paint_of (s : script) : Technique -> Technique :=
  match s with
  | merge_layers_py => fun t => t
  | merge_navigator_layers_py => recolored
  end.

(** The values that the initialization gives to absent characteristics. *)
Definition score_of (t : Technique) : Z :=
  match score t with Some v => v | None => 0 end.

Definition comment_of (t : Technique) : string :=
  match comment t with Some c => c | None => "" end.

Definition enabled_of (t : Technique) : bool :=
  match enabled t with Some e => e | None => true end.

Definition total_score (ts : list Technique) : Z :=
  fold_right Z.add 0 (map score_of ts).

(** The non-empty comments of [ts], each after a blank line. *)
Definition appended_comments (ts : list Technique) : string :=
  fold_right (fun t rest => blank_line ++ comment_of t ++ rest) ""
             (filter (fun t => truthy_str (comment t)) ts).

(** The techniques that carry the identifier [T], in the order in which
    the merge meets them: those of the merged layer [first], then those
    of the other layers in the order of the list. *)
Definition records_of (T : string) (first : Layer) (rest : list Layer) : list Technique :=
  filter (has_id T) (all_techniques (first :: rest)).

Definition is_disabled (t : Technique) : bool :=
  match enabled t with Some false => true | _ => false end.

(** [merge_layers.py], lines 31-32 and 140: the folder that is searched
    and written is [path.strip('/')]; the merged layer is saved there as
    [processed.json]. *)
Definition processed_file (path : string) : string :=
  strip_chars "/" path ++ "/processed.json".

(** A string that does not start with a character of [p]. *)
Definition starts_clean (p : ascii -> bool) (s : string) : Prop :=
  match s with
  | "" => True
  | String c _ => p c = false
  end.

(** ** Proofs *)

(** *** The two scripts share the merge loop *)

Lemma find_technique_same : MN.find_technique = ML.find_technique.
Proof. reflexivity. Qed.

Lemma initialize_technique_same : MN.initialize_technique = ML.initialize_technique.
Proof. reflexivity. Qed.

Lemma initialize_layers_same : MN.initialize_layers = ML.initialize_layers.
Proof. reflexivity. Qed.

Lemma reconcile_same : MN.reconcile = ML.reconcile.
Proof. reflexivity. Qed.

Lemma merge_technique_same : MN.merge_technique = ML.merge_technique.
Proof. reflexivity. Qed.

Lemma merge_loop_same : MN.merge_loop = ML.merge_loop.
Proof. reflexivity. Qed.

Lemma post_technique_color t mx n :
  MN.post_technique t mx n = ML.post_technique (set_color t (Some "")) mx n.
Proof. reflexivity. Qed.

Lemma post_merge_color ts : forall mx n,
  MN.post_merge ts mx n = ML.post_merge (map (fun t => set_color t (Some "")) ts) mx n.
Proof.
  induction ts as [|t ts IH]; intros mx n; simpl; [reflexivity|].
  rewrite post_technique_color.
  destruct (ML.post_technique _ mx n) as [[t' [mx' n']]|e]; simpl; [|reflexivity].
  now rewrite IH.
Qed.

(** *** Lookup *)

Lemma find_technique_id T ts m :
  ML.find_technique T ts = Some m -> techniqueID m = T /\ In m ts.
Proof.
  induction ts as [|t ts IH]; simpl; [discriminate|].
  destruct (String.eqb_spec (techniqueID t) T) as [E|E].
  - intros H; inversion H; subst; auto.
  - intros H; destruct (IH H); auto.
Qed.

Lemma find_technique_none T ts :
  ML.find_technique T ts = None <-> ~ In T (ids ts).
Proof.
  induction ts as [|t ts IH]; simpl; [tauto|].
  destruct (String.eqb_spec (techniqueID t) T) as [E|E].
  - split; [discriminate | intros H; exfalso; apply H; auto].
  - rewrite IH. tauto.
Qed.

Lemma find_technique_unique ts t :
  NoDup (ids ts) -> In t ts -> ML.find_technique (techniqueID t) ts = Some t.
Proof.
  induction ts as [|u ts IH]; simpl; [tauto|].
  intros N [E|I].
  - subst. now rewrite String.eqb_refl.
  - inversion N as [|? ? Hn N']; subst.
    destruct (String.eqb_spec (techniqueID u) (techniqueID t)) as [E|E].
    + exfalso. apply Hn. rewrite E. now apply in_map.
    + auto.
Qed.

Lemma find_technique_app T ts us :
  ML.find_technique T (ts ++ us) =
  match ML.find_technique T ts with
  | Some m => Some m
  | None => ML.find_technique T us
  end.
Proof.
  induction ts as [|t ts IH]; simpl; [reflexivity|].
  now destruct (techniqueID t =? T)%string.
Qed.

Lemma find_store_same T u ts m :
  ML.find_technique T ts = Some m -> techniqueID u = T ->
  ML.find_technique T (store_technique T u ts) = Some u.
Proof.
  intros F E. induction ts as [|t ts IH]; simpl in *; [discriminate|].
  destruct (String.eqb_spec (techniqueID t) T) as [E'|E']; simpl.
  - rewrite E. now rewrite String.eqb_refl.
  - destruct (String.eqb_spec (techniqueID t) T); [contradiction | auto].
Qed.

Lemma find_store_other T T' u ts :
  techniqueID u = T -> T' <> T ->
  ML.find_technique T' (store_technique T u ts) = ML.find_technique T' ts.
Proof.
  intros E N. induction ts as [|t ts IH]; simpl; [reflexivity|].
  destruct (String.eqb_spec (techniqueID t) T) as [E'|E']; simpl.
  - destruct (String.eqb_spec (techniqueID u) T'); [congruence|].
    destruct (String.eqb_spec (techniqueID t) T'); [congruence | reflexivity].
  - now rewrite IH.
Qed.

Lemma ids_store T u ts :
  techniqueID u = T -> ids (store_technique T u ts) = ids ts.
Proof.
  intros E. induction ts as [|t ts IH]; simpl; [reflexivity|].
  destruct (String.eqb_spec (techniqueID t) T) as [E'|E']; simpl; congruence.
Qed.

Lemma find_technique_map (f : Technique -> Technique) T ts :
  (forall t, techniqueID (f t) = techniqueID t) ->
  ML.find_technique T (map f ts) = option_map f (ML.find_technique T ts).
Proof.
  intros Hf. induction ts as [|t ts IH]; simpl; [reflexivity|].
  rewrite Hf. now destruct (techniqueID t =? T)%string.
Qed.

(** *** Reconciliation of two techniques *)

Lemma bind_ok {A B} (r : result A) (k : A -> result B) b :
  bind r k = Ok b -> exists a, r = Ok a /\ k a = Ok b.
Proof. destruct r; simpl; [eauto | discriminate]. Qed.

Lemma reconcile_fields m t m' :
  ML.reconcile m t = Ok m' ->
  techniqueID m' = techniqueID m /\ tactic m' = tactic m /\
  showSubtechniques m' = showSubtechniques m /\ color m' = color m /\
  score m' =
    (if truthy_int (score t)
     then match score m, score t with Some a, Some b => Some (a + b) | _, _ => None end
     else score m) /\
  comment m' =
    (if truthy_str (comment t)
     then match comment m, comment t with
          | Some a, Some b => Some (a ++ blank_line ++ b)
          | _, _ => None
          end
     else comment m) /\
  enabled m' = match enabled t with Some false => Some false | _ => enabled m end.
Proof.
  unfold ML.reconcile. intros H.
  apply bind_ok in H as [m1 [H1 H]]. apply bind_ok in H as [m2 [H2 H]].
  inversion H; subst m'; clear H.
  assert (S1 : techniqueID m1 = techniqueID m /\ tactic m1 = tactic m /\
               showSubtechniques m1 = showSubtechniques m /\ color m1 = color m /\
               comment m1 = comment m /\ enabled m1 = enabled m /\
               score m1 = (if truthy_int (score t)
                           then match score m, score t with
                                | Some a, Some b => Some (a + b)
                                | _, _ => None
                                end
                           else score m)).
  { destruct (truthy_int (score t)).
    - destruct (score m), (score t); inversion H1; subst; simpl; tauto.
    - inversion H1; subst; tauto. }
  destruct S1 as (I1 & T1 & W1 & C1 & M1 & E1 & Sc1).
  assert (S2 : techniqueID m2 = techniqueID m1 /\ tactic m2 = tactic m1 /\
               showSubtechniques m2 = showSubtechniques m1 /\ color m2 = color m1 /\
               score m2 = score m1 /\ enabled m2 = enabled m1 /\
               comment m2 = (if truthy_str (comment t)
                             then match comment m1, comment t with
                                  | Some a, Some b => Some (a ++ blank_line ++ b)
                                  | _, _ => None
                                  end
                             else comment m1)).
  { destruct (truthy_str (comment t)).
    - destruct (comment m1), (comment t); inversion H2; subst; simpl; tauto.
    - inversion H2; subst; tauto. }
  destruct S2 as (I2 & T2 & W2 & C2 & Sc2 & E2 & M2).
  rewrite M1 in M2.
  destruct (enabled t) as [[|]|];
    cbn [set_enabled techniqueID tactic showSubtechniques color score comment enabled];
    repeat split; congruence.
Qed.

Lemma reconcile_total m t :
  score m <> None -> comment m <> None -> exists m', ML.reconcile m t = Ok m'.
Proof.
  intros Hs Hc. unfold ML.reconcile.
  destruct (score m) as [a|] eqn:Sm; [|congruence].
  destruct (comment m) as [c|] eqn:Cm; [|congruence].
  destruct (score t) as [st|]; simpl.
  - destruct (negb (st =? 0)); simpl;
      destruct (comment t) as [ct|]; simpl; rewrite ?Cm;
      try destruct (negb (ct =? "")%string); simpl; rewrite ?Cm; eauto.
  - destruct (comment t) as [ct|]; simpl; rewrite ?Cm;
      try destruct (negb (ct =? "")%string); simpl; rewrite ?Cm; eauto.
Qed.

Lemma reconcile_initialized m t m' :
  initialized m = true -> ML.reconcile m t = Ok m' -> initialized m' = true.
Proof.
  intros I H. apply reconcile_fields in H as (_ & _ & _ & _ & S & C & E).
  unfold initialized in *. rewrite S, C, E.
  destruct (score m), (comment m), (enabled m); try discriminate.
  destruct (score t) as [st|]; simpl; [destruct (negb (st =? 0))|];
    (destruct (comment t) as [ct|]; simpl; [destruct (negb (ct =? "")%string)|]);
    destruct (enabled t) as [[|]|]; reflexivity.
Qed.

Lemma initialized_present t :
  initialized t = true -> score t <> None /\ comment t <> None /\ enabled t <> None.
Proof.
  unfold initialized.
  destruct (score t), (comment t), (enabled t); try discriminate;
    repeat split; discriminate.
Qed.

(** *** One round of the merge loop *)

Lemma merge_technique_ids L t L' :
  ML.merge_technique L t = Ok L' ->
  ids (techniques L') =
  (ids (techniques L) ++
   (if in_dec string_dec (techniqueID t) (ids (techniques L)) then []
    else [techniqueID t]))%list.
Proof.
  unfold ML.merge_technique, ML.find_technique_in_layer.
  destruct (ML.find_technique (techniqueID t) (techniques L)) as [m|] eqn:F.
  - intros H. apply bind_ok in H as [u [R H]]. inversion H; subst; simpl.
    apply reconcile_fields in R as (I & _).
    destruct (find_technique_id _ _ _ F) as [Em _].
    rewrite ids_store by congruence.
    destruct (in_dec string_dec (techniqueID t) (ids (techniques L))) as [i|n].
    + now rewrite app_nil_r.
    + apply find_technique_none in n. congruence.
  - intros H. inversion H; subst; simpl.
    apply find_technique_none in F.
    destruct (in_dec string_dec (techniqueID t) (ids (techniques L))); [contradiction|].
    unfold ids. now rewrite map_app.
Qed.

Lemma merge_technique_absorb T L t L' :
  ML.merge_technique L t = Ok L' ->
  absorb (ML.find_technique T (techniques L)) (filter (has_id T) [t])
  = Ok (ML.find_technique T (techniques L')).
Proof.
  unfold ML.merge_technique, ML.find_technique_in_layer, has_id. simpl.
  destruct (String.eqb_spec (techniqueID t) T) as [E|E].
  - subst T.
    destruct (ML.find_technique (techniqueID t) (techniques L)) as [m|] eqn:F.
    + intros H. apply bind_ok in H as [u [R H]]. inversion H; subst; simpl.
      rewrite R. simpl. f_equal. symmetry.
      apply reconcile_fields in R as (I & _).
      destruct (find_technique_id _ _ _ F) as [Em _].
      eapply find_store_same; [exact F | congruence].
    + intros H. inversion H; subst; simpl.
      rewrite find_technique_app, F. simpl. now rewrite String.eqb_refl.
  - destruct (ML.find_technique (techniqueID t) (techniques L)) as [m|] eqn:F.
    + intros H. apply bind_ok in H as [u [R H]]. inversion H; subst; simpl.
      apply reconcile_fields in R as (I & _).
      destruct (find_technique_id _ _ _ F) as [Em _].
      rewrite find_store_other; [reflexivity | congruence | congruence].
    + intros H. inversion H; subst; simpl.
      rewrite find_technique_app. simpl.
      destruct (String.eqb_spec (techniqueID t) T); [contradiction|].
      now destruct (ML.find_technique T (techniques L)).
Qed.

Lemma merge_technique_frame L t L' :
  ML.merge_technique L t = Ok L' -> set_techniques L' (techniques L) = L.
Proof.
  unfold ML.merge_technique.
  destruct (ML.find_technique_in_layer _ _).
  - intros H. apply bind_ok in H as [u [_ H]]. inversion H. now destruct L.
  - intros H. inversion H. now destruct L.
Qed.

Lemma merge_technique_total L t :
  forallb initialized (techniques L) = true ->
  exists L', ML.merge_technique L t = Ok L'.
Proof.
  intros I. unfold ML.merge_technique, ML.find_technique_in_layer.
  destruct (ML.find_technique _ _) as [m|] eqn:F; [|eauto].
  destruct (find_technique_id _ _ _ F) as [_ Im].
  rewrite forallb_forall in I. apply I, initialized_present in Im as (S & C & _).
  destruct (reconcile_total m t S C) as [m' R]. rewrite R. simpl. eauto.
Qed.

Lemma forallb_store (p : Technique -> bool) T u ts :
  forallb p ts = true -> p u = true -> forallb p (store_technique T u ts) = true.
Proof.
  induction ts as [|t ts IH]; simpl; [auto|].
  intros H Hu. apply andb_true_iff in H as [H1 H2].
  destruct (techniqueID t =? T)%string; simpl; rewrite ?Hu, ?H1, ?H2; auto.
Qed.

Lemma merge_technique_initialized L t L' :
  forallb initialized (techniques L) = true -> initialized t = true ->
  ML.merge_technique L t = Ok L' -> forallb initialized (techniques L') = true.
Proof.
  intros I It. unfold ML.merge_technique, ML.find_technique_in_layer.
  destruct (ML.find_technique _ _) as [m|] eqn:F.
  - intros H. apply bind_ok in H as [u [R H]]. inversion H; subst; simpl.
    apply forallb_store; [assumption|].
    destruct (find_technique_id _ _ _ F) as [_ Im].
    rewrite forallb_forall in I.
    apply (reconcile_initialized m t u (I m Im) R).
  - intros H. inversion H; subst; simpl.
    rewrite forallb_app, I. simpl. now rewrite It.
Qed.

(** *** The merge loop *)

Lemma absorb_app incoming later : forall current,
  absorb current (incoming ++ later) =
  (do mid <- absorb current incoming; absorb mid later).
Proof.
  induction incoming as [|t ts IH]; intros current; simpl; [reflexivity|].
  destruct current as [m|]; [|apply IH].
  destruct (ML.reconcile m t); simpl; [apply IH | reflexivity].
Qed.

Lemma merge_techniques_absorb T ts : forall L L',
  ML.merge_techniques L ts = Ok L' ->
  absorb (ML.find_technique T (techniques L)) (filter (has_id T) ts)
  = Ok (ML.find_technique T (techniques L')).
Proof.
  induction ts as [|t ts IH]; intros L L' H; simpl in H.
  - inversion H. reflexivity.
  - apply bind_ok in H as [L1 [H1 H2]].
    change (t :: ts) with ([t] ++ ts)%list.
    rewrite filter_app, absorb_app.
    rewrite (merge_technique_absorb T _ _ _ H1). simpl. auto.
Qed.

Lemma merge_techniques_ids ts : forall L L',
  ML.merge_techniques L ts = Ok L' ->
  (NoDup (ids (techniques L)) -> NoDup (ids (techniques L'))) /\
  (forall T, In T (ids (techniques L')) <->
             In T (ids (techniques L)) \/ In T (ids ts)).
Proof.
  induction ts as [|t ts IH]; intros L L' H; simpl in H.
  - inversion H; subst. simpl. split; [auto | tauto].
  - apply bind_ok in H as [L1 [H1 H2]].
    destruct (IH _ _ H2) as [N I].
    pose proof (merge_technique_ids _ _ _ H1) as E.
    split.
    + intros N0. apply N. rewrite E.
      destruct (in_dec string_dec (techniqueID t) (ids (techniques L))) as [i|n].
      * now rewrite app_nil_r.
      * apply NoDup_app; [assumption | repeat constructor; simpl; tauto |].
        intros x Hx [Hy|[]]. subst. contradiction.
    + intros T. rewrite I, E, in_app_iff. simpl.
      destruct (in_dec string_dec (techniqueID t) (ids (techniques L))) as [i|n];
        simpl; split; intros; intuition (subst; auto).
Qed.

Lemma merge_techniques_frame ts : forall L L',
  ML.merge_techniques L ts = Ok L' -> set_techniques L' (techniques L) = L.
Proof.
  induction ts as [|t ts IH]; intros L L' H; simpl in H.
  - inversion H. now destruct L'.
  - apply bind_ok in H as [L1 [H1 H2]].
    apply merge_technique_frame in H1. apply IH in H2.
    rewrite <- H1 at 2. rewrite <- H2. reflexivity.
Qed.

Lemma merge_techniques_total ts : forall L,
  forallb initialized (techniques L) = true -> forallb initialized ts = true ->
  exists L', ML.merge_techniques L ts = Ok L' /\
             forallb initialized (techniques L') = true.
Proof.
  induction ts as [|t ts IH]; intros L I Its; simpl in *; [eauto|].
  apply andb_true_iff in Its as [It Its].
  destruct (merge_technique_total L t I) as [L1 H1]. rewrite H1. simpl.
  apply IH; [|assumption].
  eapply merge_technique_initialized; eauto.
Qed.

Lemma merge_loop_absorb T layers : forall L L',
  ML.merge_loop L layers = Ok L' ->
  absorb (ML.find_technique T (techniques L)) (filter (has_id T) (all_techniques layers))
  = Ok (ML.find_technique T (techniques L')).
Proof.
  induction layers as [|l ls IH]; intros L L' H; simpl in H.
  - inversion H. reflexivity.
  - apply bind_ok in H as [L1 [H1 H2]].
    unfold all_techniques. simpl. rewrite filter_app, absorb_app.
    rewrite (merge_techniques_absorb T _ _ _ H1). simpl. now apply IH.
Qed.

Lemma merge_loop_ids layers : forall L L',
  ML.merge_loop L layers = Ok L' ->
  (NoDup (ids (techniques L)) -> NoDup (ids (techniques L'))) /\
  (forall T, In T (ids (techniques L')) <->
             In T (ids (techniques L)) \/ In T (ids (all_techniques layers))).
Proof.
  induction layers as [|l ls IH]; intros L L' H; simpl in H.
  - inversion H; subst. simpl. split; [auto | tauto].
  - apply bind_ok in H as [L1 [H1 H2]].
    destruct (IH _ _ H2) as [N I].
    destruct (merge_techniques_ids _ _ _ H1) as [N1 I1].
    split; [auto|].
    intros T. rewrite I, I1. unfold all_techniques, ids. simpl.
    rewrite map_app, in_app_iff. tauto.
Qed.

Lemma merge_loop_frame layers : forall L L',
  ML.merge_loop L layers = Ok L' -> set_techniques L' (techniques L) = L.
Proof.
  induction layers as [|l ls IH]; intros L L' H; simpl in H.
  - inversion H. now destruct L'.
  - apply bind_ok in H as [L1 [H1 H2]].
    apply merge_techniques_frame in H1. apply IH in H2.
    rewrite <- H1 at 2. rewrite <- H2. reflexivity.
Qed.

Lemma merge_loop_total layers : forall L,
  forallb initialized (techniques L) = true ->
  forallb initialized_layer layers = true ->
  exists L', ML.merge_loop L layers = Ok L' /\
             forallb initialized (techniques L') = true.
Proof.
  induction layers as [|l ls IH]; intros L I Il; simpl in *; [eauto|].
  apply andb_true_iff in Il as [Il Ils].
  destruct (merge_techniques_total (techniques l) L I Il) as [L1 [H1 I1]].
  rewrite H1. simpl. now apply IH.
Qed.

(** *** The list of layers *)

Lemma pop_app {A} (l : list A) x : pop (l ++ [x]) = Ok (x, l).
Proof.
  induction l as [|y l IH]; simpl; [reflexivity|].
  rewrite IH. simpl. now destruct (l ++ [x])%list eqn:E; [destruct l; discriminate|].
Qed.

Lemma pop_ok {A} (l : list A) x rest : pop l = Ok (x, rest) -> l = (rest ++ [x])%list.
Proof.
  revert x rest. induction l as [|y l IH]; intros x rest; simpl; [discriminate|].
  destruct l as [|z l].
  - intros H; inversion H; reflexivity.
  - intros H. apply bind_ok in H as [[x' r'] [H1 H2]].
    inversion H2; subst. simpl. f_equal. now apply IH.
Qed.

Lemma pop_total {A} (l : list A) : l <> [] -> exists x rest, pop l = Ok (x, rest).
Proof.
  intros N. destruct (exists_last N) as [rest [x E]]. subst.
  exists x, rest. apply pop_app.
Qed.

(** *** Initialization *)

Lemma initialize_technique_initialized t : initialized (ML.initialize_technique t) = true.
Proof.
  unfold ML.initialize_technique, initialized.
  destruct t as [i ta [s|] [c|] [e|] w co]; reflexivity.
Qed.

Lemma initialize_technique_fixed t :
  initialized t = true -> ML.initialize_technique t = t.
Proof.
  unfold ML.initialize_technique, initialized.
  destruct t as [i ta [s|] [c|] [e|] w co]; simpl; intros H;
    reflexivity || discriminate.
Qed.

Lemma initialize_technique_id t : techniqueID (ML.initialize_technique t) = techniqueID t.
Proof.
  unfold ML.initialize_technique.
  destruct t as [i ta [s|] [c|] [e|] w co]; reflexivity.
Qed.

Lemma initialize_layer_initialized l : initialized_layer (ML.initialize_layer l) = true.
Proof.
  unfold initialized_layer, ML.initialize_layer. simpl.
  rewrite forallb_forall. intros t Ht. apply in_map_iff in Ht as [u [E _]].
  subst. apply initialize_technique_initialized.
Qed.

Lemma initialize_layer_fixed l :
  initialized_layer l = true -> ML.initialize_layer l = l.
Proof.
  unfold initialized_layer, ML.initialize_layer. intros H.
  assert (E : map ML.initialize_technique (techniques l) = techniques l).
  { rewrite forallb_forall in H. rewrite <- (map_id (techniques l)) at 2.
    apply map_ext_in. intros t Ht. now apply initialize_technique_fixed, H. }
  rewrite E. now destruct l.
Qed.

Lemma initialize_layers_initialized layers :
  forallb initialized_layer (ML.initialize_layers layers) = true.
Proof.
  unfold ML.initialize_layers. rewrite forallb_forall.
  intros l Hl. apply in_map_iff in Hl as [u [E _]]. subst.
  apply initialize_layer_initialized.
Qed.

Lemma initialize_layers_fixed layers :
  forallb initialized_layer layers = true -> ML.initialize_layers layers = layers.
Proof.
  unfold ML.initialize_layers. intros H. rewrite forallb_forall in H.
  rewrite <- (map_id layers) at 2. apply map_ext_in.
  intros l Hl. now apply initialize_layer_fixed, H.
Qed.

Lemma initialize_layer_ids l :
  ids (techniques (ML.initialize_layer l)) = ids (techniques l).
Proof.
  unfold ML.initialize_layer, ids. simpl. rewrite map_map.
  apply map_ext. apply initialize_technique_id.
Qed.

(** *** The post merge loop *)

Lemma post_merge_spec ts : forall mx n,
  forallb initialized ts = true ->
  ML.post_merge ts mx n =
  Ok (map polished ts,
      (fold_left Z.max (enabled_scores ts) mx, n + disabled_count ts)).
Proof.
  induction ts as [|t ts IH]; intros mx n I; simpl in *.
  - unfold disabled_count. simpl. now rewrite Z.add_0_r.
  - apply andb_true_iff in I as [It I].
    unfold ML.post_technique, polished, disabled_count.
    cbn [set_showSubtechniques enabled score comment].
    unfold initialized in It.
    destruct (score t) as [s|] eqn:Es; [|discriminate].
    destruct (enabled t) as [[|]|] eqn:Ee; cbn [truthy_bool negb andb bind fst snd].
    + rewrite IH by assumption. cbn [bind fst snd app fold_left filter].
      rewrite Ee. cbn [truthy_bool negb].
      replace (if s >? mx then s else mx) with (Z.max mx s)
        by (destruct (Z.gtb_spec s mx); lia).
      unfold disabled_count.
      destruct (truthy_str (comment t)); reflexivity.
    + rewrite IH by assumption. cbn [bind fst snd app fold_left filter].
      rewrite Ee. cbn [truthy_bool negb List.length].
      unfold disabled_count. do 3 f_equal. lia.
    + destruct (comment t); discriminate.
Qed.

(** *** The whole merge *)

Lemma initialize_layers_app a b :
  ML.initialize_layers (a ++ b) = (ML.initialize_layers a ++ ML.initialize_layers b)%list.
Proof. apply map_app. Qed.

Lemma ML_merge_spec layers :
  layers <> [] ->
  exists out mx n, ML.merge layers = Ok (out, (mx, n)) /\ merged_as 1 (fun t => t) layers out mx n.
Proof.
  intros N. destruct (exists_last N) as [rest [first E]]. subst layers.
  unfold ML.merge. rewrite initialize_layers_app. simpl. rewrite pop_app. simpl.
  destruct (merge_loop_total (ML.initialize_layers rest) (ML.initialize_layer first))
    as [L [HL IL]].
  { apply initialize_layer_initialized. }
  { apply initialize_layers_initialized. }
  rewrite HL. simpl. rewrite post_merge_spec by assumption. simpl.
  do 3 eexists. split; [reflexivity|].
  exists first, rest, L. rewrite map_id. repeat split; auto.
Qed.

Lemma forallb_recolored ts :
  forallb initialized (map recolored ts) = forallb initialized ts.
Proof. induction ts as [|t ts IH]; simpl; [reflexivity|]. now rewrite IH. Qed.

Lemma enabled_scores_recolored ts : enabled_scores (map recolored ts) = enabled_scores ts.
Proof. induction ts as [|t ts IH]; simpl; [reflexivity|]. now rewrite IH. Qed.

Lemma disabled_count_recolored ts : disabled_count (map recolored ts) = disabled_count ts.
Proof.
  unfold disabled_count. f_equal.
  induction ts as [|t ts IH]; simpl; [reflexivity|].
  destruct (negb (truthy_bool (enabled t))); simpl; now rewrite IH.
Qed.

Lemma MN_merge_spec layers :
  layers <> [] ->
  exists out mx n, MN.merge layers = Ok (out, (mx, n)) /\ merged_as 0 recolored layers out mx n.
Proof.
  intros N. destruct (exists_last N) as [rest [first E]]. subst layers.
  unfold MN.merge. rewrite initialize_layers_same, merge_loop_same.
  rewrite initialize_layers_app. simpl. rewrite pop_app. simpl.
  destruct (merge_loop_total (ML.initialize_layers rest) (ML.initialize_layer first))
    as [L [HL IL]].
  { apply initialize_layer_initialized. }
  { apply initialize_layers_initialized. }
  rewrite HL. simpl. rewrite post_merge_color.
  fold recolored. change (fun t => recolored t) with recolored.
  rewrite post_merge_spec by (now rewrite forallb_recolored). simpl.
  rewrite enabled_scores_recolored, disabled_count_recolored.
  do 3 eexists. split; [reflexivity|].
  exists first, rest, L. repeat split; auto.
Qed.

Lemma merge_of_spec s layers :
  layers <> [] ->
  exists out mx n,
    merge_of s layers = Ok (out, (mx, n)) /\
    merged_as (seed_of s) (paint_of s) layers out mx n.
Proof.
  destruct s; [apply ML_merge_spec | apply MN_merge_spec].
Qed.

Lemma find_of_same s T l : find_of s T l = ML.find_technique T (techniques l).
Proof. now destruct s. Qed.

Lemma paint_of_fields s t :
  techniqueID (paint_of s t) = techniqueID t /\ tactic (paint_of s t) = tactic t /\
  score (paint_of s t) = score t /\ comment (paint_of s t) = comment t /\
  enabled (paint_of s t) = enabled t /\
  showSubtechniques (paint_of s t) = showSubtechniques t.
Proof. destruct s; simpl; tauto. Qed.

Lemma polished_fields t :
  techniqueID (polished t) = techniqueID t /\ tactic (polished t) = tactic t /\
  score (polished t) = score t /\ enabled (polished t) = enabled t /\
  color (polished t) = color t /\ showSubtechniques (polished t) = false /\
  comment (polished t) =
    (if truthy_bool (enabled t) && truthy_str (comment t)
     then option_map strip (comment t) else comment t).
Proof.
  unfold polished. cbn [set_showSubtechniques enabled comment].
  destruct (truthy_bool (enabled t) && truthy_str (comment t)); simpl; tauto.
Qed.

Lemma ids_finished s ts :
  ids (map polished (map (paint_of s) ts)) = ids ts.
Proof.
  unfold ids. rewrite !map_map. apply map_ext. intros t.
  destruct (polished_fields (paint_of s t)) as (E & _).
  destruct (paint_of_fields s t) as (E' & _). congruence.
Qed.

Lemma merged_as_lookup s layers out mx n :
  merged_as (seed_of s) (paint_of s) layers out mx n ->
  exists first rest,
    layers = (rest ++ [first])%list /\
    forall T, exists current,
      absorb (ML.find_technique T (techniques (ML.initialize_layer first)))
             (filter (has_id T) (all_techniques (ML.initialize_layers rest)))
      = Ok current /\
      ML.find_technique T (techniques out)
      = option_map (fun t => polished (paint_of s t)) current.
Proof.
  intros (first & rest & L & E & H & I & O & _).
  exists first, rest. split; [assumption|]. intros T.
  exists (ML.find_technique T (techniques L)). split.
  - now apply merge_loop_absorb.
  - subst out. simpl. rewrite map_map. apply find_technique_map.
    intros t. destruct (polished_fields (paint_of s t)) as (E1 & _).
    destruct (paint_of_fields s t) as (E2 & _). congruence.
Qed.

Lemma all_techniques_ids layers T :
  In T (ids (all_techniques layers)) <->
  exists d, In d layers /\ In T (ids (techniques d)).
Proof.
  unfold all_techniques, ids. rewrite in_map_iff. split.
  - intros (t & E & I). apply in_flat_map in I as (d & Id & It).
    exists d. split; [assumption|]. apply in_map_iff. eauto.
  - intros (d & Id & It). apply in_map_iff in It as (t & E & It).
    exists t. split; [assumption|]. apply in_flat_map. eauto.
Qed.

Lemma initialize_layers_all_ids layers :
  ids (all_techniques (ML.initialize_layers layers)) = ids (all_techniques layers).
Proof.
  induction layers as [|l ls IH]; [reflexivity|].
  unfold all_techniques, ids in *. simpl. rewrite !map_app, IH. f_equal.
  rewrite map_map. apply map_ext, initialize_technique_id.
Qed.

Lemma merged_as_ids s layers out mx n :
  merged_as (seed_of s) (paint_of s) layers out mx n ->
  exists first rest,
    layers = (rest ++ [first])%list /\
    (unique_ids first -> unique_ids out) /\
    (forall T, In T (ids (techniques out)) <->
               exists d, In d layers /\ In T (ids (techniques d))).
Proof.
  intros (first & rest & L & E & H & I & O & _).
  exists first, rest. split; [assumption|].
  destruct (merge_loop_ids _ _ _ H) as [N M].
  assert (Eo : ids (techniques out) = ids (techniques L)).
  { subst out. simpl. apply ids_finished. }
  unfold unique_ids. rewrite Eo. split.
  - intros U. apply N. now rewrite initialize_layer_ids.
  - intros T. rewrite M, initialize_layer_ids, initialize_layers_all_ids.
    rewrite all_techniques_ids. subst layers. split.
    + intros [H1 | (d & Id & It)].
      * exists first. split; [apply in_or_app; right; now left | assumption].
      * exists d. split; [apply in_or_app; now left | assumption].
    + intros (d & Id & It). apply in_app_or in Id as [Id | [Id | []]].
      * right. eauto.
      * subst. now left.
Qed.

Lemma filter_has_id_absent T ts : ~ In T (ids ts) -> filter (has_id T) ts = [].
Proof.
  induction ts as [|t ts IH]; simpl; [reflexivity|]. intros N.
  unfold has_id at 1. destruct (String.eqb_spec (techniqueID t) T); [tauto|].
  apply IH. tauto.
Qed.

Lemma filter_has_id_unique ts r :
  NoDup (ids ts) -> In r ts -> filter (has_id (techniqueID r)) ts = [r].
Proof.
  induction ts as [|t ts IH]; simpl; [tauto|].
  intros N I. inversion N as [|? ? Hn N']; subst.
  unfold has_id at 1. destruct I as [E|I].
  - subst. rewrite String.eqb_refl. f_equal. now apply filter_has_id_absent.
  - destruct (String.eqb_spec (techniqueID t) (techniqueID r)) as [E|E].
    + exfalso. apply Hn. rewrite E. now apply in_map.
    + auto.
Qed.

Lemma initialized_layers_fixed layers :
  Forall (fun l => initialized_layer l = true) layers ->
  ML.initialize_layers layers = layers.
Proof.
  intros F. apply initialize_layers_fixed. rewrite forallb_forall.
  now rewrite Forall_forall in F.
Qed.

Lemma absorb_zero_scores incoming : forall m current,
  (forall t, In t incoming -> score t = Some 0) ->
  absorb (Some m) incoming = Ok current ->
  exists m', current = Some m' /\ score m' = score m.
Proof.
  induction incoming as [|t ts IH]; intros m current Z H; simpl in H.
  - inversion H. eauto.
  - apply bind_ok in H as [m1 [R H]].
    destruct (IH m1 current) as [m' [E S]]; [intros; apply Z; now right | assumption |].
    exists m'. split; [assumption|].
    apply reconcile_fields in R as (_ & _ & _ & _ & S1 & _).
    rewrite (Z t (or_introl eq_refl)) in S1. simpl in S1. congruence.
Qed.

Lemma absorb_stays_disabled incoming : forall m current,
  enabled m = Some false ->
  absorb (Some m) incoming = Ok current ->
  exists m', current = Some m' /\ enabled m' = Some false.
Proof.
  induction incoming as [|t ts IH]; intros m current D H; simpl in H.
  - inversion H. eauto.
  - apply bind_ok in H as [m1 [R H]]. apply (IH m1); [|assumption].
    apply reconcile_fields in R as (_ & _ & _ & _ & _ & _ & E).
    rewrite E, D. now destruct (enabled t) as [[|]|].
Qed.

Lemma absorb_disables incoming : forall start current r,
  In r incoming -> enabled r = Some false ->
  absorb start incoming = Ok current ->
  exists m', current = Some m' /\ enabled m' = Some false.
Proof.
  induction incoming as [|t ts IH]; intros start current r I D H; [destruct I|].
  simpl in H. destruct I as [E|I].
  - subst t. destruct start as [m|].
    + apply bind_ok in H as [m1 [R H]].
      apply (absorb_stays_disabled ts m1); [|assumption].
      apply reconcile_fields in R as (_ & _ & _ & _ & _ & _ & E).
      now rewrite E, D.
    + now apply (absorb_stays_disabled ts r).
  - destruct start as [m|].
    + apply bind_ok in H as [m1 [R H]]. now apply (IH (Some m1) current r).
    + now apply (IH (Some t) current r).
Qed.

(** ** The claims *)

(** C1. In either script, when the normalized documents A and B both hold
    one technique with the identifier T, with the scores a and b, the merge
    of the two documents holds T with the score a + b (in particular when
    a and b are both non-zero); and folding a document whose techniques
    for T all have the score 0 into a merged layer that holds T leaves the
    score of T in the merged layer unchanged. *)
Theorem C1_scores_add (s : script) :
  (forall (A B : Layer) (T : string) (ra rb : Technique) (a b : Z),
     initialized_layer A = true -> initialized_layer B = true ->
     unique_ids A -> unique_ids B ->
     find_of s T A = Some ra -> score ra = Some a ->
     find_of s T B = Some rb -> score rb = Some b ->
     exists out mx n r,
       merge_of s [A; B] = Ok (out, (mx, n)) /\
       find_of s T out = Some r /\ score r = Some (a + b))
  /\
  (forall (merged_layer layer : Layer) (T : string) (m : Technique),
     initialized_layer merged_layer = true -> initialized_layer layer = true ->
     find_of s T merged_layer = Some m ->
     (forall t, In t (techniques layer) -> techniqueID t = T -> score t = Some 0) ->
     exists merged_layer' m',
       merge_techniques_of s merged_layer (techniques layer) = Ok merged_layer' /\
       find_of s T merged_layer' = Some m' /\ score m' = score m).
Proof.
  split.
  - intros A B T ra rb a b IA IB UA UB FA SA FB SB.
    rewrite find_of_same in FA, FB.
    destruct (merge_of_spec s [A; B]) as (out & mx & n & M & MA); [discriminate|].
    exists out, mx, n.
    destruct (merged_as_lookup _ _ _ _ _ MA) as (first & rest & E & Lk).
    change [A; B] with ([A] ++ [B])%list in E.
    apply app_inj_tail in E as [E1 E2]. subst first rest.
    destruct (Lk T) as (current & Ab & Fo).
    rewrite initialize_layer_fixed in Ab by assumption.
    rewrite initialize_layers_fixed in Ab by (simpl; now rewrite IA).
    unfold all_techniques in Ab. simpl in Ab. rewrite app_nil_r in Ab.
    destruct (find_technique_id _ _ _ FA) as [Ia Ina]. subst T.
    rewrite (filter_has_id_unique _ _ UA Ina), FB in Ab. simpl in Ab.
    apply bind_ok in Ab as [m' [R Ab]]. inversion Ab; subst current.
    exists (polished (paint_of s m')). rewrite find_of_same. split; [assumption|].
    split; [exact Fo|].
    destruct (polished_fields (paint_of s m')) as (_ & _ & S1 & _).
    destruct (paint_of_fields s m') as (_ & _ & S2 & _).
    apply reconcile_fields in R as (_ & _ & _ & _ & S3 & _).
    rewrite S1, S2, S3, SA, SB. simpl.
    destruct (Z.eqb_spec a 0); simpl; f_equal; lia.
  - intros L d T m IL Id F Z0. rewrite find_of_same in F.
    destruct (merge_techniques_total (techniques d) L IL Id) as [L' [H _]].
    pose proof (merge_techniques_absorb T _ _ _ H) as Ab. rewrite F in Ab.
    apply absorb_zero_scores in Ab as [m' [E S]].
    + exists L', m'. rewrite find_of_same. destruct s; auto.
    + intros t It. apply filter_In in It as [It Ht]. apply Z0; [assumption|].
      now apply String.eqb_eq.
Qed.

Lemma C1_scores_add_witness :
  exists out mx n r,
    ML.merge [layer_of "A" "" [technique "T1" 5 "x" true];
              layer_of "B" "" [technique "T1" 3 "y" true]] = Ok (out, (mx, n)) /\
    ML.find_technique_in_layer "T1" out = Some r /\ score r = Some 8.
Proof.
  apply (proj1 (C1_scores_add merge_layers_py)
           (layer_of "A" "" [technique "T1" 5 "x" true])
           (layer_of "B" "" [technique "T1" 3 "y" true])
           "T1" (technique "T1" 5 "x" true) (technique "T1" 3 "y" true) 5 3);
    try reflexivity;
    (constructor; [simpl; tauto | constructor]).
Defined.

(** C2. In either script, when a normalized document marks T disabled, the
    merge of the documents, folded in any order, holds T disabled; the
    reconciliation keeps a disabled technique disabled whatever the
    incoming technique, and an incoming technique without enabled value
    leaves the enabled value as it is. *)
Theorem C2_disabled_is_monotonic (s : script) :
  (forall (docs docs' : list Layer) (T : string) (d : Layer) (r : Technique),
     Forall (fun l => initialized_layer l = true) docs ->
     Forall unique_ids docs ->
     In d docs -> In r (techniques d) -> techniqueID r = T ->
     enabled r = Some false ->
     Permutation docs docs' ->
     exists out mx n m,
       merge_of s docs' = Ok (out, (mx, n)) /\
       find_of s T out = Some m /\ enabled m = Some false)
  /\
  (forall (m t : Technique),
     score m <> None -> comment m <> None ->
     exists m', reconcile_of s m t = Ok m' /\
                (enabled m = Some false -> enabled m' = Some false) /\
                (enabled t = None -> enabled m' = enabled m)).
Proof.
  split.
  - intros docs docs' T d r I U Id Ir Er D P.
    assert (I' := Permutation_Forall P I). assert (U' := Permutation_Forall P U).
    assert (Id' := Permutation_in _ P Id). clear I U Id P docs.
    destruct (merge_of_spec s docs') as (out & mx & n & M & MA).
    { intros E. subst. destruct Id'. }
    exists out, mx, n.
    destruct (merged_as_lookup _ _ _ _ _ MA) as (first & rest & E & Lk).
    destruct (Lk T) as (current & Ab & Fo). subst docs'.
    apply Forall_app in I' as [Ir' If]. apply Forall_app in U' as [_ Uf].
    inversion If as [|? ? If1 _]; subst. inversion Uf as [|? ? Uf1 _]; subst.
    rewrite initialize_layer_fixed in Ab by assumption.
    rewrite initialized_layers_fixed in Ab by assumption.
    assert (exists m', current = Some m' /\ enabled m' = Some false) as (m' & C & Em).
    { apply in_app_or in Id' as [Id | [Id | []]].
      - apply (absorb_disables _ _ _ r) in Ab; [assumption | | assumption].
        apply filter_In. split; [|apply String.eqb_refl].
        apply in_flat_map. eauto.
      - subst d.
        rewrite (find_technique_unique _ _ Uf1 Ir) in Ab.
        now apply absorb_stays_disabled in Ab. }
    subst current. exists (polished (paint_of s m')). rewrite find_of_same.
    split; [assumption|]. split; [exact Fo|].
    destruct (polished_fields (paint_of s m')) as (_ & _ & _ & E1 & _).
    destruct (paint_of_fields s m') as (_ & _ & _ & _ & E2 & _).
    congruence.
  - intros m t Sm Cm. destruct (reconcile_total m t Sm Cm) as [m' R].
    exists m'. split; [now destruct s|].
    apply reconcile_fields in R as (_ & _ & _ & _ & _ & _ & E). rewrite E.
    split; intros H; rewrite H; [now destruct (enabled t) as [[|]|] | reflexivity].
Qed.

Lemma C2_disabled_is_monotonic_witness :
  exists out mx n m,
    ML.merge [scenario_doc2; scenario_doc1] = Ok (out, (mx, n)) /\
    ML.find_technique_in_layer "T1" out = Some m /\ enabled m = Some false.
Proof.
  apply (proj1 (C2_disabled_is_monotonic merge_layers_py)
           [scenario_doc1; scenario_doc2] [scenario_doc2; scenario_doc1]
           "T1" scenario_doc2 (technique "T1" 3 "" false)).
  - repeat constructor.
  - repeat constructor; simpl; intuition discriminate.
  - simpl; auto.
  - simpl; auto.
  - reflexivity.
  - reflexivity.
  - apply perm_swap.
Defined.

(** C3. What the scripts do with the comments "x" of A and "y" of B for one
    technique: the merged layer is the last document of the list, so the
    order [A, B] gives "y", a blank line, "x", and the order [B, A] gives
    "x", a blank line, "y"; the claim states the opposite. *)
Theorem C3_comments_start_with_last_document (s : script) :
  let A := layer_of "A" "" [technique "T1" 1 "x" true] in
  let B := layer_of "B" "" [technique "T1" 1 "y" true] in
  (exists out mx n r,
     merge_of s [A; B] = Ok (out, (mx, n)) /\ find_of s "T1" out = Some r /\
     comment r = Some ("y" ++ blank_line ++ "x")) /\
  (exists out mx n r,
     merge_of s [B; A] = Ok (out, (mx, n)) /\ find_of s "T1" out = Some r /\
     comment r = Some ("x" ++ blank_line ++ "y")).
Proof.
  destruct s; split; do 4 eexists; vm_compute; repeat split; reflexivity.
Qed.

(** C4, as stated, fails: a technique of the only input document, enabled
    and with the comment " x", comes out of [merge_layers.py] with the
    comment "x", and out of [merge_navigator_layers.py] with the color
    set to the empty string as well. *)
Lemma C4_unchanged_counterexample :
  let r := mkTechnique "T1" None (Some 1) (Some " x") (Some true) true (Some "#ff0000") in
  let A := layer_of "A" "" [r] in
  (exists out mx n r',
     ML.merge [A] = Ok (out, (mx, n)) /\
     ML.find_technique_in_layer "T1" out = Some r' /\
     comment r' = Some "x" /\ comment r' <> comment r) /\
  (exists out mx n r',
     MN.merge [A] = Ok (out, (mx, n)) /\
     MN.find_technique_in_layer "T1" out = Some r' /\
     color r' = Some "" /\ color r' <> color r).
Proof.
  split; do 4 eexists; vm_compute; repeat split; try reflexivity; discriminate.
Qed.

Lemma all_techniques_app a b :
  all_techniques (a ++ b) = (all_techniques a ++ all_techniques b)%list.
Proof. apply flat_map_app. Qed.

Lemma filter_all_absent T layers :
  (forall d, In d layers -> ~ In T (ids (techniques d))) ->
  filter (has_id T) (all_techniques layers) = [].
Proof.
  intros H. apply filter_has_id_absent. rewrite all_techniques_ids.
  intros (d & Id & It). now apply (H d).
Qed.

(** C4, amended. In either script, when the identifier T occurs in one
    normalized document only, once, the merged layer holds for T the
    technique of that document with the same identifier, tactic, score and
    enabled value, with showSubtechniques false, with the comment stripped
    of the white space at both ends when the technique is enabled and
    unchanged otherwise, and with the same color in [merge_layers.py] and
    the empty color in [merge_navigator_layers.py]. *)
Theorem C4_single_occurrence (s : script) (pre post : list Layer) (d : Layer)
        (T : string) (r : Technique) :
  Forall (fun l => initialized_layer l = true) (pre ++ d :: post) ->
  unique_ids d -> In r (techniques d) -> techniqueID r = T ->
  (forall d', In d' (pre ++ post) -> ~ In T (ids (techniques d'))) ->
  exists out mx n r',
    merge_of s (pre ++ d :: post) = Ok (out, (mx, n)) /\
    find_of s T out = Some r' /\
    techniqueID r' = T /\ tactic r' = tactic r /\ score r' = score r /\
    enabled r' = enabled r /\ showSubtechniques r' = false /\
    comment r' = match enabled r with
                 | Some true => option_map strip (comment r)
                 | _ => comment r
                 end /\
    color r' = match s with
               | merge_layers_py => color r
               | merge_navigator_layers_py => Some ""
               end.
Proof.
  intros I U Ir Et Abs.
  destruct (merge_of_spec s (pre ++ d :: post)) as (out & mx & n & M & MA).
  { now destruct pre. }
  exists out, mx, n, (polished (paint_of s r)). split; [assumption|].
  destruct (merged_as_lookup _ _ _ _ _ MA) as (first & rest & E & Lk).
  destruct (Lk T) as (current & Ab & Fo).
  assert (Ir0 : initialized r = true).
  { rewrite Forall_forall in I. specialize (I d (in_elt d pre post)).
    unfold initialized_layer in I. rewrite forallb_forall in I. auto. }
  rewrite E in I. apply Forall_app in I as [Irest Ifirst].
  inversion Ifirst as [|? ? If1 _]; subst.
  rewrite initialize_layer_fixed in Ab by assumption.
  rewrite initialized_layers_fixed in Ab by assumption.
  assert (C : current = Some r).
  { destruct (exists_last (l := d :: post)) as (post' & x & Ep); [discriminate|].
    rewrite Ep, app_assoc in E. apply app_inj_tail in E as [E1 E2]. subst x rest.
    destruct post' as [|d0 post'].
    - simpl in Ep. destruct post as [|? ?]; [|now destruct post].
      inversion Ep; subst first. simpl in Ab. rewrite app_nil_r in *.
      rewrite (filter_all_absent _ _ Abs) in Ab.
      rewrite (find_technique_unique _ _ U Ir) in Ab. simpl in Ab. congruence.
    - simpl in Ep. inversion Ep; subst d0 post.
      assert (F : ML.find_technique (techniqueID r) (techniques first) = None).
      { apply find_technique_none. apply Abs. apply in_or_app. right.
        apply in_or_app. right. now left. }
      rewrite F in Ab. rewrite all_techniques_app, filter_app in Ab.
      rewrite filter_all_absent in Ab
        by (intros d' Hd; apply Abs, in_or_app; now left).
      change (d :: post') with ([d] ++ post')%list in Ab.
      rewrite all_techniques_app, filter_app in Ab.
      rewrite (filter_all_absent _ post') in Ab
        by (intros d' Hd; apply Abs, in_or_app; right; apply in_or_app; now left).
      unfold all_techniques in Ab at 1. simpl in Ab. rewrite !app_nil_r in Ab.
      rewrite (filter_has_id_unique _ _ U Ir) in Ab. simpl in Ab. congruence. }
  subst current. rewrite find_of_same. split; [exact Fo|].
  destruct (polished_fields (paint_of s r)) as (P1 & P2 & P3 & P4 & P5 & P6 & P7).
  destruct (paint_of_fields s r) as (Q1 & Q2 & Q3 & Q4 & Q5 & Q6).
  rewrite P1, P2, P3, P4, P5, P6, P7, Q1, Q2, Q3, Q4, Q5.
  repeat split; [| now destruct s].
  unfold initialized in Ir0.
  destruct (score r); [|discriminate].
  destruct (comment r) as [c|]; [|discriminate].
  destruct (enabled r) as [[|]|]; try discriminate; simpl; try reflexivity.
  destruct (String.eqb_spec c ""); simpl; [subst; reflexivity | reflexivity].
Qed.

Lemma C4_single_occurrence_witness :
  exists out mx n r',
    merge_of merge_layers_py ([scenario_doc1] ++ scenario_doc2 :: [])
    = Ok (out, (mx, n)) /\
    find_of merge_layers_py "T3" out = Some r' /\
    techniqueID r' = "T3" /\ tactic r' = None /\ score r' = Some 1 /\
    enabled r' = Some true /\ showSubtechniques r' = false /\
    comment r' = Some "" /\ color r' = None.
Proof.
  apply (C4_single_occurrence merge_layers_py [scenario_doc1] [] scenario_doc2
           "T3" (technique "T3" 1 "" true)).
  - repeat constructor.
  - repeat constructor; simpl; intuition discriminate.
  - simpl; auto.
  - reflexivity.
  - intros d' [E|[]]. subst. simpl. intuition discriminate.
Defined.

(** *** The maximum *)

Lemma fold_max_bounds l : forall a,
  a <= fold_left Z.max l a /\ (forall v, In v l -> v <= fold_left Z.max l a).
Proof.
  induction l as [|x l IH]; intros a; simpl; [split; [lia | tauto]|].
  destruct (IH (Z.max a x)) as [H1 H2]. split; [lia|].
  intros v [E|I]; [subst; lia | auto].
Qed.

Lemma fold_max_attained l : forall a,
  fold_left Z.max l a = a \/ In (fold_left Z.max l a) l.
Proof.
  induction l as [|x l IH]; intros a; simpl; [now left|].
  destruct (IH (Z.max a x)) as [H|H]; [|now right; right].
  rewrite H. destruct (Z.max_spec a x) as [[_ E]|[_ E]]; rewrite E; auto.
Qed.

Lemma fold_max_seed l : forall a b,
  fold_left Z.max l (Z.max a b) = Z.max a (fold_left Z.max l b).
Proof.
  induction l as [|x l IH]; intros a b; simpl; [reflexivity|].
  now rewrite <- Z.max_assoc, IH.
Qed.

Lemma enabled_scores_in v ts :
  In v (enabled_scores ts) <->
  exists t, In t ts /\ truthy_bool (enabled t) = true /\ score t = Some v.
Proof.
  unfold enabled_scores. rewrite in_flat_map. split.
  - intros (t & It & Iv). exists t. split; [assumption|].
    destruct (truthy_bool (enabled t)); [|destruct Iv].
    destruct (score t); [|destruct Iv]. destruct Iv as [E|[]]. now subst.
  - intros (t & It & Et & St). exists t. split; [assumption|].
    rewrite Et, St. now left.
Qed.

Lemma enabled_scores_finished s ts :
  enabled_scores (map polished (map (paint_of s) ts)) = enabled_scores ts.
Proof.
  induction ts as [|t ts IH]; simpl; [reflexivity|]. rewrite IH. f_equal.
  destruct (polished_fields (paint_of s t)) as (_ & _ & S1 & E1 & _).
  destruct (paint_of_fields s t) as (_ & _ & S2 & _ & E2 & _).
  now rewrite S1, E1, S2, E2.
Qed.

(** C5. In either script, the maximum returned by the merge is the
    greatest of its first value and of the scores of the techniques that
    are enabled in the merged layer: it bounds the score of every enabled
    technique, and it is either the first value or the score of an enabled
    technique, so that no disabled technique raises it. *)
Theorem C5_maximum_over_enabled (s : script) (docs : list Layer) :
  docs <> [] ->
  exists out mx n,
    merge_of s docs = Ok (out, (mx, n)) /\
    mx = fold_left Z.max (enabled_scores (techniques out)) (seed_of s) /\
    (forall t v, In t (techniques out) -> enabled t = Some true ->
                 score t = Some v -> v <= mx) /\
    (mx = seed_of s \/
     exists t, In t (techniques out) /\ enabled t = Some true /\ score t = Some mx).
Proof.
  intros N. destruct (merge_of_spec s docs N) as (out & mx & n & M & MA).
  exists out, mx, n. split; [assumption|].
  destruct MA as (first & rest & L & E & H & I & O & Mx & _).
  assert (Es : enabled_scores (techniques out) = enabled_scores (techniques L)).
  { subst out. simpl. apply enabled_scores_finished. }
  rewrite Es, <- Mx. split; [reflexivity|].
  destruct (fold_max_bounds (enabled_scores (techniques L)) (seed_of s)) as [_ B].
  destruct (fold_max_attained (enabled_scores (techniques L)) (seed_of s)) as [A|A].
  - split; [|left; congruence].
    intros t v It Et St. rewrite Mx. apply B. rewrite <- Es.
    apply enabled_scores_in. exists t. rewrite Et. auto.
  - split.
    + intros t v It Et St. rewrite Mx. apply B. rewrite <- Es.
      apply enabled_scores_in. exists t. rewrite Et. auto.
    + right. rewrite <- Mx, <- Es in A.
      apply enabled_scores_in in A as (t & It & Et & St).
      exists t. repeat split; try assumption.
      now destruct (enabled t) as [[|]|].
Qed.

Lemma C5_maximum_over_enabled_witness :
  exists out mx n,
    merge_of merge_layers_py [scenario_doc1; scenario_doc2] = Ok (out, (mx, n)) /\
    mx = fold_left Z.max (enabled_scores (techniques out)) 1 /\
    (forall t v, In t (techniques out) -> enabled t = Some true ->
                 score t = Some v -> v <= mx) /\
    (mx = 1 \/
     exists t, In t (techniques out) /\ enabled t = Some true /\ score t = Some mx).
Proof.
  apply (C5_maximum_over_enabled merge_layers_py [scenario_doc1; scenario_doc2]).
  discriminate.
Defined.

(** The end-to-end scenario: the technique T1, disabled with the score 8,
    does not count; the maximum is 2 and one technique is disabled. *)
Example scenario_maximum (s : script) :
  exists out,
    merge_of s [scenario_doc1; scenario_doc2] = Ok (out, (2, 1)) /\
    map (fun t => (techniqueID t, score t, enabled t)) (techniques out)
    = [("T1", Some 8, Some false); ("T3", Some 1, Some true);
       ("T2", Some 2, Some true)].
Proof. destruct s; eexists; split; reflexivity. Qed.

(** *** The metadata *)

Lemma compute_curve_ok a b : a < b -> compute_curve a b = Ok tt.
Proof. unfold compute_curve. intros H. destruct (Z.ltb_spec (b - a) 1); [lia | reflexivity]. Qed.

Lemma compute_curve_refused a b : b <= a -> compute_curve a b = Raise ValueError.
Proof. unfold compute_curve. intros H. destruct (Z.ltb_spec (b - a) 1); [reflexivity | lia]. Qed.

Lemma compute_curve_inv a b u : compute_curve a b = Ok u -> a < b.
Proof. unfold compute_curve. destruct (Z.ltb_spec (b - a) 1); [discriminate | lia]. Qed.

Lemma metadata_ready_inv l :
  metadata_ready l = true ->
  exists g items, gradient l = Some g /\ legendItems l = Some items /\
                  minValue g < maxValue g /\ 0 < maxValue g.
Proof.
  unfold metadata_ready. destruct (gradient l) as [g|]; [|discriminate].
  destruct (legendItems l) as [items|]; [|discriminate].
  intros H. apply andb_true_iff in H as [H1 H2].
  exists g, items. repeat split; lia.
Qed.

Lemma ML_set_metadata_inv L names mx L' :
  ML.set_metadata L names mx = Ok L' ->
  metadata_ready L = true /\ 0 < mx /\
  gradient L' = Some (mkGradient colors_read_back 0 mx) /\
  legendItems L' = Some [mkLegendItem label_high "#ff6666"; mkLegendItem label_low "#ffffff"] /\
  techniques L' = techniques L /\ domain L' = domain L.
Proof.
  unfold ML.set_metadata, metadata_ready.
  destruct (gradient L) as [g|]; [|discriminate]. intros H.
  apply bind_ok in H as (u1 & C1 & H). apply bind_ok in H as (u2 & C2 & H).
  apply bind_ok in H as (u3 & C3 & H).
  destruct (legendItems L) as [items|]; [|discriminate].
  apply compute_curve_inv in C1, C2, C3. inversion H; subst L'. simpl.
  repeat split; try lia; apply andb_true_iff; split; lia.
Qed.

Lemma MN_set_metadata_inv L names count mx L' :
  MN.set_metadata L names count mx = Ok L' ->
  metadata_ready L = true /\ 0 < mx /\
  gradient L' = Some (mkGradient colors_read_back 0 mx) /\
  legendItems L' = Some [mkLegendItem label_high "#ff6666"; mkLegendItem label_low "#ffffff"] /\
  techniques L' = techniques L /\ domain L' = domain L.
Proof.
  unfold MN.set_metadata, metadata_ready.
  destruct (gradient L) as [g|]; [|discriminate]. intros H.
  apply bind_ok in H as (u1 & C1 & H). apply bind_ok in H as (u2 & C2 & H).
  apply bind_ok in H as (u3 & C3 & H).
  destruct (legendItems L) as [items|]; [|discriminate].
  apply compute_curve_inv in C1, C2, C3. inversion H; subst L'. simpl.
  repeat split; try lia; apply andb_true_iff; split; lia.
Qed.

Lemma ML_set_metadata_ok L names mx :
  metadata_ready L = true -> 0 < mx -> exists L', ML.set_metadata L names mx = Ok L'.
Proof.
  intros R P. destruct (metadata_ready_inv L R) as (g & items & G & I & A & B).
  unfold ML.set_metadata. rewrite G, I.
  rewrite !compute_curve_ok by lia. simpl. eauto.
Qed.


Lemma ML_set_metadata_refused L names mx :
  metadata_ready L = true -> mx <= 0 -> ML.set_metadata L names mx = Raise ValueError.
Proof.
  intros R P. destruct (metadata_ready_inv L R) as (g & items & G & I & A & B).
  unfold ML.set_metadata. rewrite G.
  rewrite !compute_curve_ok by lia. simpl. now rewrite compute_curve_refused.
Qed.


Lemma ML_process_path_inv files m :
  ML.process_path files = Ok (Some m) ->
  exists imported out,
    ML.import_layers files = Ok imported /\
    imported <> [] /\
    ML.merge (map (fun f => snd (fst f)) imported)
    = Ok (out, (max_score m, number_of_techniques_disabled m)) /\
    ML.set_metadata out (map fst (map snd imported)) (max_score m)
    = Ok (merged_layer m).
Proof.
  unfold ML.process_path. intros H. apply bind_ok in H as (imported & Im & H).
  destruct (Z.of_nat (List.length (map (fun f => snd (fst f)) imported)) =? 0) eqn:E;
    [discriminate|].
  apply bind_ok in H as ([out [mx n]] & M & H).
  apply bind_ok in H as (L' & S & H). inversion H; subst m. simpl in *.
  exists imported, out. repeat split; try assumption.
  intros E'. subst imported. discriminate.
Qed.

Lemma MN_main_inv files m :
  MN.main files = Ok m ->
  exists out,
    MN.import_layers files <> [] /\
    MN.merge (map fst (MN.import_layers files))
    = Ok (out, (max_score m, number_of_techniques_disabled m)) /\
    MN.set_metadata out
      (map fst (map (fun entry => MN.get_layer_name (fst entry) (snd entry))
                    (MN.import_layers files)))
      (Z.of_nat (List.length (MN.import_layers files))) (max_score m)
    = Ok (merged_layer m).
Proof.
  unfold MN.main. intros H.
  destruct (Z.of_nat (List.length (MN.import_layers files)) =? 0) eqn:E; [discriminate|].
  apply bind_ok in H as ([out [mx n]] & M & H).
  apply bind_ok in H as (L' & S & H). inversion H; subst m. simpl in *.
  exists out. repeat split; try assumption.
  intros E'. rewrite E' in E. discriminate.
Qed.

(** C6. What [merge_navigator_layers.py] does with one layer whose only
    technique has a comment and no score: the maximum stays at its first
    value 0, the assignment of maxValue on line 161 raises ValueError and
    no merged layer is written; [merge_layers.py], whose maximum starts at
    1, writes the merged layer of the same file with a gradient from 0
    to 1. *)
Theorem C6_zero_maximum_is_refused :
  let t := mkTechnique "T1" None None (Some "seen") None false None in
  let files := [("G0001.json", Some (layer_of "APT (G0001)" "" [t]))] in
  (exists out n, MN.merge (map fst (MN.import_layers files)) = Ok (out, (0, n))) /\
  MN.main files = Raise ValueError /\
  (exists m, ML.process_path files = Ok (Some m) /\
             gradient (merged_layer m) = Some (mkGradient ["#ffffff"; "#ff6666"] 0 1)).
Proof.
  split; [do 2 eexists; reflexivity|]. split; [reflexivity|].
  eexists. split; reflexivity.
Qed.

(** The gradient and the legend written by the two scripts. *)
Lemma ML_gradient files m :
  ML.process_path files = Ok (Some m) ->
  gradient (merged_layer m) = Some (mkGradient ["#ffffff"; "#ff6666"] 0 (max_score m)) /\
  legendItems (merged_layer m)
  = Some [mkLegendItem label_high "#ff6666"; mkLegendItem label_low "#ffffff"] /\
  1 <= max_score m.
Proof.
  intros H. apply ML_process_path_inv in H as (imported & out & _ & _ & _ & S).
  apply ML_set_metadata_inv in S as (_ & P & G & Lg & _). repeat split; try assumption.
  lia.
Qed.

Lemma MN_gradient files m :
  MN.main files = Ok m ->
  gradient (merged_layer m) = Some (mkGradient ["#ffffff"; "#ff6666"] 0 (max_score m)) /\
  legendItems (merged_layer m)
  = Some [mkLegendItem label_high "#ff6666"; mkLegendItem label_low "#ffffff"] /\
  1 <= max_score m.
Proof.
  intros H. apply MN_main_inv in H as (out & _ & _ & S).
  apply MN_set_metadata_inv in S as (_ & P & G & Lg & _). repeat split; try assumption.
  lia.
Qed.

(** C7. In either script, the initialization of a technique sets an absent
    score to 0, an absent comment to the empty string and an absent
    enabled value to true, and keeps the values present and the other
    fields; the initialization of a layer changes its techniques only, one
    by one; and initializing twice, a layer or a list of layers, is the
    same as initializing once. *)
Theorem C7_initialization (s : script) :
  (forall t,
     let t' := initialize_technique_of s t in
     score t' = Some (match score t with Some v => v | None => 0 end) /\
     comment t' = Some (match comment t with Some c => c | None => "" end) /\
     enabled t' = Some (match enabled t with Some e => e | None => true end) /\
     techniqueID t' = techniqueID t /\ tactic t' = tactic t /\
     showSubtechniques t' = showSubtechniques t /\ color t' = color t) /\
  (forall l,
     techniques (initialize_layer_of s l)
     = map (initialize_technique_of s) (techniques l) /\
     set_techniques (initialize_layer_of s l) (techniques l) = l) /\
  (forall l, initialize_layer_of s (initialize_layer_of s l) = initialize_layer_of s l) /\
  (forall ls, initialize_layers_of s (initialize_layers_of s ls)
              = initialize_layers_of s ls).
Proof.
  assert (L : forall l, ML.initialize_layer (ML.initialize_layer l) = ML.initialize_layer l).
  { intros l. apply initialize_layer_fixed, initialize_layer_initialized. }
  repeat split.
  1-7: destruct s, t as [i ta [v|] [c|] [e|] w co]; reflexivity.
  - now destruct s.
  - destruct s, l; reflexivity.
  - destruct s; apply L.
  - intros ls. destruct s; apply initialize_layers_fixed, initialize_layers_initialized.
Qed.

(** C8. In either script, when the technique identifiers are unique
    within each input document, the merged layer holds each identifier at
    most once, and holds exactly the identifiers of the input documents. *)
Theorem C8_one_technique_per_identifier (s : script) (docs : list Layer) :
  docs <> [] -> Forall unique_ids docs ->
  exists out mx n,
    merge_of s docs = Ok (out, (mx, n)) /\
    NoDup (ids (techniques out)) /\
    (forall T, In T (ids (techniques out)) <->
               exists d, In d docs /\ In T (ids (techniques d))).
Proof.
  intros N U. destruct (merge_of_spec s docs N) as (out & mx & n & M & MA).
  exists out, mx, n. split; [assumption|].
  destruct (merged_as_ids _ _ _ _ _ MA) as (first & rest & E & Hu & Hi).
  split; [|assumption]. apply Hu. subst docs.
  apply Forall_app in U as [_ U]. now inversion U.
Qed.

Lemma C8_one_technique_per_identifier_witness :
  exists out mx n,
    merge_of merge_navigator_layers_py [scenario_doc1; scenario_doc2]
    = Ok (out, (mx, n)) /\
    NoDup (ids (techniques out)) /\
    (forall T, In T (ids (techniques out)) <->
               exists d, In d [scenario_doc1; scenario_doc2] /\
                         In T (ids (techniques d))).
Proof.
  apply (C8_one_technique_per_identifier merge_navigator_layers_py
           [scenario_doc1; scenario_doc2]).
  - discriminate.
  - repeat constructor; simpl; intuition discriminate.
Defined.

(** *** The two scripts side by side *)

Lemma polished_recolored t : polished (recolored t) = recolored (polished t).
Proof.
  unfold polished, recolored.
  cbn [set_showSubtechniques set_color enabled comment].
  now destruct (truthy_bool (enabled t) && truthy_str (comment t)).
Qed.

Lemma merged_as_same_loop s1 s2 p1 p2 layers o1 m1 n1 o2 m2 n2 :
  merged_as s1 p1 layers o1 m1 n1 -> merged_as s2 p2 layers o2 m2 n2 ->
  exists L,
    o1 = set_techniques L (map polished (map p1 (techniques L))) /\
    o2 = set_techniques L (map polished (map p2 (techniques L))) /\
    m1 = fold_left Z.max (enabled_scores (techniques L)) s1 /\
    m2 = fold_left Z.max (enabled_scores (techniques L)) s2 /\
    n1 = n2.
Proof.
  intros (f1 & r1 & L1 & E1 & H1 & _ & O1 & M1 & N1)
         (f2 & r2 & L2 & E2 & H2 & _ & O2 & M2 & N2).
  rewrite E1 in E2. apply app_inj_tail in E2 as [Er Ef]. subst f2 r2.
  rewrite H1 in H2. inversion H2; subst L2.
  exists L1. repeat split; congruence.
Qed.

Lemma merges_agree (docs : list Layer) :
  (docs = [] /\ ML.merge docs = Raise IndexError /\ MN.merge docs = Raise IndexError)
  \/
  (exists o1 mx1 n1 o2 mx2 n2,
     ML.merge docs = Ok (o1, (mx1, n1)) /\
     MN.merge docs = Ok (o2, (mx2, n2)) /\
     map characteristics (techniques o2) = map characteristics (techniques o1) /\
     o2 = set_techniques o1 (map (fun t => set_color t (Some "")) (techniques o1)) /\
     n2 = n1 /\
     mx1 = Z.max 1 mx2).
Proof.
  destruct docs as [|d ds]; [left; repeat split; reflexivity | right].
  destruct (ML_merge_spec (d :: ds)) as (o1 & mx1 & n1 & M1 & A1); [discriminate|].
  destruct (MN_merge_spec (d :: ds)) as (o2 & mx2 & n2 & M2 & A2); [discriminate|].
  exists o1, mx1, n1, o2, mx2, n2.
  destruct (merged_as_same_loop _ _ _ _ _ _ _ _ _ _ _ A1 A2)
    as (L & O1 & O2 & X1 & X2 & N).
  assert (R : map polished (map recolored (techniques L))
              = map (fun t => set_color t (Some ""))
                    (map polished (map (fun t => t) (techniques L)))).
  { rewrite map_id, !map_map. apply map_ext. intros t. apply polished_recolored. }
  repeat split; try assumption.
  - subst o1 o2. simpl. rewrite R, !map_map. reflexivity.
  - subst o1 o2. simpl. now rewrite R.
  - congruence.
  - subst mx1 mx2. now rewrite <- fold_max_seed.
Qed.

(** *** The name of a layer *)

Lemma string_app_assoc (a b c : string) : ((a ++ b) ++ c = a ++ b ++ c)%string.
Proof. induction a as [|x a IH]; simpl; [reflexivity | now rewrite IH]. Qed.

Lemma match_id_some s m :
  match_id s = Some m -> is_short_identifier m = true /\ exists rest, s = m ++ rest.
Proof.
  unfold match_id.
  destruct s as [|a [|d1 [|d2 [|d3 [|d4 rest]]]]]; try discriminate.
  destruct (is_upper a && is_digit d1 && is_digit d2 && is_digit d3 && is_digit d4)
    eqn:E; [|discriminate].
  intros H. inversion H; subst. simpl. rewrite E. eauto.
Qed.

Lemma match_id_short id rest :
  is_short_identifier id = true -> match_id (id ++ rest) = Some id.
Proof.
  destruct id as [|a [|d1 [|d2 [|d3 [|d4 [|x id]]]]]]; try discriminate.
  simpl. now intros ->.
Qed.

Lemma match_paren_id_some s m :
  match_paren_id s = Some m ->
  exists id rest, is_short_identifier id = true /\
                  m = String "(" (id ++ ")") /\ s = m ++ rest.
Proof.
  unfold match_paren_id.
  destruct s as [|o [|a [|d1 [|d2 [|d3 [|d4 [|c rest]]]]]]]; try discriminate.
  destruct (Ascii.eqb_spec o "("); [|discriminate]. subst o.
  destruct (is_upper a && is_digit d1 && is_digit d2 && is_digit d3 && is_digit d4)
    eqn:E; [|simpl; rewrite ?E; discriminate].
  destruct (Ascii.eqb_spec c ")").
  - subst c. simpl. rewrite E. simpl. intros H. inversion H; subst.
    exists (String a (String d1 (String d2 (String d3 (String d4 ""))))), rest.
    simpl. rewrite E. auto.
  - simpl. rewrite E. simpl. destruct (Ascii.eqb_spec c ")"); [contradiction|].
    discriminate.
Qed.

Lemma match_paren_id_short id rest :
  is_short_identifier id = true ->
  match_paren_id (String "(" (id ++ String ")" rest)) = Some (String "(" (id ++ ")")).
Proof.
  destruct id as [|a [|d1 [|d2 [|d3 [|d4 [|x id]]]]]]; try discriminate.
  simpl. now intros ->.
Qed.

Lemma search_some pattern s m :
  search pattern s = Some m ->
  exists before after, s = before ++ after /\ pattern after = Some m.
Proof.
  induction s as [|c s IH]; simpl.
  - destruct (pattern "") eqn:E; [|discriminate].
    intros H. inversion H; subst. now exists "", "".
  - destruct (pattern (String c s)) eqn:E.
    + intros H. inversion H; subst. now exists "", (String c s).
    + intros H. destruct (IH H) as (before & after & Es & P).
      exists (String c before), after. simpl. now rewrite Es.
Qed.

Lemma search_none pattern s :
  search pattern s = None ->
  forall before after, s = before ++ after -> pattern after = None.
Proof.
  induction s as [|c s IH]; simpl.
  - destruct (pattern "") eqn:E; [discriminate|].
    intros _ [|x before] after; simpl; [intros <-; assumption | discriminate].
  - destruct (pattern (String c s)) eqn:E; [discriminate|].
    intros H [|x before] after; simpl.
    + intros <-. assumption.
    + intros Es. inversion Es; subst. now apply (IH H before).
Qed.

Lemma not_a_bracket c :
  is_upper c || is_digit c = true -> mem_char c "()" = false.
Proof.
  destruct c as [[] [] [] [] [] [] [] []]; vm_compute; congruence.
Qed.

Lemma strip_brackets id :
  is_short_identifier id = true -> strip_chars "()" (String "(" (id ++ ")")) = id.
Proof.
  destruct id as [|a [|d1 [|d2 [|d3 [|d4 [|x id]]]]]]; try discriminate.
  cbn [is_short_identifier]. intros H.
  apply andb_true_iff in H as [H H4]. apply andb_true_iff in H as [H H3].
  apply andb_true_iff in H as [H H2]. apply andb_true_iff in H as [Ha H1].
  assert (Na : mem_char a "()" = false) by (apply not_a_bracket; now rewrite Ha).
  assert (N4 : mem_char d4 "()" = false)
    by (apply not_a_bracket; rewrite H4; apply orb_true_r).
  unfold strip_chars.
  cbn [append lstrip_by]. change (mem_char "(" "()") with true. cbv iota.
  cbn [lstrip_by]. rewrite Na.
  cbn [rstrip_by]. change (mem_char ")" "()") with true. cbv iota.
  rewrite N4. reflexivity.
Qed.

Lemma split_last sep s :
  exists dir,
    s = dir ++ last (split sep s) "" /\
    mem_char sep (last (split sep s) "") = false /\
    ((dir = "" /\ split sep s = [last (split sep s) ""]) \/
     (exists d, dir = d ++ String sep "") /\
     exists p ps, split sep s = p :: ps /\ ps <> []).
Proof.
  induction s as [|c s (dir & Es & Ns & IH)].
  - exists "". simpl. auto.
  - simpl. destruct (Ascii.eqb_spec c sep) as [E|E].
    + subst c. exists (String sep dir).
      assert (Ne : split sep s <> []) by (destruct IH as [[_ H]|[_ (p & ps & H & _)]]; rewrite H; discriminate).
      assert (L : last ("" :: split sep s) "" = last (split sep s) "")
        by (simpl; destruct (split sep s); [contradiction | reflexivity]).
      rewrite L. split; [simpl; now rewrite <- Es|]. split; [assumption|].
      right. split; [|eauto].
      destruct IH as [[D _]|[(d & D) _]]; subst dir.
      * now exists "".
      * now exists (String sep d).
    + destruct IH as [[D S]|[(d & D) (p & ps & S & Np)]].
      * rewrite S. subst dir. exists "". simpl in *.
        split; [now rewrite <- Es|]. split; [|auto].
        rewrite Ns. destruct (Ascii.eqb_spec sep c); [congruence | reflexivity].
      * rewrite S in *. exists (String c dir).
        assert (L : last (String c p :: ps) "" = last (p :: ps) "")
          by (simpl; destruct ps; [contradiction | reflexivity]).
        rewrite L. split; [cbn [append]; now rewrite <- Es|]. split; [assumption|].
        right. split; [|eauto]. subst dir. now exists (String c d).
Qed.

(** C9, as stated, fails.  The name "APT1 G0006" holds an identifier
    without parentheses, and [get_layer_name] returns the file name; the
    description "see G00012" holds a letter and five digits, and
    [merge_layers.py] returns the letter and the first four; and the name
    that [merge_layers.py] falls back on keeps the extension. *)
Lemma C9_layer_name_counterexample :
  (is_short_identifier "G0006" = true /\
   occurs_in "G0006" (name (layer_of "APT1 G0006" "" [])) /\
   MN.get_layer_name (layer_of "APT1 G0006" "" []) "apt1" = ("apt1", [warning "apt1"]))
  /\
  ML.layer_name "layers/G0001.json" (layer_of "" "see G00012" []) = Ok ("G0001", [])
  /\
  ML.layer_name "layers/CUSTOM_notes.json" (layer_of "" "no identifier" [])
  = Ok ("CUSTOM_notes.json", [warning "layers/CUSTOM_notes.json"]).
Proof.
  repeat split. now exists "APT1 ", "".
Qed.

(** C9, amended.  [get_layer_name] of [merge_navigator_layers.py] returns
    an identifier (an upper case letter and four digits) that stands in
    parentheses in the name of the layer when there is one, and prints
    nothing; when there is none it returns the file name it was given,
    unchanged, and prints a warning; it raises no exception.
    [merge_layers.py], for a layer that has a description, returns an
    upper case letter and four digits that stand in the description when
    there are some, and prints nothing; when there are none it returns
    the last component of the path of the file and prints a warning. *)
Theorem C9_layer_names :
  (forall (layer : Layer) (file_name : string),
     (exists id,
        is_short_identifier id = true /\
        occurs_in ("(" ++ id ++ ")") (name layer) /\
        MN.get_layer_name layer file_name = (id, []))
     \/
     ((forall id, is_short_identifier id = true ->
                  ~ occurs_in ("(" ++ id ++ ")") (name layer)) /\
      MN.get_layer_name layer file_name = (file_name, [warning file_name])))
  /\
  (forall (json_file_path : string) (new_layer : Layer) (text : string),
     description new_layer = Some text ->
     (exists id,
        is_short_identifier id = true /\
        occurs_in id text /\
        ML.layer_name json_file_path new_layer = Ok (id, []))
     \/
     ((forall id, is_short_identifier id = true -> ~ occurs_in id text) /\
      exists dir file_name,
        replace "\" "/" json_file_path = dir ++ file_name /\
        mem_char "/" file_name = false /\
        (dir = "" \/ exists d, dir = d ++ "/") /\
        ML.layer_name json_file_path new_layer
        = Ok (file_name, [warning json_file_path]))).
Proof.
  split.
  - intros layer file_name. unfold MN.get_layer_name.
    destruct (search match_paren_id (name layer)) as [m|] eqn:S.
    + left. apply search_some in S as (before & after & En & P).
      apply match_paren_id_some in P as (id & rest & Hid & Em & Ea).
      exists id. split; [assumption|]. split.
      * exists before, rest. rewrite En, Ea, Em. reflexivity.
      * subst m. now rewrite strip_brackets.
    + right. split; [|reflexivity].
      intros id Hid (before & after & En).
      pose proof (search_none _ _ S before _ En) as P.
      cbn [append] in P. rewrite string_app_assoc in P. cbn [append] in P.
      rewrite match_paren_id_short in P by assumption. discriminate.
  - intros json_file_path new_layer text D. unfold ML.layer_name. rewrite D.
    destruct (search match_id text) as [m|] eqn:S.
    + left. apply search_some in S as (before & after & En & P).
      apply match_id_some in P as (Hid & rest & Ea).
      exists m. split; [assumption|]. split; [|reflexivity].
      exists before, rest. now rewrite En, Ea.
    + right. split.
      * intros id Hid (before & after & En).
        pose proof (search_none _ _ S before _ En) as P.
        rewrite match_id_short in P by assumption. discriminate.
      * destruct (split_last "/" (replace "\" "/" json_file_path))
          as (dir & Es & Ns & D').
        exists dir, (last (split "/" (replace "\" "/" json_file_path)) "").
        split; [assumption|]. split; [assumption|]. split; [|reflexivity].
        destruct D' as [[D' _]|[D' _]]; auto.
Qed.

Lemma C9_layer_names_witness :
  (exists id,
     is_short_identifier id = true /\
     occurs_in id "APT28 G0007" /\
     ML.layer_name "layers/G0007.json" (layer_of "APT28" "APT28 G0007" []) = Ok (id, []))
  \/
  ((forall id, is_short_identifier id = true -> ~ occurs_in id "APT28 G0007") /\
   exists dir file_name,
     replace "\" "/" "layers/G0007.json" = dir ++ file_name /\
     mem_char "/" file_name = false /\
     (dir = "" \/ exists d, dir = d ++ "/") /\
     ML.layer_name "layers/G0007.json" (layer_of "APT28" "APT28 G0007" [])
     = Ok (file_name, [warning "layers/G0007.json"])).
Proof.
  apply (proj2 C9_layer_names "layers/G0007.json" (layer_of "APT28" "APT28 G0007" [])
           "APT28 G0007").
  reflexivity.
Defined.


(** *** The two entry points *)

Lemma ML_import_inv files imported :
  ML.import_layers files = Ok imported ->
  Forall (fun f => described f = true) files /\
  map (fun f => snd (fst f)) imported = map fst (MN.import_layers files).
Proof.
  revert imported. induction files as [|[path [l|]] files IH]; intros imported; simpl.
  - intros H. inversion H. split; [constructor | reflexivity].
  - intros H. apply bind_ok in H as (named & N & H).
    apply bind_ok in H as (rest & R & H). inversion H; subst imported.
    destruct (IH rest R) as [F M]. split.
    + constructor; [|assumption]. unfold described. simpl.
      unfold ML.layer_name in N. now destruct (description l).
    + simpl. now rewrite M.
  - discriminate.
Qed.

Lemma ML_import_described files :
  Forall (fun f => described f = true) files ->
  exists imported, ML.import_layers files = Ok imported.
Proof.
  induction files as [|[path [l|]] files IH]; intros V; simpl.
  - now exists [].
  - inversion V as [|? ? D V']; subst. destruct (IH V') as (imported & E).
    unfold described in D. simpl in D. unfold ML.layer_name.
    destruct (description l) as [text|]; [|discriminate].
    destruct (search match_id text); simpl; rewrite E; simpl; eauto.
  - inversion V as [|? ? D V']; subst. discriminate.
Qed.

Lemma ML_import_stops pre : forall f post,
  Forall (fun f => described f = true) pre ->
  described f = false ->
  ML.import_layers (pre ++ f :: post) =
  Raise (match snd f with None => SystemExit 1 | Some _ => TypeError end).
Proof.
  induction pre as [|[path [l|]] pre IH]; intros f post V D.
  - destruct f as [path [l|]]; simpl; [|reflexivity].
    unfold described in D. simpl in D. unfold ML.layer_name.
    now destruct (description l).
  - inversion V as [|? ? D0 V']; subst. simpl.
    unfold described in D0. simpl in D0. unfold ML.layer_name.
    destruct (description l) as [text|]; [|discriminate].
    rewrite (IH f post V' D). now destruct (search match_id text).
  - inversion V as [|? ? D0 V']; subst. discriminate.
Qed.

Lemma MN_import_skips pre path post :
  MN.import_layers (pre ++ (path, None) :: post) = MN.import_layers (pre ++ post).
Proof.
  induction pre as [|[p [l|]] pre IH]; simpl; [reflexivity | now rewrite IH | assumption].
Qed.

Lemma metadata_ready_set_techniques l ts :
  metadata_ready (set_techniques l ts) = metadata_ready l.
Proof. reflexivity. Qed.

(** C10. On the same list of documents the two scripts either both stop
    on the empty list, or both return a merged layer, and then the layers
    hold the same techniques in the same order with the same identifiers,
    scores, comments and enabled values; the layer of
    [merge_navigator_layers.py] is that of [merge_layers.py] with every
    color set to the empty string; the numbers of disabled techniques are
    equal, and the maximum of [merge_layers.py] is the greater of 1 and of
    the maximum of [merge_navigator_layers.py].  The same holds of the
    layers written by the two entry points on the same files: when the
    layers all have a description, [merge_layers.py] writes a merged
    layer wherever [merge_navigator_layers.py] writes one.  A file that is
    not valid, met before any layer without description, ends
    [merge_layers.py] with the exit code 1, and is left out by
    [merge_navigator_layers.py]. *)
Theorem C10_same_merge :
  (forall docs : list Layer,
     (docs = [] /\ ML.merge docs = Raise IndexError /\ MN.merge docs = Raise IndexError)
     \/
     (exists o1 mx1 n1 o2 mx2 n2,
        ML.merge docs = Ok (o1, (mx1, n1)) /\
        MN.merge docs = Ok (o2, (mx2, n2)) /\
        map characteristics (techniques o2) = map characteristics (techniques o1) /\
        o2 = set_techniques o1 (map (fun t => set_color t (Some "")) (techniques o1)) /\
        n2 = n1 /\
        mx1 = Z.max 1 mx2))
  /\
  (forall (files : list (string * option Layer)) (m2 : Merged),
     Forall (fun f => described f = true) files ->
     MN.main files = Ok m2 ->
     exists m1,
       ML.process_path files = Ok (Some m1) /\
       map characteristics (techniques (merged_layer m2))
       = map characteristics (techniques (merged_layer m1)) /\
       techniques (merged_layer m2)
       = map (fun t => set_color t (Some "")) (techniques (merged_layer m1)) /\
       number_of_techniques_disabled m2 = number_of_techniques_disabled m1 /\
       max_score m1 = Z.max 1 (max_score m2))
  /\
  (forall (pre post : list (string * option Layer)) (path : string),
     Forall (fun f => described f = true) pre ->
     ML.process_path (pre ++ (path, None) :: post) = Raise (SystemExit 1))
  /\
  (forall (pre post : list (string * option Layer)) (path : string),
     MN.main (pre ++ (path, None) :: post) = MN.main (pre ++ post)).
Proof.
  split; [exact merges_agree|]. split; [|split].
  - intros files m2 V H.
    destruct (MN_main_inv files m2 H) as (o2 & Ne & M2 & S2).
    apply MN_set_metadata_inv in S2 as (R2 & P2 & _ & _ & T2 & _).
    destruct (ML_import_described files V) as (imported & Im).
    destruct (ML_import_inv files imported Im) as [_ Em].
    destruct (merges_agree (map fst (MN.import_layers files)))
      as [(E & _) | (o1 & mx1 & n1 & o2' & mx2 & n2 & M1 & M2' & Ch & O & Nn & Mx)].
    { destruct (MN.import_layers files); [contradiction | discriminate]. }
    rewrite M2 in M2'. injection M2' as E1 E2 E3.
    rewrite <- E1 in O, Ch. rewrite <- E2 in Mx. rewrite <- E3 in Nn.
    clear E1 E2 E3 o2' mx2 n2.
    assert (R1 : metadata_ready o1 = true) by (rewrite O in R2; exact R2).
    destruct (ML_set_metadata_ok o1 (map fst (map snd imported)) mx1 R1) as (L1 & S1);
      [lia|].
    unfold ML.process_path. rewrite Im. cbn [bind]. rewrite Em.
    destruct (Z.eqb_spec (Z.of_nat (List.length (map fst (MN.import_layers files)))) 0)
      as [E|E].
    { destruct (MN.import_layers files); [contradiction | simpl in E; lia]. }
    rewrite M1. cbn [bind fst snd]. rewrite S1. cbn [bind].
    eexists. split; [reflexivity|]. cbn [merged_layer max_score number_of_techniques_disabled].
    apply ML_set_metadata_inv in S1 as (_ & _ & _ & _ & T1 & _).
    rewrite T1, T2.
    repeat split; [exact Ch | rewrite O; reflexivity | exact Nn | exact Mx].
  - intros pre post path V. unfold ML.process_path.
    now rewrite (ML_import_stops pre (path, None) post V eq_refl).
  - intros pre post path. unfold MN.main. now rewrite MN_import_skips.
Qed.

Lemma C10_same_merge_witness :
  exists m2,
    MN.main [("G0001.json", Some scenario_doc1); ("G0002.json", Some scenario_doc2)]
    = Ok m2 /\
    exists m1,
      ML.process_path [("G0001.json", Some scenario_doc1); ("G0002.json", Some scenario_doc2)]
      = Ok (Some m1) /\
      map characteristics (techniques (merged_layer m2))
      = map characteristics (techniques (merged_layer m1)) /\
      techniques (merged_layer m2)
      = map (fun t => set_color t (Some "")) (techniques (merged_layer m1)) /\
      number_of_techniques_disabled m2 = number_of_techniques_disabled m1 /\
      max_score m1 = Z.max 1 (max_score m2).
Proof.
  eexists. split; [reflexivity|].
  apply (proj1 (proj2 C10_same_merge)
           [("G0001.json", Some scenario_doc1); ("G0002.json", Some scenario_doc2)]).
  - repeat constructor.
  - reflexivity.
Defined.

(** ** Further properties of the merge *)

(** *** Lookup *)

(** X1. In either script, [find_technique_in_layer] returns [None]
    exactly when no technique of the layer carries the identifier, and
    otherwise the first technique of the layer that carries it. *)
Theorem X1_find_technique_in_layer (s : script) (T : string) (layer : Layer) :
  (find_of s T layer = None <-> ~ In T (ids (techniques layer))) /\
  (forall t, find_of s T layer = Some t <->
             exists before after,
               techniques layer = (before ++ t :: after)%list /\
               techniqueID t = T /\ ~ In T (ids before)).
Proof.
  rewrite find_of_same. split; [apply find_technique_none|].
  generalize (techniques layer) as ts.
  induction ts as [|u ts IH]; intros t; simpl.
  - split; [discriminate|]. intros (before & after & E & _). now destruct before.
  - destruct (String.eqb_spec (techniqueID u) T) as [E|E].
    + split.
      * intros H. inversion H; subst. exists [], ts. simpl. tauto.
      * intros ([|b before] & after & El & Et & N).
        -- simpl in El. now inversion El.
        -- simpl in El. inversion El; subst. exfalso. apply N. now left.
    + rewrite IH. split.
      * intros (before & after & El & Et & N). exists (u :: before), after.
        simpl. rewrite El. repeat split; [assumption|]. intros [H|H]; auto.
      * intros ([|b before] & after & El & Et & N).
        -- simpl in El. inversion El; subst. contradiction.
        -- simpl in El. inversion El; subst. exists before, after.
           repeat split. intros H. apply N. now right.
Qed.

(** *** One document *)

Lemma finished_fields s t :
  let r := polished (paint_of s (ML.initialize_technique t)) in
  techniqueID r = techniqueID t /\ tactic r = tactic t /\
  score r = Some (score_of t) /\ enabled r = Some (enabled_of t) /\
  showSubtechniques r = false /\
  comment r = Some (if enabled_of t then strip (comment_of t) else comment_of t).
Proof.
  cbv zeta.
  destruct (polished_fields (paint_of s (ML.initialize_technique t)))
    as (P1 & P2 & P3 & P4 & _ & P6 & P7).
  destruct (paint_of_fields s (ML.initialize_technique t))
    as (Q1 & Q2 & Q3 & Q4 & Q5 & _).
  rewrite P1, P2, P3, P4, P6, P7, Q1, Q2, Q3, Q4, Q5.
  unfold score_of, comment_of, enabled_of.
  destruct t as [i ta [v|] [c|] [[|]|] w co]; cbn; repeat split;
    try (destruct (String.eqb_spec c ""); subst; reflexivity).
Qed.

(** X2. In either script, the merge of one document alone returns its
    techniques in their order, none reconciled with another even when
    identifiers repeat: each keeps its identifier and tactic, has its
    score (0 when absent) and enabled value (true when absent), has
    showSubtechniques false, and has its comment, stripped when the
    technique is enabled. *)
Theorem X2_single_document (s : script) (d : Layer) :
  exists out mx n,
    merge_of s [d] = Ok (out, (mx, n)) /\
    ids (techniques out) = ids (techniques d) /\
    map tactic (techniques out) = map tactic (techniques d) /\
    map score (techniques out) = map (fun t => Some (score_of t)) (techniques d) /\
    map enabled (techniques out) = map (fun t => Some (enabled_of t)) (techniques d) /\
    map showSubtechniques (techniques out) = map (fun _ => false) (techniques d) /\
    map comment (techniques out)
    = map (fun t => Some (if enabled_of t then strip (comment_of t) else comment_of t))
          (techniques d).
Proof.
  destruct (merge_of_spec s [d]) as (out & mx & n & M & MA); [discriminate|].
  exists out, mx, n. split; [assumption|].
  destruct MA as (first & rest & L & E & H & _ & O & _).
  change [d] with ([] ++ [d])%list in E. apply app_inj_tail in E as [<- <-].
  simpl in H. inversion H; subst L. subst out. simpl.
  unfold ids. rewrite !map_map.
  repeat split; apply map_ext; intros t;
    destruct (finished_fields s t) as (F1 & F2 & F3 & F4 & F5 & F6); assumption.
Qed.

(** *** The merged technique, identifier by identifier *)

Lemma appended_comments_cons t ts :
  appended_comments (t :: ts) =
  (if truthy_str (comment t) then blank_line ++ comment_of t ++ appended_comments ts
   else appended_comments ts).
Proof.
  unfold appended_comments. simpl. now destruct (truthy_str (comment t)).
Qed.

Lemma string_app_empty (a : string) : a ++ "" = a.
Proof. induction a as [|c a IH]; simpl; congruence. Qed.

Lemma reconcile_values r0 t m :
  initialized r0 = true -> initialized t = true -> ML.reconcile r0 t = Ok m ->
  score_of m = score_of r0 + score_of t /\
  comment_of m = (if truthy_str (comment t)
                  then comment_of r0 ++ blank_line ++ comment_of t
                  else comment_of r0) /\
  enabled_of m = enabled_of r0 && enabled_of t.
Proof.
  intros I0 It R.
  apply reconcile_fields in R as (_ & _ & _ & _ & R5 & R6 & R7).
  unfold score_of, comment_of, enabled_of. rewrite R5, R6, R7.
  unfold initialized in I0, It.
  destruct (score r0) as [a|], (comment r0) as [c|], (enabled r0) as [e|];
    try discriminate.
  destruct (score t) as [b|], (comment t) as [d|], (enabled t) as [[|]|];
    try discriminate;
    (split; [cbn [truthy_int]; destruct (Z.eqb_spec b 0); cbn [negb]; lia|]);
    (split; [destruct (truthy_str (Some d)); reflexivity|]);
    rewrite ?andb_true_r, ?andb_false_r; reflexivity.
Qed.

Lemma absorb_first incoming : forall r0,
  initialized r0 = true -> forallb initialized incoming = true ->
  exists m,
    absorb (Some r0) incoming = Ok (Some m) /\
    initialized m = true /\
    techniqueID m = techniqueID r0 /\ tactic m = tactic r0 /\
    showSubtechniques m = showSubtechniques r0 /\ color m = color r0 /\
    score_of m = score_of r0 + total_score incoming /\
    comment_of m = comment_of r0 ++ appended_comments incoming /\
    enabled_of m = enabled_of r0 && forallb enabled_of incoming.
Proof.
  induction incoming as [|t ts IH]; intros r0 I0 I.
  - exists r0. unfold total_score, appended_comments. simpl.
    rewrite Z.add_0_r, andb_true_r, string_app_empty. repeat split; assumption.
  - cbn [forallb] in I. apply andb_true_iff in I as [It I].
    destruct (initialized_present _ I0) as (S0 & C0 & _).
    destruct (reconcile_total r0 t S0 C0) as [m1 R].
    cbn [absorb]. rewrite R. cbn [bind].
    pose proof (reconcile_initialized _ _ _ I0 R) as I1.
    destruct (IH m1 I1 I) as (m & A & Im & F1 & F2 & F3 & F4 & F5 & F6 & F7).
    exists m. split; [assumption|]. split; [assumption|].
    destruct (reconcile_values _ _ _ I0 It R) as (V5 & V6 & V7).
    apply reconcile_fields in R as (R1 & R2 & R3 & R4 & _).
    rewrite F1, F2, F3, F4, F5, F6, F7, V5, V6, V7, appended_comments_cons.
    repeat split; try assumption.
    + unfold total_score. cbn [map fold_right]. lia.
    + destruct (truthy_str (comment t)); [now rewrite !string_app_assoc | reflexivity].
    + cbn [forallb]. now rewrite andb_assoc.
Qed.

Lemma initialized_values t :
  initialized t = true ->
  score t = Some (score_of t) /\ comment t = Some (comment_of t) /\
  enabled t = Some (enabled_of t).
Proof.
  unfold initialized, score_of, comment_of, enabled_of.
  destruct (score t), (comment t), (enabled t); try discriminate. auto.
Qed.

Lemma merged_record (s : script) (rest : list Layer) (first : Layer) (T : string) :
  Forall (fun l => initialized_layer l = true) (rest ++ [first]) ->
  unique_ids first ->
  exists out mx n,
    merge_of s (rest ++ [first]) = Ok (out, (mx, n)) /\
    match records_of T first rest with
    | [] => find_of s T out = None
    | r0 :: later =>
        exists r,
          find_of s T out = Some r /\
          techniqueID r = T /\ tactic r = tactic r0 /\
          color r = (match s with
                     | merge_layers_py => color r0
                     | merge_navigator_layers_py => Some ""
                     end) /\
          showSubtechniques r = false /\
          score r = Some (score_of r0 + total_score later) /\
          enabled r = Some (forallb enabled_of (r0 :: later)) /\
          comment r =
            Some (if forallb enabled_of (r0 :: later)
                  then strip (comment_of r0 ++ appended_comments later)
                  else comment_of r0 ++ appended_comments later)
    end.
Proof.
  intros I U.
  destruct (merge_of_spec s (rest ++ [first])) as (out & mx & n & M & MA).
  { now destruct rest. }
  exists out, mx, n. split; [assumption|].
  destruct (merged_as_lookup _ _ _ _ _ MA) as (first' & rest' & E & Lk).
  apply app_inj_tail in E as [<- <-].
  destruct (Lk T) as (current & Ab & Fo). rewrite find_of_same.
  apply Forall_app in I as [Ir If]. inversion If as [|? ? If1 _]; subst.
  rewrite initialize_layer_fixed in Ab by assumption.
  rewrite initialized_layers_fixed in Ab by assumption.
  assert (Iall : forallb initialized (filter (has_id T) (all_techniques rest)) = true).
  { rewrite forallb_forall. intros t Ht. apply filter_In in Ht as [Ht _].
    apply in_flat_map in Ht as (d & Hd & Ht). rewrite Forall_forall in Ir.
    specialize (Ir d Hd). unfold initialized_layer in Ir.
    rewrite forallb_forall in Ir. auto. }
  assert (Ifirst : forall t, In t (techniques first) -> initialized t = true).
  { unfold initialized_layer in If1. now rewrite forallb_forall in If1. }
  assert (Finish : forall r0 later,
            initialized r0 = true -> forallb initialized later = true ->
            techniqueID r0 = T ->
            absorb (Some r0) later = Ok current ->
            exists r,
              ML.find_technique T (techniques out) = Some r /\
              techniqueID r = T /\ tactic r = tactic r0 /\
              color r = (match s with
                         | merge_layers_py => color r0
                         | merge_navigator_layers_py => Some ""
                         end) /\
              showSubtechniques r = false /\
              score r = Some (score_of r0 + total_score later) /\
              enabled r = Some (forallb enabled_of (r0 :: later)) /\
              comment r =
                Some (if forallb enabled_of (r0 :: later)
                      then strip (comment_of r0 ++ appended_comments later)
                      else comment_of r0 ++ appended_comments later)).
  { intros r0 later I0 Il Eid A.
    destruct (absorb_first later r0 I0 Il)
      as (m & A' & Im & F1 & F2 & F3 & F4 & F5 & F6 & F7).
    rewrite A in A'. inversion A'; subst current. simpl in Fo.
    exists (polished (paint_of s m)). split; [assumption|].
    destruct (polished_fields (paint_of s m)) as (P1 & P2 & P3 & P4 & P5 & P6 & P7).
    destruct (paint_of_fields s m) as (Q1 & Q2 & Q3 & Q4 & Q5 & Q6).
    destruct (initialized_values m Im) as (V1 & V2 & V3).
    rewrite P1, P2, P3, P4, P5, P6, P7, Q1, Q2, Q3, Q4, Q5, V1, V2, V3.
    simpl forallb. rewrite <- F7, <- F6, <- F5, F1, F2.
    repeat split; try assumption; try congruence.
    - destruct s; simpl; [congruence | reflexivity].
    - simpl. destruct (enabled_of m); simpl; [|reflexivity].
      destruct (String.eqb_spec (comment_of m) "") as [Ec|Ec]; simpl; [|reflexivity].
      now rewrite Ec. }
  unfold records_of, all_techniques. simpl. rewrite filter_app.
  fold (all_techniques rest).
  destruct (ML.find_technique T (techniques first)) as [r0|] eqn:F.
  - destruct (find_technique_id _ _ _ F) as [Eid In0]. subst T.
    rewrite (filter_has_id_unique _ _ U In0). simpl.
    apply Finish; auto.
  - apply find_technique_none in F. rewrite (filter_has_id_absent _ _ F). simpl.
    destruct (filter (has_id T) (all_techniques rest)) as [|r0 later] eqn:Ef.
    + simpl in Ab. inversion Ab; subst. exact Fo.
    + simpl in Ab, Iall. apply andb_true_iff in Iall as [I0 Il].
      apply Finish; auto.
      assert (Hin : In r0 (filter (has_id T) (all_techniques rest)))
        by (rewrite Ef; now left).
      apply filter_In in Hin as [_ Hid]. now apply String.eqb_eq.
Qed.

Lemma total_score_app a b : total_score (a ++ b) = total_score a + total_score b.
Proof.
  unfold total_score. induction a as [|t a IH]; simpl; [reflexivity|].
  rewrite IH. lia.
Qed.

Lemma records_in_list_order T first rest :
  filter (has_id T) (all_techniques (rest ++ [first]))
  = (filter (has_id T) (all_techniques rest) ++ filter (has_id T) (techniques first))%list
  /\ records_of T first rest
     = (filter (has_id T) (techniques first) ++ filter (has_id T) (all_techniques rest))%list.
Proof.
  unfold records_of. rewrite all_techniques_app, filter_app.
  unfold all_techniques at 2 3. simpl. now rewrite app_nil_r, filter_app.
Qed.

Lemma records_present T first rest :
  In T (ids (all_techniques (rest ++ [first]))) ->
  exists r0 later, records_of T first rest = r0 :: later.
Proof.
  intros H. destruct (records_of T first rest) as [|r0 later] eqn:E; [|eauto].
  exfalso. unfold ids in H. apply in_map_iff in H as (t & Et & It).
  assert (In t (records_of T first rest)).
  { unfold records_of. apply filter_In. split.
    - rewrite all_techniques_app in It. unfold all_techniques in *. simpl in *.
      rewrite app_nil_r in It. apply in_or_app. apply in_app_or in It. tauto.
    - now apply String.eqb_eq. }
  rewrite E in H. destruct H.
Qed.

(** X3. In either script, for normalized documents whose last one holds
    each identifier at most once, the score of T in the merged layer is
    the sum of the scores of all the techniques that carry T in all the
    documents (several in one document count each). *)
Theorem X3_score_is_the_sum (s : script) (rest : list Layer) (first : Layer) (T : string) :
  Forall (fun l => initialized_layer l = true) (rest ++ [first]) ->
  unique_ids first ->
  In T (ids (all_techniques (rest ++ [first]))) ->
  exists out mx n r,
    merge_of s (rest ++ [first]) = Ok (out, (mx, n)) /\
    find_of s T out = Some r /\
    score r = Some (total_score (filter (has_id T) (all_techniques (rest ++ [first])))).
Proof.
  intros I U P.
  destruct (merged_record s rest first T I U) as (out & mx & n & M & R).
  destruct (records_present _ _ _ P) as (r0 & later & E).
  rewrite E in R. destruct R as (r & F & _ & _ & _ & _ & Sc & _).
  exists out, mx, n, r. repeat split; try assumption.
  destruct (records_in_list_order T first rest) as [E1 E2].
  rewrite E1, total_score_app, Sc. rewrite E in E2.
  change (r0 :: later) with ([r0] ++ later)%list in E2.
  assert (Et : total_score ([r0] ++ later)
               = total_score (filter (has_id T) (techniques first))
                 + total_score (filter (has_id T) (all_techniques rest)))
    by (rewrite E2; apply total_score_app).
  rewrite total_score_app in Et. unfold total_score at 1 in Et. simpl in Et.
  f_equal. lia.
Qed.

Lemma X3_score_is_the_sum_witness :
  exists out mx n r,
    merge_of merge_layers_py ([scenario_doc1] ++ [scenario_doc2]) = Ok (out, (mx, n)) /\
    find_of merge_layers_py "T1" out = Some r /\
    score r = Some (total_score (filter (has_id "T1")
                                  (all_techniques ([scenario_doc1] ++ [scenario_doc2])))).
Proof.
  apply (X3_score_is_the_sum merge_layers_py [scenario_doc1] scenario_doc2 "T1").
  - repeat constructor.
  - repeat constructor; simpl; intuition discriminate.
  - simpl; auto.
Defined.

(** X4. In either script, for normalized documents whose last one holds
    each identifier at most once, T is enabled in the merged layer
    exactly when every technique that carries T in the documents is
    enabled. *)
Theorem X4_enabled_is_the_conjunction (s : script) (rest : list Layer) (first : Layer)
        (T : string) :
  Forall (fun l => initialized_layer l = true) (rest ++ [first]) ->
  unique_ids first ->
  In T (ids (all_techniques (rest ++ [first]))) ->
  exists out mx n r,
    merge_of s (rest ++ [first]) = Ok (out, (mx, n)) /\
    find_of s T out = Some r /\
    enabled r = Some (forallb enabled_of
                        (filter (has_id T) (all_techniques (rest ++ [first])))).
Proof.
  intros I U P.
  destruct (merged_record s rest first T I U) as (out & mx & n & M & R).
  destruct (records_present _ _ _ P) as (r0 & later & E).
  rewrite E in R. destruct R as (r & F & _ & _ & _ & _ & _ & En & _).
  exists out, mx, n, r. repeat split; try assumption.
  destruct (records_in_list_order T first rest) as [E1 E2].
  rewrite En, E1, <- E, E2, !forallb_app. f_equal. apply andb_comm.
Qed.

Lemma X4_enabled_is_the_conjunction_witness :
  exists out mx n r,
    merge_of merge_layers_py ([scenario_doc1] ++ [scenario_doc2]) = Ok (out, (mx, n)) /\
    find_of merge_layers_py "T2" out = Some r /\
    enabled r = Some (forallb enabled_of
                        (filter (has_id "T2")
                           (all_techniques ([scenario_doc1] ++ [scenario_doc2])))).
Proof.
  apply (X4_enabled_is_the_conjunction merge_layers_py [scenario_doc1] scenario_doc2 "T2").
  - repeat constructor.
  - repeat constructor; simpl; intuition discriminate.
  - simpl; auto.
Defined.

(** X5. In either script, for normalized documents whose last one holds
    each identifier at most once, let r0 be the first technique that
    carries T, looking first in the last document and then in the others
    in the order of the list, and let the later ones follow in that order.
    The comment of T in the merged layer is the comment of r0 followed by
    each non-empty later comment after a blank line; it is stripped of the
    white space at both ends when T is enabled in the merged layer, and
    left as it is when T is disabled. *)
Theorem X5_comment_is_the_concatenation (s : script) (rest : list Layer) (first : Layer)
        (T : string) (r0 : Technique) (later : list Technique) :
  Forall (fun l => initialized_layer l = true) (rest ++ [first]) ->
  unique_ids first ->
  records_of T first rest = r0 :: later ->
  exists out mx n r,
    merge_of s (rest ++ [first]) = Ok (out, (mx, n)) /\
    find_of s T out = Some r /\
    comment r =
      Some (if forallb enabled_of (r0 :: later)
            then strip (comment_of r0 ++ appended_comments later)
            else comment_of r0 ++ appended_comments later).
Proof.
  intros I U E.
  destruct (merged_record s rest first T I U) as (out & mx & n & M & R).
  rewrite E in R. destruct R as (r & F & _ & _ & _ & _ & _ & _ & C).
  exists out, mx, n, r. auto.
Qed.

Lemma X5_comment_is_the_concatenation_witness :
  exists out mx n r,
    merge_of merge_layers_py
      ([layer_of "A" "" [technique "T1" 1 "first" true];
        layer_of "B" "" [technique "T1" 1 "" true]]
       ++ [layer_of "C" "" [technique "T1" 1 "" true]]) = Ok (out, (mx, n)) /\
    find_of merge_layers_py "T1" out = Some r /\
    comment r = Some "first".
Proof.
  apply (X5_comment_is_the_concatenation merge_layers_py
           [layer_of "A" "" [technique "T1" 1 "first" true];
            layer_of "B" "" [technique "T1" 1 "" true]]
           (layer_of "C" "" [technique "T1" 1 "" true]) "T1"
           (technique "T1" 1 "" true)
           [technique "T1" 1 "first" true; technique "T1" 1 "" true]).
  - repeat constructor.
  - repeat constructor; simpl; intuition discriminate.
  - reflexivity.
Defined.

(** X6. In either script, under the same conditions, the fields that the
    merge does not reconcile come from r0 alone: the merged technique has
    the tactic of r0, and in [merge_layers.py] the color of r0; the tactic
    and the color of the later techniques that carry T are lost. *)
Theorem X6_first_record_gives_the_other_fields (s : script) (rest : list Layer)
        (first : Layer) (T : string) (r0 : Technique) (later : list Technique) :
  Forall (fun l => initialized_layer l = true) (rest ++ [first]) ->
  unique_ids first ->
  records_of T first rest = r0 :: later ->
  exists out mx n r,
    merge_of s (rest ++ [first]) = Ok (out, (mx, n)) /\
    find_of s T out = Some r /\
    tactic r = tactic r0 /\
    color r = match s with
              | merge_layers_py => color r0
              | merge_navigator_layers_py => Some ""
              end.
Proof.
  intros I U E.
  destruct (merged_record s rest first T I U) as (out & mx & n & M & R).
  rewrite E in R. destruct R as (r & F & _ & Ta & Co & _).
  exists out, mx, n, r. auto.
Qed.

Lemma X6_first_record_gives_the_other_fields_witness :
  exists out mx n r,
    merge_of merge_layers_py
      ([layer_of "A" ""
          [mkTechnique "T1" (Some "persistence") (Some 1) (Some "") (Some true) true
                       (Some "#00ff00")]]
       ++ [layer_of "B" ""
             [mkTechnique "T1" (Some "execution") (Some 1) (Some "") (Some true) true
                          None]]) = Ok (out, (mx, n)) /\
    find_of merge_layers_py "T1" out = Some r /\
    tactic r = Some "execution" /\ color r = None.
Proof.
  apply (X6_first_record_gives_the_other_fields merge_layers_py
           [layer_of "A" ""
              [mkTechnique "T1" (Some "persistence") (Some 1) (Some "") (Some true) true
                           (Some "#00ff00")]]
           (layer_of "B" ""
              [mkTechnique "T1" (Some "execution") (Some 1) (Some "") (Some true) true
                           None])
           "T1"
           (mkTechnique "T1" (Some "execution") (Some 1) (Some "") (Some true) true None)
           [mkTechnique "T1" (Some "persistence") (Some 1) (Some "") (Some true) true
                        (Some "#00ff00")]).
  - repeat constructor.
  - repeat constructor; simpl; intuition discriminate.
  - reflexivity.
Defined.

(** *** The counters *)

Lemma disabled_count_finished s ts :
  forallb initialized ts = true ->
  disabled_count ts
  = Z.of_nat (List.length (filter is_disabled (map polished (map (paint_of s) ts)))) /\
  List.length ts
  = (List.length (filter is_disabled (map polished (map (paint_of s) ts)))
     + List.length (filter enabled_of (map polished (map (paint_of s) ts))))%nat.
Proof.
  unfold disabled_count. induction ts as [|t ts IH]; intros I; [split; reflexivity|].
  cbn [forallb] in I. apply andb_true_iff in I as [It I].
  destruct (IH I) as [IH1 IH2].
  destruct (polished_fields (paint_of s t)) as (_ & _ & _ & E1 & _).
  destruct (paint_of_fields s t) as (_ & _ & _ & _ & E2 & _).
  assert (Hd : is_disabled (polished (paint_of s t)) = negb (truthy_bool (enabled t)) /\
               enabled_of (polished (paint_of s t)) = truthy_bool (enabled t)).
  { unfold is_disabled, enabled_of. rewrite E1, E2. unfold initialized in It.
    destruct (score t), (comment t), (enabled t) as [[|]|]; try discriminate;
      split; reflexivity. }
  destruct Hd as [Hd He]. cbn [map filter]. rewrite Hd, He.
  destruct (truthy_bool (enabled t)); cbn [negb List.length]; split; lia.
Qed.

(** X7. In either script, the number of disabled techniques returned by
    the merge is the number of techniques of the merged layer whose
    enabled value is false, and the other techniques of the merged layer
    are all enabled: the two numbers add up to the number of techniques. *)
Theorem X7_disabled_counter (s : script) (docs : list Layer) (out : Layer) (mx n : Z) :
  merge_of s docs = Ok (out, (mx, n)) ->
  n = Z.of_nat (List.length (filter is_disabled (techniques out))) /\
  Z.of_nat (List.length (techniques out)) - n
  = Z.of_nat (List.length (filter enabled_of (techniques out))).
Proof.
  intros M. destruct docs as [|d ds]; [destruct s; discriminate|].
  destruct (merge_of_spec s (d :: ds)) as (out' & mx' & n' & M' & MA); [discriminate|].
  rewrite M in M'. inversion M'; subst out' mx' n'.
  destruct MA as (first & rest & L & _ & _ & I & O & _ & N).
  destruct (disabled_count_finished s (techniques L) I) as [D1 D2].
  subst out n. simpl. rewrite !length_map. rewrite D1. split; [reflexivity|].
  rewrite D2. lia.
Qed.

Lemma X7_disabled_counter_witness :
  exists out mx n,
    merge_of merge_layers_py [scenario_doc1; scenario_doc2] = Ok (out, (mx, n)) /\
    n = Z.of_nat (List.length (filter is_disabled (techniques out))) /\
    Z.of_nat (List.length (techniques out)) - n
    = Z.of_nat (List.length (filter enabled_of (techniques out))).
Proof.
  do 3 eexists. split; [reflexivity|].
  eapply (X7_disabled_counter merge_layers_py [scenario_doc1; scenario_doc2]).
  reflexivity.
Defined.

(** *** Merging the merged layer again *)

Lemma lstrip_clean p s : starts_clean p (lstrip_by p s).
Proof.
  induction s as [|c s IH]; simpl; [exact I|].
  destruct (p c) eqn:E; [assumption | simpl; assumption].
Qed.

Lemma lstrip_of_clean p s : starts_clean p s -> lstrip_by p s = s.
Proof. destruct s as [|c s]; simpl; [reflexivity | now intros ->]. Qed.

Lemma rstrip_clean p s : starts_clean p s -> starts_clean p (rstrip_by p s).
Proof.
  destruct s as [|c s]; simpl; [trivial|]. intros H.
  destruct (rstrip_by p s); [rewrite H|]; simpl; assumption.
Qed.

Lemma rstrip_idempotent p s : rstrip_by p (rstrip_by p s) = rstrip_by p s.
Proof.
  induction s as [|c s IH]; simpl; [reflexivity|].
  destruct (rstrip_by p s) as [|d kept] eqn:E.
  - destruct (p c) eqn:Ec; simpl; [reflexivity | now rewrite Ec].
  - cbn [rstrip_by]. cbn [rstrip_by] in IH. now rewrite IH.
Qed.

Lemma strip_by_idempotent p s :
  rstrip_by p (lstrip_by p (rstrip_by p (lstrip_by p s))) = rstrip_by p (lstrip_by p s).
Proof.
  rewrite (lstrip_of_clean p (rstrip_by p (lstrip_by p s))).
  - apply rstrip_idempotent.
  - apply rstrip_clean, lstrip_clean.
Qed.

Lemma strip_idempotent s : strip (strip s) = strip s.
Proof. apply strip_by_idempotent. Qed.

Lemma polished_idempotent t : polished (polished t) = polished t.
Proof.
  destruct t as [i ta sc [c|] [[|]|] w co]; try reflexivity.
  unfold polished, set_showSubtechniques, set_comment.
  cbn [enabled comment techniqueID tactic score showSubtechniques color
       truthy_bool truthy_str andb option_map].
  destruct (String.eqb_spec c "") as [E0|E0]; cbn [negb].
  - cbn [enabled comment techniqueID tactic score showSubtechniques color
         truthy_bool truthy_str andb option_map].
    destruct (String.eqb_spec c ""); [reflexivity | contradiction].
  - cbn [enabled comment techniqueID tactic score showSubtechniques color
         truthy_bool truthy_str andb option_map].
    destruct (String.eqb_spec (strip c) ""); cbn [negb]; [reflexivity|].
    now rewrite strip_idempotent.
Qed.

Lemma paint_of_idempotent s t : paint_of s (paint_of s t) = paint_of s t.
Proof. now destruct s. Qed.

Lemma paint_of_polished s t : paint_of s (polished t) = polished (paint_of s t).
Proof. destruct s; simpl; [reflexivity | symmetry; apply polished_recolored]. Qed.

Lemma finished_initialized s t :
  initialized t = true -> initialized (polished (paint_of s t)) = true.
Proof.
  intros I. unfold initialized in *.
  destruct (polished_fields (paint_of s t)) as (_ & _ & P3 & P4 & _ & _ & P7).
  destruct (paint_of_fields s t) as (_ & _ & Q3 & Q4 & Q5 & _).
  rewrite P3, P4, P7, Q3, Q4, Q5.
  destruct (score t), (comment t), (enabled t); try discriminate.
  now destruct (truthy_bool (Some b) && truthy_str (Some s0)).
Qed.

(** X8. In either script, the merged layer is a fixed point of the merge:
    merged again, alone, it is returned as it is, with the same maximum
    and the same number of disabled techniques. *)
Theorem X8_merged_layer_is_a_fixed_point (s : script) (docs : list Layer)
        (out : Layer) (mx n : Z) :
  merge_of s docs = Ok (out, (mx, n)) ->
  merge_of s [out] = Ok (out, (mx, n)).
Proof.
  intros M. destruct docs as [|d ds]; [destruct s; discriminate|].
  destruct (merge_of_spec s (d :: ds)) as (out' & mx' & n' & M' & MA); [discriminate|].
  rewrite M in M'. inversion M'; subst out' mx' n'. clear M'.
  destruct (merge_of_spec s [out]) as (out2 & mx2 & n2 & M2 & MA2); [discriminate|].
  rewrite M2. f_equal.
  destruct MA as (first & rest & L & _ & _ & I & O & Mx & N).
  destruct MA2 as (first2 & rest2 & L2 & E2 & H2 & _ & O2 & Mx2 & N2).
  change [out] with ([] ++ [out])%list in E2. apply app_inj_tail in E2 as [<- <-].
  assert (Io : forallb initialized (techniques out) = true).
  { subst out. simpl. rewrite forallb_forall. intros t Ht.
    rewrite map_map in Ht. apply in_map_iff in Ht as (u & <- & Hu).
    apply finished_initialized. rewrite forallb_forall in I. auto. }
  rewrite initialize_layer_fixed in H2 by exact Io.
  simpl in H2. inversion H2; subst L2. clear H2.
  assert (Et : map polished (map (paint_of s) (techniques out)) = techniques out).
  { subst out. simpl. rewrite !map_map. apply map_ext. intros t.
    now rewrite paint_of_polished, paint_of_idempotent, polished_idempotent. }
  assert (Es : enabled_scores (techniques out) = enabled_scores (techniques L))
    by (subst out; simpl; apply enabled_scores_finished).
  assert (Ed : disabled_count (techniques out) = disabled_count (techniques L)).
  { destruct (disabled_count_finished s (techniques L) I) as [D1 _].
    destruct (disabled_count_finished s (techniques out) Io) as [D2 _].
    rewrite D1, D2, Et. subst out. reflexivity. }
  rewrite Et in O2. subst out2 mx2 n2. rewrite Es, Ed, <- Mx, <- N.
  f_equal. now destruct out.
Qed.

Lemma X8_merged_layer_is_a_fixed_point_witness :
  exists out mx n,
    merge_of merge_navigator_layers_py [scenario_doc1; scenario_doc2] = Ok (out, (mx, n)) /\
    merge_of merge_navigator_layers_py [out] = Ok (out, (mx, n)).
Proof.
  do 3 eexists. split; [reflexivity|].
  apply (X8_merged_layer_is_a_fixed_point merge_navigator_layers_py
           [scenario_doc1; scenario_doc2]).
  reflexivity.
Defined.

(** *** How the two entry points end *)

Lemma merge_keeps_last_document s rest first out mx n :
  merge_of s (rest ++ [first]) = Ok (out, (mx, n)) ->
  set_techniques out (techniques first) = first.
Proof.
  intros M.
  destruct (merge_of_spec s (rest ++ [first])) as (out' & mx' & n' & M' & MA).
  { now destruct rest. }
  rewrite M in M'. inversion M'; subst out' mx' n'.
  destruct MA as (first' & rest' & L & E & H & _ & O & _).
  apply app_inj_tail in E as [<- <-].
  apply merge_loop_frame in H. subst out.
  assert (F : set_techniques L (techniques first)
              = set_techniques (ML.initialize_layer first) (techniques first)).
  { rewrite <- H. reflexivity. }
  transitivity (set_techniques L (techniques first)); [reflexivity|].
  rewrite F. now destruct first.
Qed.

Lemma merge_keeps_readiness s rest first out mx n :
  merge_of s (rest ++ [first]) = Ok (out, (mx, n)) ->
  metadata_ready out = metadata_ready first /\ domain out = domain first.
Proof.
  intros M. apply merge_keeps_last_document in M.
  split; rewrite <- M; reflexivity.
Qed.

Lemma MN_import_app a b :
  MN.import_layers (a ++ b) = (MN.import_layers a ++ MN.import_layers b)%list.
Proof.
  induction a as [|[p [l|]] a IH]; simpl; [reflexivity | now rewrite IH | assumption].
Qed.








(** *** The gradient *)

(** X10. Whenever [merge_layers.py] writes a merged layer, the layer has
    a gradient and legend items.  The gradient goes from 0 to the maximum
    returned by the merge, which is at least 1, through the two colors
    that the library reads back; the legend items are the most frequent
    and the least frequent, in this order, with the second and the first
    of these colors. *)
Theorem X10_gradient_of_merge_layers (files : list (string * option Layer)) (m : Merged) :
  ML.process_path files = Ok (Some m) ->
  exists g items,
    gradient (merged_layer m) = Some g /\
    legendItems (merged_layer m) = Some items /\
    minValue g = 0 /\
    maxValue g = max_score m /\
    1 <= max_score m /\
    colors g = ["#ffffff"; "#ff6666"] /\
    map label items = [label_high; label_low] /\
    map legend_color items = ["#ff6666"; "#ffffff"].
Proof.
  intros H. destruct (ML_gradient files m H) as (G & Lg & B).
  do 2 eexists. split; [exact G|]. split; [exact Lg|].
  cbn [minValue maxValue colors map label legend_color]. repeat split; assumption.
Qed.

Lemma X10_gradient_of_merge_layers_witness :
  exists m,
    ML.process_path [("G0001.json", Some scenario_doc1)] = Ok (Some m) /\
    exists g items,
      gradient (merged_layer m) = Some g /\
      legendItems (merged_layer m) = Some items /\
      minValue g = 0 /\
      maxValue g = max_score m /\
      1 <= max_score m /\
      colors g = ["#ffffff"; "#ff6666"] /\
      map label items = [label_high; label_low] /\
      map legend_color items = ["#ff6666"; "#ffffff"].
Proof.
  eexists. split; [reflexivity|].
  apply (X10_gradient_of_merge_layers [("G0001.json", Some scenario_doc1)]).
  reflexivity.
Defined.

(** X11. Whenever [merge_navigator_layers.py] writes a merged layer, its
    gradient goes from 0 to the maximum returned by the merge, the
    maximum is at least 1, and some enabled technique of the layer
    written has the maximum as its score. *)
Theorem X11_gradient_of_merge_navigator_layers (files : list (string * option Layer))
        (m : Merged) :
  MN.main files = Ok m ->
  (exists g, gradient (merged_layer m) = Some g /\
             minValue g = 0 /\ maxValue g = max_score m) /\
  1 <= max_score m /\
  exists t, In t (techniques (merged_layer m)) /\ enabled t = Some true /\
            score t = Some (max_score m).
Proof.
  intros H. destruct (MN_gradient files m H) as (G & _ & B).
  split; [eexists; split; [exact G | split; reflexivity]|]. split; [exact B|].
  destruct (MN_main_inv files m H) as (out & Ne & M & S).
  apply MN_set_metadata_inv in S as (_ & _ & _ & _ & T & _). rewrite T.
  destruct (MN_merge_spec (map fst (MN.import_layers files)))
    as (out' & mx' & n' & M' & MA).
  { destruct (MN.import_layers files); [contradiction | discriminate]. }
  rewrite M in M'. injection M' as <- <- <-.
  destruct MA as (first & rest & L & _ & _ & _ & O & Mx & _).
  assert (Es : enabled_scores (techniques out) = enabled_scores (techniques L))
    by (subst out; simpl; apply (enabled_scores_finished merge_navigator_layers_py)).
  rewrite <- Es in Mx.
  destruct (fold_max_attained (enabled_scores (techniques out)) 0) as [A|A].
  - rewrite <- Mx in A. lia.
  - rewrite <- Mx in A. apply enabled_scores_in in A as (t & It & Et & St).
    exists t. repeat split; try assumption. now destruct (enabled t) as [[|]|].
Qed.

Lemma X11_gradient_of_merge_navigator_layers_witness :
  exists m,
    MN.main [("G0001.json", Some scenario_doc1)] = Ok m /\
    (exists g, gradient (merged_layer m) = Some g /\
               minValue g = 0 /\ maxValue g = max_score m) /\
    1 <= max_score m /\
    exists t, In t (techniques (merged_layer m)) /\ enabled t = Some true /\
              score t = Some (max_score m).
Proof.
  eexists. split; [reflexivity|].
  apply (X11_gradient_of_merge_navigator_layers [("G0001.json", Some scenario_doc1)]).
  reflexivity.
Defined.

(** *** The order of the merged techniques and the other fields *)

Lemma merge_techniques_appends ts : forall L L',
  ML.merge_techniques L ts = Ok L' ->
  exists added,
    ids (techniques L') = (ids (techniques L) ++ added)%list /\
    NoDup added /\
    (forall T, In T added -> ~ In T (ids (techniques L)) /\ In T (ids ts)).
Proof.
  induction ts as [|t ts IH]; intros L L' H; simpl in H.
  - inversion H; subst. exists []. rewrite app_nil_r.
    split; [reflexivity|]. split; [constructor | intros T []].
  - apply bind_ok in H as [L1 [H1 H2]].
    destruct (IH _ _ H2) as (added & E & N & P).
    pose proof (merge_technique_ids _ _ _ H1) as E1. rewrite E1 in E.
    destruct (in_dec string_dec (techniqueID t) (ids (techniques L))) as [i|n].
    + rewrite app_nil_r in E, E1. exists added. split; [assumption|].
      split; [assumption|]. intros T HT. destruct (P T HT) as [P1 P2].
      rewrite E1 in P1. split; [assumption | now right].
    + rewrite <- app_assoc in E. exists ([techniqueID t] ++ added)%list.
      split; [assumption|]. split.
      * simpl. constructor; [|assumption]. intros HT.
        destruct (P _ HT) as [P1 _]. apply P1. rewrite E1.
        apply in_or_app. right. now left.
      * intros T [HT|HT].
        -- subst T. split; [assumption | now left].
        -- destruct (P T HT) as [P1 P2]. rewrite E1 in P1. split.
           ++ intros HL. apply P1. apply in_or_app. now left.
           ++ now right.
Qed.

Lemma merge_loop_appends layers : forall L L',
  ML.merge_loop L layers = Ok L' ->
  exists added,
    ids (techniques L') = (ids (techniques L) ++ added)%list /\
    NoDup added /\
    (forall T, In T added -> ~ In T (ids (techniques L))).
Proof.
  induction layers as [|l ls IH]; intros L L' H; simpl in H.
  - inversion H; subst. exists []. rewrite app_nil_r.
    split; [reflexivity|]. split; [constructor | intros T []].
  - apply bind_ok in H as [L1 [H1 H2]].
    destruct (merge_techniques_appends _ _ _ H1) as (a1 & E1 & N1 & P1).
    destruct (IH _ _ H2) as (a2 & E2 & N2 & P2).
    rewrite E1, <- app_assoc in E2. exists (a1 ++ a2)%list.
    split; [assumption|]. split.
    + apply NoDup_app; [assumption | assumption |].
      intros T H1' H2'. apply (P2 T H2'). rewrite E1. apply in_or_app. now right.
    + intros T HT HL. apply in_app_or in HT as [HT|HT].
      * now apply (P1 T HT).
      * apply (P2 T HT). rewrite E1. apply in_or_app. now left.
Qed.

(** X12. In either script, the merged layer is the last document of the
    list with other techniques: every field of the document but its
    techniques is kept; its techniques come first, in their order, and
    the techniques adopted from the other documents follow them, one for
    each identifier that the last document does not hold. *)
Theorem X12_merged_layer_is_the_last_document (s : script) (rest : list Layer)
        (first out : Layer) (mx n : Z) :
  merge_of s (rest ++ [first]) = Ok (out, (mx, n)) ->
  set_techniques out (techniques first) = first /\
  exists added,
    ids (techniques out) = (ids (techniques first) ++ added)%list /\
    NoDup added /\
    (forall T, In T added -> ~ In T (ids (techniques first))).
Proof.
  intros M. split; [now apply (merge_keeps_last_document s rest first out mx n)|].
  destruct (merge_of_spec s (rest ++ [first])) as (out' & mx' & n' & M' & MA).
  { now destruct rest. }
  rewrite M in M'. inversion M'; subst out' mx' n'.
  destruct MA as (first' & rest' & L & E & H & _ & O & _).
  apply app_inj_tail in E as [<- <-].
  - destruct (merge_loop_appends _ _ _ H) as (added & Ea & N & P).
    exists added. rewrite initialize_layer_ids in Ea, P.
    subst out. simpl. rewrite ids_finished. auto.
Qed.

Lemma X12_merged_layer_is_the_last_document_witness :
  exists out mx n,
    merge_of merge_layers_py ([scenario_doc1] ++ [scenario_doc2]) = Ok (out, (mx, n)) /\
    set_techniques out (techniques scenario_doc2) = scenario_doc2 /\
    exists added,
      ids (techniques out) = (ids (techniques scenario_doc2) ++ added)%list /\
      NoDup added /\
      (forall T, In T added -> ~ In T (ids (techniques scenario_doc2))).
Proof.
  do 3 eexists. split; [reflexivity|].
  eapply (X12_merged_layer_is_the_last_document merge_layers_py [scenario_doc1]
            scenario_doc2).
  reflexivity.
Defined.

(** X13. Neither script compares the domains of the documents: the merged
    layer that is written has the domain of the layer read from the last
    file, whatever the domains of the others. *)
Theorem X13_domain_of_the_last_file :
  (forall files path l m,
     ML.process_path (files ++ [(path, Some l)]) = Ok (Some m) ->
     domain (merged_layer m) = domain l)
  /\
  (forall files path l m,
     MN.main (files ++ [(path, Some l)]) = Ok m ->
     domain (merged_layer m) = domain l).
Proof.
  split.
  - intros files path l m H.
    apply ML_process_path_inv in H as (imported & out & Im & _ & M & S).
    apply ML_import_inv in Im as [_ Em]. rewrite Em in M.
    rewrite MN_import_app, map_app in M. simpl in M.
    apply (merge_keeps_readiness merge_layers_py) in M as [_ D].
    apply ML_set_metadata_inv in S as (_ & _ & _ & _ & _ & D').
    now rewrite D', D.
  - intros files path l m H.
    apply MN_main_inv in H as (out & _ & M & S).
    rewrite MN_import_app, map_app in M. simpl in M.
    apply (merge_keeps_readiness merge_navigator_layers_py) in M as [_ D].
    apply MN_set_metadata_inv in S as (_ & _ & _ & _ & _ & D').
    now rewrite D', D.
Qed.

Lemma X13_domain_of_the_last_file_witness :
  exists m,
    ML.process_path ([("G0001.json", Some scenario_doc1)]
                     ++ [("G0002.json", Some scenario_doc2)]) = Ok (Some m) /\
    domain (merged_layer m) = domain scenario_doc2.
Proof.
  eexists. split; [reflexivity|].
  exact (proj1 X13_domain_of_the_last_file [("G0001.json", Some scenario_doc1)]
           "G0002.json" scenario_doc2 _ eq_refl).
Defined.

(** *** File names *)

Lemma split_first sep s :
  mem_char sep (hd "" (split sep s)) = false /\
  (s = hd "" (split sep s) \/
   exists after, s = hd "" (split sep s) ++ String sep after).
Proof.
  induction s as [|c s (IH1 & IH2)]; simpl; [auto|].
  destruct (Ascii.eqb_spec c sep) as [E|E].
  - subst c. simpl. split; [reflexivity|]. right. now exists s.
  - destruct (split sep s) as [|p ps] eqn:Es; simpl in *.
    + split.
      * destruct (Ascii.eqb_spec sep c); [congruence | reflexivity].
      * destruct IH2 as [->|(after & ->)]; [now left | right; now exists after].
    + split.
      * rewrite IH1. destruct (Ascii.eqb_spec sep c); [congruence | reflexivity].
      * destruct IH2 as [E2|(after & E2)]; [left | right; exists after];
          now rewrite E2 at 1.
Qed.

(** X14. In [merge_navigator_layers.py], every layer that is merged comes
    from a valid file, and the fallback name kept with it is the name of
    that file up to its first dot: it holds no dot, and the file name is
    either this name or this name, a dot and more (so [a.b.json] gives
    [a]). *)
Theorem X14_file_label (files : list (string * option Layer)) (l : Layer) (file_name : string) :
  In (l, file_name) (MN.import_layers files) ->
  exists json_file_path,
    In (json_file_path, Some l) files /\
    mem_char "." file_name = false /\
    (json_file_path = file_name \/
     exists after, json_file_path = file_name ++ String "." after).
Proof.
  induction files as [|[p [x|]] files IH]; simpl; [tauto | | ].
  - intros [E|I].
    + inversion E; subst. exists p. split; [now left|]. apply split_first.
    + destruct (IH I) as (q & Hq & R). exists q. split; [now right | assumption].
  - intros I. destruct (IH I) as (q & Hq & R). exists q. split; [now right | assumption].
Qed.

Lemma X14_file_label_witness :
  exists json_file_path,
    In (json_file_path, Some scenario_doc1)
       [("broken.json", None); ("a.b.json", Some scenario_doc1)] /\
    mem_char "." "a" = false /\
    (json_file_path = "a" \/ exists after, json_file_path = "a" ++ String "." after).
Proof.
  apply (X14_file_label [("broken.json", None); ("a.b.json", Some scenario_doc1)]
           scenario_doc1 "a").
  simpl. now left.
Defined.

Lemma rstrip_snoc p c s : p c = true -> rstrip_by p (s ++ String c "") = rstrip_by p s.
Proof.
  intros H. induction s as [|d s IH]; simpl; [now rewrite H|]. now rewrite IH.
Qed.

Lemma lstrip_snoc p c s :
  p c = true ->
  lstrip_by p (s ++ String c "") =
  match lstrip_by p s with
  | "" => ""
  | kept => kept ++ String c ""
  end.
Proof.
  intros H. induction s as [|d s IH]; simpl; [now rewrite H|].
  now destruct (p d).
Qed.

(** X15. In [merge_layers.py], the slashes at both ends of a path given
    with [--path] are dropped before the folder is searched and written:
    the merged layer of [/p], of [p/] and of [p] is saved in the same
    file, so that an absolute path is read as a path relative to the
    current folder. *)
Theorem X15_slashes_of_the_path_are_dropped (path : string) :
  processed_file (String "/" path) = processed_file path /\
  processed_file (path ++ "/") = processed_file path.
Proof.
  unfold processed_file, strip_chars. split; [reflexivity|]. f_equal.
  rewrite lstrip_snoc by reflexivity.
  destruct (lstrip_by (fun c => mem_char c "/") path) as [|d kept] eqn:E;
    [reflexivity|].
  now rewrite rstrip_snoc.
Qed.

(** ** Properties of the downloader *)

Lemma mem_string_in x l : DL.mem_string x l = true <-> In x l.
Proof.
  unfold DL.mem_string. rewrite existsb_exists. split.
  - intros (y & I & E). apply String.eqb_eq in E. now subst.
  - intros I. exists x. split; [assumption | apply String.eqb_refl].
Qed.

Lemma find_outside_domains domains :
  find (fun domain => negb (DL.mem_string domain DL.DOMAINS)) domains = None <->
  Forall (fun domain => In domain DL.DOMAINS) domains.
Proof.
  induction domains as [|d ds IH]; cbn [find].
  - split; constructor.
  - destruct (DL.mem_string d DL.DOMAINS) eqn:E; cbn [negb].
    + rewrite IH. apply mem_string_in in E. split; intros H.
      * now constructor.
      * now inversion H.
    + split; [discriminate|]. intros H. inversion H as [|? ? Hd _]; subst.
      apply mem_string_in in Hd. congruence.
Qed.

(** X16. [LayerInfo(id, domains)] returns an object exactly when the
    identifier starts with S or G and every domain is one of enterprise,
    mobile and ics; the object then holds the identifier and the domains
    as given, with the type software for S and groups for G.  An empty
    identifier raises an IndexError, and any other failure a ValueError. *)
Theorem X16_layer_info_constructor (id : string) (domains : list string) :
  match DL.new_LayerInfo id domains with
  | DL.Return layer_info =>
      DL.id layer_info = id /\ DL.domains layer_info = domains /\
      Forall (fun domain => In domain DL.DOMAINS) domains /\
      ((exists rest, id = String "S" rest) /\ DL.type layer_info = "software" \/
       (exists rest, id = String "G" rest) /\ DL.type layer_info = "groups")
  | DL.Raised (DL.IndexError _) => id = ""
  | DL.Raised (DL.ValueError _) =>
      (exists first rest, id = String first rest /\
                          (first <> "S"%char /\ first <> "G"%char \/
                           ~ Forall (fun domain => In domain DL.DOMAINS) domains))
  | DL.Raised _ => False
  end.
Proof.
  unfold DL.new_LayerInfo. destruct id as [|first rest]; [reflexivity|].
  cbn [DL.lookup DL.LAYER_TYPES].
  destruct (String.eqb_spec "S" (String first "")) as [ES|ES].
  - inversion ES; subst first.
    destruct (find _ domains) as [d|] eqn:F.
    + exists "S"%char, rest. split; [reflexivity|]. right. intros H.
      apply find_outside_domains in H. congruence.
    + apply find_outside_domains in F. simpl. repeat split; eauto.
  - destruct (String.eqb_spec "G" (String first "")) as [EG|EG].
    + inversion EG; subst first.
      destruct (find _ domains) as [d|] eqn:F.
      * exists "G"%char, rest. split; [reflexivity|]. right. intros H.
        apply find_outside_domains in H. congruence.
      * apply find_outside_domains in F. simpl. repeat split; eauto.
    + exists first, rest. split; [reflexivity|]. left. split; congruence.
Qed.

Lemma strip_official_domain d :
  In d DL.DOMAINS -> strip_chars "-attack" (d ++ "-attack") = d.
Proof.
  intros [<-|[<-|[<-|[]]]]; reflexivity.
Qed.

Lemma new_LayerInfo_succeeds first rest domains :
  first = "S"%char \/ first = "G"%char ->
  Forall (fun domain => In domain DL.DOMAINS) domains ->
  exists layer_info,
    DL.new_LayerInfo (String first rest) domains = DL.Return layer_info /\
    DL.id layer_info = String first rest /\
    DL.domains layer_info = domains /\
    DL.type layer_info = (if Ascii.eqb first "S" then "software" else "groups").
Proof.
  intros L D. apply find_outside_domains in D. unfold DL.new_LayerInfo.
  cbn [DL.lookup DL.LAYER_TYPES]. destruct L; subst first.
  - rewrite String.eqb_refl, D. eexists. repeat split.
  - destruct (String.eqb_spec "S" "G"); [discriminate|].
    rewrite String.eqb_refl, D. eexists. repeat split.
Qed.

(** X17. [LayerInfo.from_stix_block] returns an object for every block
    of type intrusion-set, malware or tool whose first mitre-attack
    reference has an identifier that starts with S or G and whose domains
    are among enterprise-attack, mobile-attack and ics-attack: the object
    holds this identifier and the domains without their ending
    [-attack]. *)
Theorem X17_from_stix_block (stix_block : DL.StixBlock) (reference : DL.ExternalReference)
        (short_domains : list string) :
  In (DL.block_type stix_block) ["intrusion-set"; "malware"; "tool"] ->
  find (fun r => (DL.source_name r =? "mitre-attack")%string)
       (DL.external_references stix_block) = Some reference ->
  (exists rest, DL.external_id reference = String "S" rest \/
                DL.external_id reference = String "G" rest) ->
  Forall (fun domain => In domain DL.DOMAINS) short_domains ->
  DL.x_mitre_domains stix_block = map (fun domain => domain ++ "-attack") short_domains ->
  exists layer_info,
    DL.from_stix_block stix_block = DL.Return layer_info /\
    DL.id layer_info = DL.external_id reference /\
    DL.domains layer_info = short_domains.
Proof.
  intros Ty F (rest & Id) D X. unfold DL.from_stix_block.
  assert (M : DL.mem_string (DL.block_type stix_block)
                            (flat_map snd DL.ATTACK_TO_STIX_MAPPING) = true)
    by (apply mem_string_in; exact Ty).
  rewrite M. cbn [negb].
  destruct (DL.external_references stix_block) as [|r0 refs] eqn:E; [discriminate|].
  rewrite F, X, map_map.
  assert (S : map (fun d => strip_chars "-attack" (d ++ "-attack")) short_domains
              = short_domains).
  { rewrite <- (map_id short_domains) at 2. apply map_ext_in. intros d Hd.
    apply strip_official_domain. rewrite Forall_forall in D. auto. }
  rewrite S.
  destruct Id as [Id|Id]; rewrite Id;
    [destruct (new_LayerInfo_succeeds "S" rest short_domains (or_introl eq_refl) D)
       as (li & R & I1 & I2 & _)
    |destruct (new_LayerInfo_succeeds "G" rest short_domains (or_intror eq_refl) D)
       as (li & R & I1 & I2 & _)];
    exists li; auto.
Qed.

Lemma X17_from_stix_block_witness :
  exists layer_info,
    DL.from_stix_block
      (DL.mkStixBlock "intrusion-set"
         [DL.mkExternalReference "capec" "CAPEC-1";
          DL.mkExternalReference "mitre-attack" "G0016"]
         ["enterprise-attack"; "ics-attack"]) = DL.Return layer_info /\
    DL.id layer_info = "G0016" /\
    DL.domains layer_info = ["enterprise"; "ics"].
Proof.
  apply (X17_from_stix_block
           (DL.mkStixBlock "intrusion-set"
              [DL.mkExternalReference "capec" "CAPEC-1";
               DL.mkExternalReference "mitre-attack" "G0016"]
              ["enterprise-attack"; "ics-attack"])
           (DL.mkExternalReference "mitre-attack" "G0016")
           ["enterprise"; "ics"]).
  - simpl; auto.
  - reflexivity.
  - exists "0016". now right.
  - constructor; [simpl; auto | constructor; [simpl; auto | constructor]].
  - reflexivity.
Defined.

Lemma new_LayerInfo_returns id domains layer_info :
  DL.new_LayerInfo id domains = DL.Return layer_info ->
  DL.id layer_info = id /\ DL.domains layer_info = domains /\
  Forall (fun domain => In domain DL.DOMAINS) domains /\
  ((exists rest, id = String "S" rest) /\ DL.type layer_info = "software" \/
   (exists rest, id = String "G" rest) /\ DL.type layer_info = "groups").
Proof.
  unfold DL.new_LayerInfo. destruct id as [|first rest]; [discriminate|].
  cbn [DL.lookup DL.LAYER_TYPES].
  destruct (String.eqb_spec "S" (String first "")) as [ES|ES].
  - inversion ES; subst first.
    destruct (find _ domains) as [d|] eqn:F; [discriminate|].
    apply find_outside_domains in F. intros H. inversion H; subst. simpl.
    repeat split; eauto.
  - destruct (String.eqb_spec "G" (String first "")) as [EG|EG]; [|discriminate].
    inversion EG; subst first.
    destruct (find _ domains) as [d|] eqn:F; [discriminate|].
    apply find_outside_domains in F. intros H. inversion H; subst. simpl.
    repeat split; eauto.
Qed.

Lemma from_stix_block_returns stix_block layer_info :
  DL.from_stix_block stix_block = DL.Return layer_info ->
  exists reference,
    find (fun r => (DL.source_name r =? "mitre-attack")%string)
         (DL.external_references stix_block) = Some reference /\
    DL.new_LayerInfo (DL.external_id reference)
                     (map (strip_chars "-attack") (DL.x_mitre_domains stix_block))
    = DL.Return layer_info.
Proof.
  unfold DL.from_stix_block.
  destruct (negb _); [discriminate|].
  destruct (DL.external_references stix_block) as [|r0 refs]; [discriminate|].
  destruct (find _ (r0 :: refs)) as [r|]; [|discriminate]. eauto.
Qed.

Lemma convert_converted stix_data layer_info :
  In layer_info (fst (DL.convert stix_data)) ->
  exists stix_block,
    In stix_block stix_data /\ DL.from_stix_block stix_block = DL.Return layer_info.
Proof.
  induction stix_data as [|b data IH]; simpl; [tauto|].
  destruct (DL.from_stix_block b) as [li|[m|m|m|m]] eqn:E; simpl.
  - intros [<-|I]; [eauto|]. destruct (IH I) as (b' & Hb & R). eauto.
  - intros I. destruct (IH I) as (b' & Hb & R). eauto.
  - intros I. destruct (IH I) as (b' & Hb & R). eauto.
  - intros I. destruct (IH I) as (b' & Hb & R). eauto.
  - intros I. destruct (IH I) as (b' & Hb & R). eauto.
Qed.

Lemma count_types_sum l :
  (forall li, In li l -> DL.type li = "software" \/ DL.type li = "groups") ->
  fst (DL.count_types l) + snd (DL.count_types l) = Z.of_nat (List.length l) /\
  0 <= fst (DL.count_types l) /\ 0 <= snd (DL.count_types l).
Proof.
  induction l as [|li l IH]; intros H; [simpl; lia|].
  destruct IH as (IH1 & IH2 & IH3); [intros x Hx; apply H; now right|].
  cbn [DL.count_types List.length].
  destruct (H li (or_introl eq_refl)) as [E|E]; rewrite E; simpl; lia.
Qed.

(** X18. Every layer that the script is going to download, after the
    choice of a domain, has a type and an identifier that agree (software
    and S, or groups and G) and domains among enterprise, mobile and ics;
    and the number of groups and the number of software that the script
    announces add up to the number of layers to download. *)
Theorem X18_layers_to_download (stix_data : list DL.StixBlock)
        (selected_groups_domain selected_software_domain : string) :
  selected_groups_domain = "all" \/ In selected_groups_domain DL.DOMAINS ->
  selected_software_domain = "all" \/ In selected_software_domain DL.DOMAINS ->
  let layer_info_download_list :=
    map (DL.select_domain selected_groups_domain selected_software_domain)
        (fst (DL.convert stix_data)) in
  (forall layer_info,
     In layer_info layer_info_download_list ->
     ((exists rest, DL.id layer_info = String "S" rest) /\
      DL.type layer_info = "software" \/
      (exists rest, DL.id layer_info = String "G" rest) /\
      DL.type layer_info = "groups") /\
     Forall (fun domain => In domain DL.DOMAINS) (DL.domains layer_info)) /\
  fst (DL.count_types layer_info_download_list)
  + snd (DL.count_types layer_info_download_list)
  = Z.of_nat (List.length layer_info_download_list).
Proof.
  intros G S l.
  assert (Inv : forall layer_info,
            In layer_info l ->
            ((exists rest, DL.id layer_info = String "S" rest) /\
             DL.type layer_info = "software" \/
             (exists rest, DL.id layer_info = String "G" rest) /\
             DL.type layer_info = "groups") /\
            Forall (fun domain => In domain DL.DOMAINS) (DL.domains layer_info)).
  { intros li Hli. unfold l in Hli. apply in_map_iff in Hli as (li0 & E & I0).
    apply convert_converted in I0 as (b & _ & R).
    apply from_stix_block_returns in R as (r & _ & R).
    apply new_LayerInfo_returns in R as (I1 & I2 & D & T).
    rewrite <- I2 in D. rewrite <- I1 in T. subst li. unfold DL.select_domain.
    destruct (selected_groups_domain =? "all")%string eqn:Eg;
      destruct (selected_software_domain =? "all")%string eqn:Es;
      cbn [negb andb];
      destruct T as [[T1 T2]|[T1 T2]]; rewrite T2; simpl;
      try rewrite T2; simpl; (split; [auto|]); try assumption.
    all: try (constructor; [|constructor]).
    all: try (destruct S as [S|S]; [subst; discriminate | exact S]).
    all: try (destruct G as [G|G]; [subst; discriminate | exact G]). }
  split; [exact Inv|].
  apply count_types_sum. intros li Hli. destruct (Inv li Hli) as [[[_ T]|[_ T]] _]; auto.
Qed.

Lemma X18_layers_to_download_witness :
  let layer_info_download_list :=
    map (DL.select_domain "all" "mobile")
        (fst (DL.convert
                [DL.mkStixBlock "malware" [DL.mkExternalReference "mitre-attack" "S0001"]
                                ["enterprise-attack"; "mobile-attack"];
                 DL.mkStixBlock "campaign" [] []])) in
  (forall layer_info,
     In layer_info layer_info_download_list ->
     ((exists rest, DL.id layer_info = String "S" rest) /\
      DL.type layer_info = "software" \/
      (exists rest, DL.id layer_info = String "G" rest) /\
      DL.type layer_info = "groups") /\
     Forall (fun domain => In domain DL.DOMAINS) (DL.domains layer_info)) /\
  fst (DL.count_types layer_info_download_list)
  + snd (DL.count_types layer_info_download_list)
  = Z.of_nat (List.length layer_info_download_list).
Proof.
  apply (X18_layers_to_download
           [DL.mkStixBlock "malware" [DL.mkExternalReference "mitre-attack" "S0001"]
                           ["enterprise-attack"; "mobile-attack"];
            DL.mkStixBlock "campaign" [] []] "all" "mobile").
  - now left.
  - right. simpl. auto.
Defined.

Lemma download_loop_counts download layers_path l : forall software groups,
  (forall li, In li l -> DL.type li = "software" \/ DL.type li = "groups") ->
  exists software' groups',
    DL.download_loop download layers_path l [("software", software); ("groups", groups)]
    = DL.Return [("software", software'); ("groups", groups')] /\
    software <= software' <= software + snd (DL.count_types l) /\
    groups <= groups' <= groups + fst (DL.count_types l).
Proof.
  induction l as [|li l IH]; intros software groups H.
  - exists software, groups. simpl. repeat split; lia.
  - assert (Hl : forall x, In x l -> DL.type x = "software" \/ DL.type x = "groups")
      by (intros x Hx; apply H; now right).
    destruct (count_types_sum l Hl) as (_ & P1 & P2).
    cbn [DL.download_loop DL.count_types].
    destruct (fst (DL.download_info_layer download li layers_path)).
    + destruct (H li (or_introl eq_refl)) as [E|E]; rewrite E; simpl.
      * destruct (IH (software + 1) groups Hl) as (s' & g' & R & B1 & B2).
        exists s', g'. split; [assumption|]. lia.
      * destruct (IH software (groups + 1) Hl) as (s' & g' & R & B1 & B2).
        exists s', g'. split; [assumption|]. lia.
    + destruct (IH software groups Hl) as (s' & g' & R & B1 & B2).
      exists s', g'. split; [assumption|].
      destruct (H li (or_introl eq_refl)) as [E|E]; rewrite E; simpl; lia.
Qed.

(** X19. Whatever the downloads do, counting the layers that were
    entirely downloaded never fails on a missing key: for the layers that
    the script converted from STIX blocks, the loop returns a number of
    software and a number of groups, each between 0 and the number that
    was announced. *)
Theorem X19_download_counts (download : string -> string -> option string)
        (layers_path : string) (stix_data : list DL.StixBlock)
        (selected_groups_domain selected_software_domain : string) :
  let layer_info_download_list :=
    map (DL.select_domain selected_groups_domain selected_software_domain)
        (fst (DL.convert stix_data)) in
  exists software groups,
    DL.download_all download layers_path layer_info_download_list
    = DL.Return [("software", software); ("groups", groups)] /\
    0 <= software <= snd (DL.count_types layer_info_download_list) /\
    0 <= groups <= fst (DL.count_types layer_info_download_list).
Proof.
  intros l. unfold DL.download_all. cbn [map DL.LAYER_TYPES snd].
  apply (download_loop_counts download layers_path l 0 0).
  intros li Hli. unfold l in Hli. apply in_map_iff in Hli as (li0 & E & I0).
  apply convert_converted in I0 as (b & _ & R).
  apply from_stix_block_returns in R as (r & _ & R).
  apply new_LayerInfo_returns in R as (_ & _ & _ & T).
  subst li. unfold DL.select_domain.
  destruct (negb (selected_groups_domain =? "all")%string),
           (negb (selected_software_domain =? "all")%string);
    cbn [andb]; destruct T as [[_ T]|[_ T]]; rewrite T; simpl; rewrite ?T; simpl; auto.
Qed.

(** X20. [download_info_layer] tries every domain of the layer, also
    after a failure: it prints one line for each domain, and it returns
    true exactly when no download raised an exception. *)
Theorem X20_download_info_layer (download : string -> string -> option string)
        (layer_info : DL.LayerInfo) (layers_path : string) :
  let download_path domain :=
    layers_path ++ "/" ++ domain ++ "/" ++ DL.type layer_info ++ "/"
    ++ DL.id layer_info ++ ".json" in
  let download_url domain :=
    "https://attack.mitre.org/" ++ DL.type layer_info ++ "/" ++ DL.id layer_info ++ "/"
    ++ DL.id layer_info ++ "-" ++ domain ++ "-layer.json" in
  List.length (snd (DL.download_info_layer download layer_info layers_path))
  = List.length (DL.domains layer_info) /\
  (fst (DL.download_info_layer download layer_info layers_path) = true <->
   forall domain, In domain (DL.domains layer_info) ->
                  download (download_url domain) (download_path domain) = None).
Proof.
  intros download_path download_url. unfold DL.download_info_layer.
  assert (G : forall ds flag,
            List.length (snd (DL.download_domains download layer_info layers_path ds flag))
            = List.length ds /\
            (fst (DL.download_domains download layer_info layers_path ds flag) = true <->
             flag = true /\
             forall domain, In domain ds ->
                            download (download_url domain) (download_path domain) = None)).
  { induction ds as [|d ds IH]; intros flag; cbn [DL.download_domains].
    - simpl. split; [reflexivity|]. split; [intros ->; split; [reflexivity | intros ? []]|].
      now intros [-> _].
    - fold (download_url d). fold (download_path d).
      destruct (download (download_url d) (download_path d)) as [message|] eqn:E;
        cbn [fst snd List.length].
      + destruct (IH false) as [L F]. rewrite L. split; [reflexivity|].
        rewrite F. split; [intros [? _]; discriminate|].
        intros [_ H]. specialize (H d (or_introl eq_refl)). congruence.
      + destruct (IH flag) as [L F]. rewrite L. split; [reflexivity|].
        rewrite F. split.
        * intros [Hf H]. split; [assumption|]. intros x [<-|Hx]; auto.
        * intros [Hf H]. split; [assumption|]. intros x Hx. apply H. now right. }
  destruct (G (DL.domains layer_info) true) as [L F]. split; [assumption|].
  rewrite F. split; [now intros [_ H] | now split].
Qed.

Lemma first_id_some stix_block id_list id :
  DL.first_id stix_block id_list = Some id ->
  In id id_list /\ DL.is_stix_block_of_attack_id stix_block id = true.
Proof.
  induction id_list as [|x l IH]; simpl; [discriminate|].
  destruct (DL.is_stix_block_of_attack_id stix_block x) eqn:E.
  - intros H. inversion H; subst. auto.
  - intros H. destruct (IH H). auto.
Qed.

Lemma first_id_none stix_block id_list :
  DL.first_id stix_block id_list = None ->
  forall id, In id id_list -> DL.is_stix_block_of_attack_id stix_block id = false.
Proof.
  induction id_list as [|x l IH]; simpl; [intros _ ? []|].
  destruct (DL.is_stix_block_of_attack_id stix_block x) eqn:E; [discriminate|].
  intros H id [<-|I]; auto.
Qed.

Lemma remove_first_length x l :
  In x l -> S (List.length (DL.remove_first x l)) = List.length l.
Proof.
  induction l as [|y l IH]; simpl; [tauto|].
  destruct (String.eqb_spec y x) as [E|E]; [reflexivity|].
  intros [H|H]; [contradiction|]. simpl. now rewrite IH.
Qed.

Lemma remove_first_in x y l : In y (DL.remove_first x l) -> In y l.
Proof.
  induction l as [|z l IH]; simpl; [tauto|].
  destruct (String.eqb_spec z x); [now right|]. intros [H|H]; auto.
Qed.

Lemma select_loop_spec all_stix_data : forall stix_data id_list,
  exists found,
    fst (DL.select_loop all_stix_data stix_data id_list) = (stix_data ++ found)%list /\
    (List.length found
     + List.length (snd (DL.select_loop all_stix_data stix_data id_list))
     = List.length id_list)%nat /\
    (forall b, In b found ->
               In b all_stix_data /\
               exists id, In id id_list /\ DL.is_stix_block_of_attack_id b id = true) /\
    (forall id, In id (snd (DL.select_loop all_stix_data stix_data id_list)) ->
                In id id_list /\
                forall b, In b all_stix_data ->
                          DL.is_stix_block_of_attack_id b id = true -> In b found).
Proof.
  induction all_stix_data as [|b data IH]; intros stix_data id_list.
  - exists []. simpl. rewrite app_nil_r. repeat split; try tauto.
  - cbn [DL.select_loop].
    destruct (DL.first_id b id_list) as [id|] eqn:F; cbn [fst snd].
    + destruct (first_id_some _ _ _ F) as [Hin Hm].
      pose proof (remove_first_length id id_list Hin) as Len.
      destruct (Z.eqb_spec (Z.of_nat (List.length (DL.remove_first id id_list))) 0)
        as [E|E].
      * exists [b]. cbn [fst snd]. split; [reflexivity|]. split; [simpl; lia|].
        split.
        -- intros x [<-|[]]. split; [now left | eauto].
        -- intros x Hx. destruct (DL.remove_first id id_list); [destruct Hx | simpl in E; lia].
      * destruct (IH (stix_data ++ [b])%list (DL.remove_first id id_list))
          as (found & E1 & E2 & E3 & E4).
        exists (b :: found). split; [now rewrite E1, <- app_assoc|].
        split; [simpl; lia|]. split.
        -- intros x [<-|Hx]; [split; [now left | eauto]|].
           destruct (E3 x Hx) as (I1 & id' & I2 & I3).
           split; [now right|]. exists id'. split; [|assumption].
           now apply (remove_first_in id).
        -- intros x Hx. destruct (E4 x Hx) as [I1 I2].
           split; [now apply (remove_first_in id)|].
           intros b' [<-|Hb] Hm'; [now left | right; auto].
    + destruct (Z.eqb_spec (Z.of_nat (List.length id_list)) 0) as [E|E].
      * exists []. cbn [fst snd]. rewrite app_nil_r. split; [reflexivity|].
        split; [reflexivity|]. split; [intros ? []|].
        intros x Hx. destruct id_list; [destruct Hx | simpl in E; lia].
      * destruct (IH stix_data id_list) as (found & E1 & E2 & E3 & E4).
        exists found. split; [assumption|]. split; [assumption|]. split.
        -- intros x Hx. destruct (E3 x Hx) as (I1 & I2). split; [now right | assumption].
        -- intros x Hx. destruct (E4 x Hx) as [I1 I2]. split; [assumption|].
           intros b' [<-|Hb] Hm'; [|auto].
           rewrite (first_id_none _ _ F x I1) in Hm'. discriminate.
Qed.

(** X21. The search of the blocks by identifier adds to the blocks
    already chosen some blocks of the catalog, one for each identifier
    that it removes from the list: the number of blocks added and the
    number of identifiers left add up to the number of identifiers asked
    for.  Every block added carries one of the identifiers asked for, and
    an identifier that is left is carried by no block of the catalog
    other than blocks added (for another identifier). *)
Theorem X21_select_by_ids (all_stix_data stix_data : list DL.StixBlock)
        (id_list : list string) :
  exists found,
    fst (DL.select_by_ids all_stix_data stix_data id_list) = (stix_data ++ found)%list /\
    (List.length found
     + List.length (snd (DL.select_by_ids all_stix_data stix_data id_list))
     = List.length id_list)%nat /\
    (forall b, In b found ->
               In b all_stix_data /\
               exists id, In id id_list /\ DL.is_stix_block_of_attack_id b id = true) /\
    (forall id, In id (snd (DL.select_by_ids all_stix_data stix_data id_list)) ->
                In id id_list /\
                forall b, In b all_stix_data ->
                          DL.is_stix_block_of_attack_id b id = true -> In b found).
Proof.
  unfold DL.select_by_ids.
  destruct (Z.eqb_spec (Z.of_nat (List.length id_list)) 0) as [E|E]; cbn [negb].
  - exists []. cbn [fst snd]. rewrite app_nil_r. split; [reflexivity|].
    split; [reflexivity|]. split; [intros ? []|].
    intros x Hx. destruct id_list; [destruct Hx | simpl in E; lia].
  - apply select_loop_spec.
Qed.

(** X22. The identifier of the layer built from a STIX block is always an
    identifier that the block carries, so that a layer is downloaded under
    an identifier by which the search finds its block; and it is the
    identifier that [extract_layer_info_from_stix_data] gives for the
    block. *)
Theorem X22_identifier_of_the_block (stix_block : DL.StixBlock) (layer_info : DL.LayerInfo) :
  DL.from_stix_block stix_block = DL.Return layer_info ->
  DL.is_stix_block_of_attack_id stix_block (DL.id layer_info) = true /\
  DL.extract_layer_info_from_stix_data [stix_block] = [DL.id layer_info].
Proof.
  intros R. apply from_stix_block_returns in R as (r & F & R).
  apply new_LayerInfo_returns in R as (I & _). rewrite I. split.
  - unfold DL.is_stix_block_of_attack_id. apply existsb_exists.
    apply find_some in F as [Hin Hs]. exists r. split; [assumption|].
    now rewrite Hs, String.eqb_refl.
  - unfold DL.extract_layer_info_from_stix_data. simpl. now rewrite F.
Qed.

Lemma X22_identifier_of_the_block_witness :
  DL.is_stix_block_of_attack_id
    (DL.mkStixBlock "tool" [DL.mkExternalReference "mitre-attack" "S0002"]
                    ["enterprise-attack"]) "S0002" = true /\
  DL.extract_layer_info_from_stix_data
    [DL.mkStixBlock "tool" [DL.mkExternalReference "mitre-attack" "S0002"]
                    ["enterprise-attack"]] = ["S0002"].
Proof.
  apply (X22_identifier_of_the_block
           (DL.mkStixBlock "tool" [DL.mkExternalReference "mitre-attack" "S0002"]
                           ["enterprise-attack"])
           (DL.mkLayerInfo "S0002" "software" ["enterprise"])).
  reflexivity.
Defined.
